(** * Shallow embedding of the chromewhip generated protocol bindings

    The modules [chromewhip/protocol/*.py] are generated: every structure
    type is a [ChromeTypeBase] subclass whose constructor stores its keyword
    arguments, every event is a [BaseEvent] subclass with [js_name],
    [hashable], [is_hashable], a decoding constructor and a [build_hash]
    classmethod, and every command is a [PayloadMixin] classmethod returning
    [(cls.build_send_payload(method, {...}), result_schema_or_None)].

    The generated methods all share a handful of bodies, so each body is
    embedded once as an interpreter ([struct_init], [event_init],
    [build_hash], [invoke]) over a record that holds the per-class data
    (names, signatures, converted fields), and the catalog below lists
    that data for every class of the sixteen modules. *)

From Stdlib Require Import String Ascii List ZArith Bool Lia DecimalString DecimalZ.
Import ListNotations.
Open Scope string_scope.
Set Warnings "-register-all".

(** ** Python values *)

(** Run-time values as they reach the generated code: JSON-decoded wire
    data ([None], bools, ints, floats, strings, lists, dicts) and instances
    built by the generated constructors ([PObj]: class name and the
    attributes in assignment order).  A float is kept as its [repr]. *)
Inductive pyval : Type :=
| PNone
| PBool (b : bool)
| PInt (z : Z)
| PFloat (repr : string)
| PStr (s : string)
| PList (xs : list pyval)
| PDict (kv : list (string * pyval))
| PObj (cls : string) (attrs : list (string * pyval)).

(** A raised Python exception: its type name and message. *)
Record py_exc : Type := Exc { exc_type : string; exc_msg : string }.

(** Code that either returns or raises. *)
Inductive result (A : Type) : Type :=
| Ok (a : A)
| Raise (e : py_exc).
Arguments Ok {A} a.
Arguments Raise {A} e.

Definition rbind {A B : Type} (m : result A) (k : A -> result B) : result B :=
  match m with
  | Ok a => k a
  | Raise e => Raise e
  end.

Notation "x <- m ;; k" := (rbind m (fun x => k))
  (at level 61, m at next level, right associativity).

Definition TypeError (msg : string) : py_exc := Exc "TypeError" msg.
Definition ValueError (msg : string) : py_exc := Exc "ValueError" msg.
Definition NameError (msg : string) : py_exc := Exc "NameError" msg.

(** Dict / keyword-argument lookup (a Python dict has unique keys; the
    first binding is the one looked up). *)
Fixpoint lookup {A : Type} (k : string) (kv : list (string * A)) : option A :=
  match kv with
  | [] => None
  | (k', v) :: rest => if String.eqb k k' then Some v else lookup k rest
  end.

(** ** [str] and [repr] *)

Definition char (n : nat) : string := String (ascii_of_nat n) EmptyString.

Definition hex_digit (n : nat) : string :=
  char (if Nat.ltb n 10 then 48 + n else 87 + n).

(** [str(n)] for an int: its decimal digits, with a leading [-] when
    negative. *)
Definition int_str (z : Z) : string := NilEmpty.string_of_int (Z.to_int z).

(** One character inside [repr(s)] of a str delimited by [q]: backslash,
    the delimiter and non-printable characters are escaped. *)
Definition repr_char (q : ascii) (c : ascii) : string :=
  let n := nat_of_ascii c in
  if Ascii.eqb c "\" then "\\"
  else if Ascii.eqb c q then String "\" (String q EmptyString)
  else if Nat.eqb n 9 then "\t"
  else if Nat.eqb n 10 then "\n"
  else if Nat.eqb n 13 then "\r"
  else if orb (Nat.ltb n 32) (orb (andb (Nat.leb 127 n) (Nat.leb n 160)) (Nat.eqb n 173))
  then "\x" ++ hex_digit (n / 16) ++ hex_digit (n mod 16)
  else String c EmptyString.

Fixpoint has_char (c : ascii) (s : string) : bool :=
  match s with
  | EmptyString => false
  | String c' s' => Ascii.eqb c c' || has_char c s'
  end.

Fixpoint repr_chars (q : ascii) (s : string) : string :=
  match s with
  | EmptyString => EmptyString
  | String c s' => repr_char q c ++ repr_chars q s'
  end.

(** [repr(s)] for a str: single quotes, unless the text holds a single
    quote and no double quote. *)
Definition str_repr (s : string) : string :=
  let q := if has_char "'" s && negb (has_char (ascii_of_nat 34) s)
           then ascii_of_nat 34 else "'"%char in
  String q (repr_chars q s ++ String q EmptyString).

(** [repr(v)].  An instance is rendered by its class name only (CPython
    appends the object's address, which the model does not have). *)
Fixpoint py_repr (v : pyval) : string :=
  match v with
  | PNone => "None"
  | PBool true => "True"
  | PBool false => "False"
  | PInt z => int_str z
  | PFloat r => r
  | PStr s => str_repr s
  | PList xs => "[" ++ String.concat ", " (map py_repr xs) ++ "]"
  | PDict kv =>
      "{" ++ String.concat ", " (map (fun '(k, x) => str_repr k ++ ": " ++ py_repr x) kv) ++ "}"
  | PObj cls _ => "<" ++ cls ++ " object>"
  end.

(** [str(v)]: the text itself for a str, [repr] otherwise. *)
Definition py_str (v : pyval) : string :=
  match v with
  | PStr s => s
  | _ => py_repr v
  end.

(** ** Calling a Python function with keyword arguments *)

(** A formal parameter; every default in the generated code is [None]. *)
Record param : Type := { p_name : string; p_default_none : bool }.

Definition req (n : string) : param := {| p_name := n; p_default_none := false |}.
Definition opt (n : string) : param := {| p_name := n; p_default_none := true |}.

Fixpoint bind_params (ps : list param) (kw : list (string * pyval))
  : result (list (string * pyval)) :=
  match ps with
  | [] => Ok []
  | p :: ps' =>
      v <- match lookup (p_name p) kw with
           | Some v => Ok v
           | None =>
               if p_default_none p then Ok PNone
               else Raise (TypeError ("missing required argument: '" ++ p_name p ++ "'"))
           end ;;
      rest <- bind_params ps' kw ;;
      Ok ((p_name p, v) :: rest)
  end.

(** [f( **kw)]: an unknown keyword is rejected first, then every parameter
    is bound from [kw] or its default, or the call fails for a missing
    required argument.  The result is the frame's locals in declaration
    order (what [locals()] returns on entry). *)
Definition call_kw (ps : list param) (kw : list (string * pyval))
  : result (list (string * pyval)) :=
  match find (fun '(k, _) => negb (existsb (fun p => String.eqb k (p_name p)) ps)) kw with
  | Some (k, _) => Raise (TypeError ("got an unexpected keyword argument '" ++ k ++ "'"))
  | None => bind_params ps kw
  end.

(** Reading a local variable of the frame. *)
Definition local (x : string) (locals : list (string * pyval)) : result pyval :=
  match lookup x locals with
  | Some v => Ok v
  | None => Raise (NameError ("name '" ++ x ++ "' is not defined"))
  end.

(** ** Generated classes *)

(** The builtins that the event constructors call as [T( **x)]. *)
Inductive builtin : Type := BStr | BInt | BBool | BFloat | BDict.

(** [T( **kw)] for a builtin [T].  [int], [bool] and [float] take their
    argument positionally only, so they accept no keyword and return
    their zero when called with none; [str] accepts [object], [encoding]
    and [errors], and decoding is refused for the non-bytes values of the
    model; [dict] copies its keywords. *)
Definition builtin_call (b : builtin) (kw : list (string * pyval)) : result pyval :=
  match b, kw with
  | BDict, _ => Ok (PDict kw)
  | BInt, [] => Ok (PInt 0)
  | BBool, [] => Ok (PBool false)
  | BFloat, [] => Ok (PFloat "0.0")
  | BStr, _ =>
      if existsb (fun '(k, _) => negb (existsb (String.eqb k) ["object"; "encoding"; "errors"])) kw
      then Raise (TypeError "str() got an unexpected keyword argument")
      else match lookup "object" kw with
           | None => Ok (PStr "")
           | Some v =>
               if orb (existsb (fun '(k, _) => String.eqb k "encoding") kw)
                      (existsb (fun '(k, _) => String.eqb k "errors") kw)
               then Raise (TypeError "decoding str is not supported")
               else Ok (PStr (py_str v))
           end
  | _, _ => Raise (TypeError "takes no keyword arguments")
  end.

(** A [ChromeTypeBase] structure: constructor signature and the order of
    its [self.f = f] assignments. *)
Record struct_class : Type := {
  sc_name : string;
  sc_params : list param;
  sc_body : list string
}.

(** What [T] denotes in [if isinstance(x, dict): x = T( **x)]: a builtin
    (also through a module-level alias such as [NodeId = int]), a
    structure class, a list display such as [[Node]] (the generator's
    rendering of an array type), or a name of a protocol module that is
    not part of this source tree ([Page], [Runtime], [IO]). *)
Inductive conv : Type :=
| CBuiltin (b : builtin)
| CStruct (sc : struct_class)
| CListLiteral (src : string)
| CExtern (qualname : string).

(** [build_hash]: either the serialising body or the raising one, with
    the parameters after [cls]. *)
Inductive build_hash_def : Type :=
| BHRaise (ps : list string)
| BHSerialize (ps : list string).

(** A [BaseEvent] subclass. *)
Record event_class : Type := {
  ev_cls : string;
  js_name : string;
  hashable : list string;
  is_hashable : bool;
  ev_params : list param;
  ev_body : list (string * conv);
  ev_build_hash : build_hash_def
}.

(** A [PayloadMixin] classmethod: its class (the domain), name,
    signature, the method string passed to [build_send_payload], the
    dict display passed with it (key, variable read), and the
    [convert_payload] argument (field, class expression, optional flag)
    or [None]. *)
Record command : Type := {
  cmd_domain : string;
  cmd_name : string;
  cmd_params : list param;
  cmd_method : string;
  cmd_payload : list (string * string);
  cmd_result : option (list (string * string * bool))
}.

(** ** The generated method bodies *)

(** [self.f = f] for each assigned name, in order. *)
Fixpoint assign_attrs (body : list string) (locals : list (string * pyval))
  : result (list (string * pyval)) :=
  match body with
  | [] => Ok []
  | f :: rest =>
      v <- local f locals ;;
      attrs <- assign_attrs rest locals ;;
      Ok ((f, v) :: attrs)
  end.

(** [StructType( **kw)]: a [ChromeTypeBase] constructor only stores its
    arguments. *)
Definition struct_init (sc : struct_class) (kw : list (string * pyval)) : result pyval :=
  locals <- call_kw (sc_params sc) kw ;;
  attrs <- assign_attrs (sc_body sc) locals ;;
  Ok (PObj (sc_name sc) attrs).

Section Decode.

(** [T( **kw)] for a [T] of a protocol module outside this source tree. *)
Variable extern_call : string -> list (string * pyval) -> result pyval.

Definition convert (c : conv) (kw : list (string * pyval)) : result pyval :=
  match c with
  | CBuiltin b => builtin_call b kw
  | CStruct sc => struct_init sc kw
  | CListLiteral _ => Raise (TypeError "'list' object is not callable")
  | CExtern q => extern_call q kw
  end.

(** [if isinstance(x, dict): x = T( **x)] *)
Definition decode_value (c : conv) (v : pyval) : result pyval :=
  match v with
  | PDict kw => convert c kw
  | _ => Ok v
  end.

(** The body of an event constructor: for each field in turn, the
    conversion above, then [self.x = x]. *)
Fixpoint decode_fields (body : list (string * conv)) (locals : list (string * pyval))
  : result (list (string * pyval)) :=
  match body with
  | [] => Ok []
  | (x, c) :: rest =>
      v <- local x locals ;;
      v' <- decode_value c v ;;
      attrs <- decode_fields rest locals ;;
      Ok ((x, v') :: attrs)
  end.

(** [EventClass( **params)]. *)
Definition event_init (e : event_class) (kw : list (string * pyval)) : result pyval :=
  locals <- call_kw (ev_params e) kw ;;
  attrs <- decode_fields (ev_body e) locals ;;
  Ok (PObj (ev_cls e) attrs).

End Decode.

(** [','.join(['='.join([p, str(v)]) for p, v in kwargs.items()])] *)
Definition serialize_id_params (kwargs : list (string * pyval)) : string :=
  String.concat "," (map (fun '(p, v) => String.concat "=" [p; py_str v]) kwargs).

(** [EventClass.build_hash( **kw)].  The serialising body takes
    [locals()] (the parameters, in declaration order, once [cls] is
    popped) and returns ['{}:{}'.format(cls.js_name, ...)]; the other body
    raises [ValueError]. *)
Definition build_hash (e : event_class) (kw : list (string * pyval)) : result string :=
  match ev_build_hash e with
  | BHRaise ps =>
      _ <- call_kw (map req ps) kw ;;
      Raise (ValueError "Unable to build hash for non-hashable type")
  | BHSerialize ps =>
      kwargs <- call_kw (map req ps) kw ;;
      Ok (js_name e ++ ":" ++ serialize_id_params kwargs)
  end.

Definition is_none (v : pyval) : bool :=
  match v with PNone => true | _ => false end.

(** Modelled from the spec: [PayloadMixin.build_send_payload] of
    [chromewhip/helpers.py], which is not in this source tree.  Following
    the spec's envelope, it pairs the wire method name ["Domain.method"]
    (the domain being the class the command is defined on) with the
    params mapping, from which every parameter whose value is absent
    ([None]) is left out. *)
Definition build_send_payload (domain method : string) (params : list (string * pyval)) : pyval :=
  PDict [("method", PStr (domain ++ "." ++ method));
         ("params", PDict (filter (fun '(_, v) => negb (is_none v)) params))].

(** Modelled from the spec: [PayloadMixin.convert_payload] of
    [chromewhip/helpers.py], not in this source tree; the spec has the
    command return the declared result schema for decoding the response. *)
Definition convert_payload (schema : list (string * string * bool)) : list (string * string * bool) :=
  schema.

(** The dict display [{"k": v, ...}] of a command body. *)
Fixpoint read_display (display : list (string * string)) (locals : list (string * pyval))
  : result (list (string * pyval)) :=
  match display with
  | [] => Ok []
  | (k, x) :: rest =>
      v <- local x locals ;;
      kvs <- read_display rest locals ;;
      Ok ((k, v) :: kvs)
  end.

(** [Domain.command( **kw)]: the generated classmethod body. *)
Definition invoke (c : command) (kw : list (string * pyval))
  : result (pyval * option (list (string * string * bool))) :=
  locals <- call_kw (cmd_params c) kw ;;
  params <- read_display (cmd_payload c) locals ;;
  Ok (build_send_payload (cmd_domain c) (cmd_method c) params,
      option_map convert_payload (cmd_result c)).
Module accessibility.
Definition AXValueSource : struct_class :=
  {| sc_name := "AXValueSource";
     sc_params := [req "type"; opt "value"; opt "attribute"; opt "attributeValue"; opt "superseded"; opt "nativeSource"; opt "nativeSourceValue"; opt "invalid"; opt "invalidReason"];
     sc_body := ["type"; "value"; "attribute"; "attributeValue"; "superseded"; "nativeSource"; "nativeSourceValue"; "invalid"; "invalidReason"] |}.
Definition AXRelatedNode : struct_class :=
  {| sc_name := "AXRelatedNode";
     sc_params := [req "backendDOMNodeId"; opt "idref"; opt "text"];
     sc_body := ["backendDOMNodeId"; "idref"; "text"] |}.
Definition AXProperty : struct_class :=
  {| sc_name := "AXProperty";
     sc_params := [req "name"; req "value"];
     sc_body := ["name"; "value"] |}.
Definition AXValue : struct_class :=
  {| sc_name := "AXValue";
     sc_params := [req "type"; opt "value"; opt "relatedNodes"; opt "sources"];
     sc_body := ["type"; "value"; "relatedNodes"; "sources"] |}.
Definition AXNode : struct_class :=
  {| sc_name := "AXNode";
     sc_params := [req "nodeId"; req "ignored"; opt "ignoredReasons"; opt "role"; opt "name"; opt "description"; opt "value"; opt "properties"; opt "childIds"; opt "backendDOMNodeId"];
     sc_body := ["nodeId"; "ignored"; "ignoredReasons"; "role"; "name"; "description"; "value"; "properties"; "childIds"; "backendDOMNodeId"] |}.
Definition Accessibility_getPartialAXTree : command :=
  {| cmd_domain := "Accessibility";
     cmd_name := "getPartialAXTree";
     cmd_params := [req "nodeId"; opt "fetchRelatives"];
     cmd_method := "getPartialAXTree";
     cmd_payload := [("nodeId", "nodeId"); ("fetchRelatives", "fetchRelatives")];
     cmd_result := Some [("nodes", "[AXNode]", false)] |}.
End accessibility.

Module applicationcache.
Definition ApplicationCacheResource : struct_class :=
  {| sc_name := "ApplicationCacheResource";
     sc_params := [req "url"; req "size"; req "type"];
     sc_body := ["url"; "size"; "type"] |}.
Definition ApplicationCache : struct_class :=
  {| sc_name := "ApplicationCache";
     sc_params := [req "manifestURL"; req "size"; req "creationTime"; req "updateTime"; req "resources"];
     sc_body := ["manifestURL"; "size"; "creationTime"; "updateTime"; "resources"] |}.
Definition FrameWithManifest : struct_class :=
  {| sc_name := "FrameWithManifest";
     sc_params := [req "frameId"; req "manifestURL"; req "status"];
     sc_body := ["frameId"; "manifestURL"; "status"] |}.
Definition ApplicationCache_getFramesWithManifests : command :=
  {| cmd_domain := "ApplicationCache";
     cmd_name := "getFramesWithManifests";
     cmd_params := [];
     cmd_method := "getFramesWithManifests";
     cmd_payload := [];
     cmd_result := Some [("frameIds", "[FrameWithManifest]", false)] |}.
Definition ApplicationCache_enable : command :=
  {| cmd_domain := "ApplicationCache";
     cmd_name := "enable";
     cmd_params := [];
     cmd_method := "enable";
     cmd_payload := [];
     cmd_result := None |}.
Definition ApplicationCache_getManifestForFrame : command :=
  {| cmd_domain := "ApplicationCache";
     cmd_name := "getManifestForFrame";
     cmd_params := [req "frameId"];
     cmd_method := "getManifestForFrame";
     cmd_payload := [("frameId", "frameId")];
     cmd_result := Some [("manifestURL", "str", false)] |}.
Definition ApplicationCache_getApplicationCacheForFrame : command :=
  {| cmd_domain := "ApplicationCache";
     cmd_name := "getApplicationCacheForFrame";
     cmd_params := [req "frameId"];
     cmd_method := "getApplicationCacheForFrame";
     cmd_payload := [("frameId", "frameId")];
     cmd_result := Some [("applicationCache", "ApplicationCache", false)] |}.
Definition ApplicationCacheStatusUpdatedEvent : event_class :=
  {| ev_cls := "ApplicationCacheStatusUpdatedEvent";
     js_name := "Applicationcache.applicationCacheStatusUpdated";
     hashable := ["frameId"];
     is_hashable := true;
     ev_params := [req "frameId"; req "manifestURL"; req "status"];
     ev_body := [("frameId", CExtern "Page.FrameId"); ("manifestURL", CBuiltin BStr); ("status", CBuiltin BInt)];
     ev_build_hash := BHSerialize ["frameId"] |}.
Definition NetworkStateUpdatedEvent : event_class :=
  {| ev_cls := "NetworkStateUpdatedEvent";
     js_name := "Applicationcache.networkStateUpdated";
     hashable := [];
     is_hashable := false;
     ev_params := [req "isNowOnline"];
     ev_body := [("isNowOnline", CBuiltin BBool)];
     ev_build_hash := BHRaise [] |}.
End applicationcache.

Module css.
Definition PseudoElementMatches : struct_class :=
  {| sc_name := "PseudoElementMatches";
     sc_params := [req "pseudoType"; req "matches"];
     sc_body := ["pseudoType"; "matches"] |}.
Definition InheritedStyleEntry : struct_class :=
  {| sc_name := "InheritedStyleEntry";
     sc_params := [req "matchedCSSRules"; opt "inlineStyle"];
     sc_body := ["inlineStyle"; "matchedCSSRules"] |}.
Definition RuleMatch : struct_class :=
  {| sc_name := "RuleMatch";
     sc_params := [req "rule"; req "matchingSelectors"];
     sc_body := ["rule"; "matchingSelectors"] |}.
Definition Value : struct_class :=
  {| sc_name := "Value";
     sc_params := [req "text"; opt "range"];
     sc_body := ["text"; "range"] |}.
Definition SelectorList : struct_class :=
  {| sc_name := "SelectorList";
     sc_params := [req "selectors"; req "text"];
     sc_body := ["selectors"; "text"] |}.
Definition CSSStyleSheetHeader : struct_class :=
  {| sc_name := "CSSStyleSheetHeader";
     sc_params := [req "styleSheetId"; req "frameId"; req "sourceURL"; req "origin"; req "title"; req "disabled"; req "isInline"; req "startLine"; req "startColumn"; req "length"; opt "sourceMapURL"; opt "ownerNode"; opt "hasSourceURL"];
     sc_body := ["styleSheetId"; "frameId"; "sourceURL"; "sourceMapURL"; "origin"; "title"; "ownerNode"; "disabled"; "hasSourceURL"; "isInline"; "startLine"; "startColumn"; "length"] |}.
Definition CSSRule : struct_class :=
  {| sc_name := "CSSRule";
     sc_params := [req "selectorList"; req "origin"; req "style"; opt "styleSheetId"; opt "media"];
     sc_body := ["styleSheetId"; "selectorList"; "origin"; "style"; "media"] |}.
Definition RuleUsage : struct_class :=
  {| sc_name := "RuleUsage";
     sc_params := [req "styleSheetId"; req "startOffset"; req "endOffset"; req "used"];
     sc_body := ["styleSheetId"; "startOffset"; "endOffset"; "used"] |}.
Definition SourceRange : struct_class :=
  {| sc_name := "SourceRange";
     sc_params := [req "startLine"; req "startColumn"; req "endLine"; req "endColumn"];
     sc_body := ["startLine"; "startColumn"; "endLine"; "endColumn"] |}.
Definition ShorthandEntry : struct_class :=
  {| sc_name := "ShorthandEntry";
     sc_params := [req "name"; req "value"; opt "important"];
     sc_body := ["name"; "value"; "important"] |}.
Definition CSSComputedStyleProperty : struct_class :=
  {| sc_name := "CSSComputedStyleProperty";
     sc_params := [req "name"; req "value"];
     sc_body := ["name"; "value"] |}.
Definition CSSStyle : struct_class :=
  {| sc_name := "CSSStyle";
     sc_params := [req "cssProperties"; req "shorthandEntries"; opt "styleSheetId"; opt "cssText"; opt "range"];
     sc_body := ["styleSheetId"; "cssProperties"; "shorthandEntries"; "cssText"; "range"] |}.
Definition CSSProperty : struct_class :=
  {| sc_name := "CSSProperty";
     sc_params := [req "name"; req "value"; opt "important"; opt "implicit"; opt "text"; opt "parsedOk"; opt "disabled"; opt "range"];
     sc_body := ["name"; "value"; "important"; "implicit"; "text"; "parsedOk"; "disabled"; "range"] |}.
Definition CSSMedia : struct_class :=
  {| sc_name := "CSSMedia";
     sc_params := [req "text"; req "source"; opt "sourceURL"; opt "range"; opt "styleSheetId"; opt "mediaList"];
     sc_body := ["text"; "source"; "sourceURL"; "range"; "styleSheetId"; "mediaList"] |}.
Definition MediaQuery : struct_class :=
  {| sc_name := "MediaQuery";
     sc_params := [req "expressions"; req "active"];
     sc_body := ["expressions"; "active"] |}.
Definition MediaQueryExpression : struct_class :=
  {| sc_name := "MediaQueryExpression";
     sc_params := [req "value"; req "unit"; req "feature"; opt "valueRange"; opt "computedLength"];
     sc_body := ["value"; "unit"; "feature"; "valueRange"; "computedLength"] |}.
Definition PlatformFontUsage : struct_class :=
  {| sc_name := "PlatformFontUsage";
     sc_params := [req "familyName"; req "isCustomFont"; req "glyphCount"];
     sc_body := ["familyName"; "isCustomFont"; "glyphCount"] |}.
Definition CSSKeyframesRule : struct_class :=
  {| sc_name := "CSSKeyframesRule";
     sc_params := [req "animationName"; req "keyframes"];
     sc_body := ["animationName"; "keyframes"] |}.
Definition CSSKeyframeRule : struct_class :=
  {| sc_name := "CSSKeyframeRule";
     sc_params := [req "origin"; req "keyText"; req "style"; opt "styleSheetId"];
     sc_body := ["styleSheetId"; "origin"; "keyText"; "style"] |}.
Definition StyleDeclarationEdit : struct_class :=
  {| sc_name := "StyleDeclarationEdit";
     sc_params := [req "styleSheetId"; req "range"; req "text"];
     sc_body := ["styleSheetId"; "range"; "text"] |}.
Definition InlineTextBox : struct_class :=
  {| sc_name := "InlineTextBox";
     sc_params := [req "boundingBox"; req "startCharacterIndex"; req "numCharacters"];
     sc_body := ["boundingBox"; "startCharacterIndex"; "numCharacters"] |}.
Definition CSS_enable : command :=
  {| cmd_domain := "CSS";
     cmd_name := "enable";
     cmd_params := [];
     cmd_method := "enable";
     cmd_payload := [];
     cmd_result := None |}.
Definition CSS_disable : command :=
  {| cmd_domain := "CSS";
     cmd_name := "disable";
     cmd_params := [];
     cmd_method := "disable";
     cmd_payload := [];
     cmd_result := None |}.
Definition CSS_getMatchedStylesForNode : command :=
  {| cmd_domain := "CSS";
     cmd_name := "getMatchedStylesForNode";
     cmd_params := [req "nodeId"];
     cmd_method := "getMatchedStylesForNode";
     cmd_payload := [("nodeId", "nodeId")];
     cmd_result := Some [("inlineStyle", "CSSStyle", true); ("attributesStyle", "CSSStyle", true); ("matchedCSSRules", "[RuleMatch]", true); ("pseudoElements", "[PseudoElementMatches]", true); ("inherited", "[InheritedStyleEntry]", true); ("cssKeyframesRules", "[CSSKeyframesRule]", true)] |}.
Definition CSS_getInlineStylesForNode : command :=
  {| cmd_domain := "CSS";
     cmd_name := "getInlineStylesForNode";
     cmd_params := [req "nodeId"];
     cmd_method := "getInlineStylesForNode";
     cmd_payload := [("nodeId", "nodeId")];
     cmd_result := Some [("inlineStyle", "CSSStyle", true); ("attributesStyle", "CSSStyle", true)] |}.
Definition CSS_getComputedStyleForNode : command :=
  {| cmd_domain := "CSS";
     cmd_name := "getComputedStyleForNode";
     cmd_params := [req "nodeId"];
     cmd_method := "getComputedStyleForNode";
     cmd_payload := [("nodeId", "nodeId")];
     cmd_result := Some [("computedStyle", "[CSSComputedStyleProperty]", false)] |}.
Definition CSS_getPlatformFontsForNode : command :=
  {| cmd_domain := "CSS";
     cmd_name := "getPlatformFontsForNode";
     cmd_params := [req "nodeId"];
     cmd_method := "getPlatformFontsForNode";
     cmd_payload := [("nodeId", "nodeId")];
     cmd_result := Some [("fonts", "[PlatformFontUsage]", false)] |}.
Definition CSS_getStyleSheetText : command :=
  {| cmd_domain := "CSS";
     cmd_name := "getStyleSheetText";
     cmd_params := [req "styleSheetId"];
     cmd_method := "getStyleSheetText";
     cmd_payload := [("styleSheetId", "styleSheetId")];
     cmd_result := Some [("text", "str", false)] |}.
Definition CSS_collectClassNames : command :=
  {| cmd_domain := "CSS";
     cmd_name := "collectClassNames";
     cmd_params := [req "styleSheetId"];
     cmd_method := "collectClassNames";
     cmd_payload := [("styleSheetId", "styleSheetId")];
     cmd_result := Some [("classNames", "[]", false)] |}.
Definition CSS_setStyleSheetText : command :=
  {| cmd_domain := "CSS";
     cmd_name := "setStyleSheetText";
     cmd_params := [req "styleSheetId"; req "text"];
     cmd_method := "setStyleSheetText";
     cmd_payload := [("styleSheetId", "styleSheetId"); ("text", "text")];
     cmd_result := Some [("sourceMapURL", "str", true)] |}.
Definition CSS_setRuleSelector : command :=
  {| cmd_domain := "CSS";
     cmd_name := "setRuleSelector";
     cmd_params := [req "styleSheetId"; req "range"; req "selector"];
     cmd_method := "setRuleSelector";
     cmd_payload := [("styleSheetId", "styleSheetId"); ("range", "range"); ("selector", "selector")];
     cmd_result := Some [("selectorList", "SelectorList", false)] |}.
Definition CSS_setKeyframeKey : command :=
  {| cmd_domain := "CSS";
     cmd_name := "setKeyframeKey";
     cmd_params := [req "styleSheetId"; req "range"; req "keyText"];
     cmd_method := "setKeyframeKey";
     cmd_payload := [("styleSheetId", "styleSheetId"); ("range", "range"); ("keyText", "keyText")];
     cmd_result := Some [("keyText", "Value", false)] |}.
Definition CSS_setStyleTexts : command :=
  {| cmd_domain := "CSS";
     cmd_name := "setStyleTexts";
     cmd_params := [req "edits"];
     cmd_method := "setStyleTexts";
     cmd_payload := [("edits", "edits")];
     cmd_result := Some [("styles", "[CSSStyle]", false)] |}.
Definition CSS_setMediaText : command :=
  {| cmd_domain := "CSS";
     cmd_name := "setMediaText";
     cmd_params := [req "styleSheetId"; req "range"; req "text"];
     cmd_method := "setMediaText";
     cmd_payload := [("styleSheetId", "styleSheetId"); ("range", "range"); ("text", "text")];
     cmd_result := Some [("media", "CSSMedia", false)] |}.
Definition CSS_createStyleSheet : command :=
  {| cmd_domain := "CSS";
     cmd_name := "createStyleSheet";
     cmd_params := [req "frameId"];
     cmd_method := "createStyleSheet";
     cmd_payload := [("frameId", "frameId")];
     cmd_result := Some [("styleSheetId", "StyleSheetId", false)] |}.
Definition CSS_addRule : command :=
  {| cmd_domain := "CSS";
     cmd_name := "addRule";
     cmd_params := [req "styleSheetId"; req "ruleText"; req "location"];
     cmd_method := "addRule";
     cmd_payload := [("styleSheetId", "styleSheetId"); ("ruleText", "ruleText"); ("location", "location")];
     cmd_result := Some [("rule", "CSSRule", false)] |}.
Definition CSS_forcePseudoState : command :=
  {| cmd_domain := "CSS";
     cmd_name := "forcePseudoState";
     cmd_params := [req "nodeId"; req "forcedPseudoClasses"];
     cmd_method := "forcePseudoState";
     cmd_payload := [("nodeId", "nodeId"); ("forcedPseudoClasses", "forcedPseudoClasses")];
     cmd_result := None |}.
Definition CSS_getMediaQueries : command :=
  {| cmd_domain := "CSS";
     cmd_name := "getMediaQueries";
     cmd_params := [];
     cmd_method := "getMediaQueries";
     cmd_payload := [];
     cmd_result := Some [("medias", "[CSSMedia]", false)] |}.
Definition CSS_setEffectivePropertyValueForNode : command :=
  {| cmd_domain := "CSS";
     cmd_name := "setEffectivePropertyValueForNode";
     cmd_params := [req "nodeId"; req "propertyName"; req "value"];
     cmd_method := "setEffectivePropertyValueForNode";
     cmd_payload := [("nodeId", "nodeId"); ("propertyName", "propertyName"); ("value", "value")];
     cmd_result := None |}.
Definition CSS_getBackgroundColors : command :=
  {| cmd_domain := "CSS";
     cmd_name := "getBackgroundColors";
     cmd_params := [req "nodeId"];
     cmd_method := "getBackgroundColors";
     cmd_payload := [("nodeId", "nodeId")];
     cmd_result := Some [("backgroundColors", "[]", true)] |}.
Definition CSS_startRuleUsageTracking : command :=
  {| cmd_domain := "CSS";
     cmd_name := "startRuleUsageTracking";
     cmd_params := [];
     cmd_method := "startRuleUsageTracking";
     cmd_payload := [];
     cmd_result := None |}.
Definition CSS_takeCoverageDelta : command :=
  {| cmd_domain := "CSS";
     cmd_name := "takeCoverageDelta";
     cmd_params := [];
     cmd_method := "takeCoverageDelta";
     cmd_payload := [];
     cmd_result := Some [("coverage", "[RuleUsage]", false)] |}.
Definition CSS_stopRuleUsageTracking : command :=
  {| cmd_domain := "CSS";
     cmd_name := "stopRuleUsageTracking";
     cmd_params := [];
     cmd_method := "stopRuleUsageTracking";
     cmd_payload := [];
     cmd_result := Some [("ruleUsage", "[RuleUsage]", false)] |}.
Definition MediaQueryResultChangedEvent : event_class :=
  {| ev_cls := "MediaQueryResultChangedEvent";
     js_name := "Css.mediaQueryResultChanged";
     hashable := [];
     is_hashable := false;
     ev_params := [];
     ev_body := [];
     ev_build_hash := BHRaise [] |}.
Definition FontsUpdatedEvent : event_class :=
  {| ev_cls := "FontsUpdatedEvent";
     js_name := "Css.fontsUpdated";
     hashable := [];
     is_hashable := false;
     ev_params := [];
     ev_body := [];
     ev_build_hash := BHRaise [] |}.
Definition StyleSheetChangedEvent : event_class :=
  {| ev_cls := "StyleSheetChangedEvent";
     js_name := "Css.styleSheetChanged";
     hashable := ["styleSheetId"];
     is_hashable := true;
     ev_params := [req "styleSheetId"];
     ev_body := [("styleSheetId", CBuiltin BStr)];
     ev_build_hash := BHSerialize ["styleSheetId"] |}.
Definition StyleSheetAddedEvent : event_class :=
  {| ev_cls := "StyleSheetAddedEvent";
     js_name := "Css.styleSheetAdded";
     hashable := [];
     is_hashable := false;
     ev_params := [req "header"];
     ev_body := [("header", CStruct css.CSSStyleSheetHeader)];
     ev_build_hash := BHRaise [] |}.
Definition StyleSheetRemovedEvent : event_class :=
  {| ev_cls := "StyleSheetRemovedEvent";
     js_name := "Css.styleSheetRemoved";
     hashable := ["styleSheetId"];
     is_hashable := true;
     ev_params := [req "styleSheetId"];
     ev_body := [("styleSheetId", CBuiltin BStr)];
     ev_build_hash := BHSerialize ["styleSheetId"] |}.
End css.

Module debugger.
Definition Location : struct_class :=
  {| sc_name := "Location";
     sc_params := [req "scriptId"; req "lineNumber"; opt "columnNumber"];
     sc_body := ["scriptId"; "lineNumber"; "columnNumber"] |}.
Definition ScriptPosition : struct_class :=
  {| sc_name := "ScriptPosition";
     sc_params := [req "lineNumber"; req "columnNumber"];
     sc_body := ["lineNumber"; "columnNumber"] |}.
Definition CallFrame : struct_class :=
  {| sc_name := "CallFrame";
     sc_params := [req "callFrameId"; req "functionName"; req "location"; req "scopeChain"; req "this"; opt "functionLocation"; opt "returnValue"];
     sc_body := ["callFrameId"; "functionName"; "functionLocation"; "location"; "scopeChain"; "this"; "returnValue"] |}.
Definition Scope : struct_class :=
  {| sc_name := "Scope";
     sc_params := [req "type"; req "object"; opt "name"; opt "startLocation"; opt "endLocation"];
     sc_body := ["type"; "object"; "name"; "startLocation"; "endLocation"] |}.
Definition SearchMatch : struct_class :=
  {| sc_name := "SearchMatch";
     sc_params := [req "lineNumber"; req "lineContent"];
     sc_body := ["lineNumber"; "lineContent"] |}.
Definition BreakLocation : struct_class :=
  {| sc_name := "BreakLocation";
     sc_params := [req "scriptId"; req "lineNumber"; opt "columnNumber"; opt "type"];
     sc_body := ["scriptId"; "lineNumber"; "columnNumber"; "type"] |}.
Definition Debugger_enable : command :=
  {| cmd_domain := "Debugger";
     cmd_name := "enable";
     cmd_params := [];
     cmd_method := "enable";
     cmd_payload := [];
     cmd_result := None |}.
Definition Debugger_disable : command :=
  {| cmd_domain := "Debugger";
     cmd_name := "disable";
     cmd_params := [];
     cmd_method := "disable";
     cmd_payload := [];
     cmd_result := None |}.
Definition Debugger_setBreakpointsActive : command :=
  {| cmd_domain := "Debugger";
     cmd_name := "setBreakpointsActive";
     cmd_params := [req "active"];
     cmd_method := "setBreakpointsActive";
     cmd_payload := [("active", "active")];
     cmd_result := None |}.
Definition Debugger_setSkipAllPauses : command :=
  {| cmd_domain := "Debugger";
     cmd_name := "setSkipAllPauses";
     cmd_params := [req "skip"];
     cmd_method := "setSkipAllPauses";
     cmd_payload := [("skip", "skip")];
     cmd_result := None |}.
Definition Debugger_setBreakpointByUrl : command :=
  {| cmd_domain := "Debugger";
     cmd_name := "setBreakpointByUrl";
     cmd_params := [req "lineNumber"; opt "url"; opt "urlRegex"; opt "columnNumber"; opt "condition"];
     cmd_method := "setBreakpointByUrl";
     cmd_payload := [("lineNumber", "lineNumber"); ("url", "url"); ("urlRegex", "urlRegex"); ("columnNumber", "columnNumber"); ("condition", "condition")];
     cmd_result := Some [("breakpointId", "BreakpointId", false); ("locations", "[Location]", false)] |}.
Definition Debugger_setBreakpoint : command :=
  {| cmd_domain := "Debugger";
     cmd_name := "setBreakpoint";
     cmd_params := [req "location"; opt "condition"];
     cmd_method := "setBreakpoint";
     cmd_payload := [("location", "location"); ("condition", "condition")];
     cmd_result := Some [("breakpointId", "BreakpointId", false); ("actualLocation", "Location", false)] |}.
Definition Debugger_removeBreakpoint : command :=
  {| cmd_domain := "Debugger";
     cmd_name := "removeBreakpoint";
     cmd_params := [req "breakpointId"];
     cmd_method := "removeBreakpoint";
     cmd_payload := [("breakpointId", "breakpointId")];
     cmd_result := None |}.
Definition Debugger_getPossibleBreakpoints : command :=
  {| cmd_domain := "Debugger";
     cmd_name := "getPossibleBreakpoints";
     cmd_params := [req "start"; opt "end"; opt "restrictToFunction"];
     cmd_method := "getPossibleBreakpoints";
     cmd_payload := [("start", "start"); ("end", "end"); ("restrictToFunction", "restrictToFunction")];
     cmd_result := Some [("locations", "[BreakLocation]", false)] |}.
Definition Debugger_continueToLocation : command :=
  {| cmd_domain := "Debugger";
     cmd_name := "continueToLocation";
     cmd_params := [req "location"; opt "targetCallFrames"];
     cmd_method := "continueToLocation";
     cmd_payload := [("location", "location"); ("targetCallFrames", "targetCallFrames")];
     cmd_result := None |}.
Definition Debugger_stepOver : command :=
  {| cmd_domain := "Debugger";
     cmd_name := "stepOver";
     cmd_params := [];
     cmd_method := "stepOver";
     cmd_payload := [];
     cmd_result := None |}.
Definition Debugger_stepInto : command :=
  {| cmd_domain := "Debugger";
     cmd_name := "stepInto";
     cmd_params := [];
     cmd_method := "stepInto";
     cmd_payload := [];
     cmd_result := None |}.
Definition Debugger_stepOut : command :=
  {| cmd_domain := "Debugger";
     cmd_name := "stepOut";
     cmd_params := [];
     cmd_method := "stepOut";
     cmd_payload := [];
     cmd_result := None |}.
Definition Debugger_pause : command :=
  {| cmd_domain := "Debugger";
     cmd_name := "pause";
     cmd_params := [];
     cmd_method := "pause";
     cmd_payload := [];
     cmd_result := None |}.
Definition Debugger_scheduleStepIntoAsync : command :=
  {| cmd_domain := "Debugger";
     cmd_name := "scheduleStepIntoAsync";
     cmd_params := [];
     cmd_method := "scheduleStepIntoAsync";
     cmd_payload := [];
     cmd_result := None |}.
Definition Debugger_resume : command :=
  {| cmd_domain := "Debugger";
     cmd_name := "resume";
     cmd_params := [];
     cmd_method := "resume";
     cmd_payload := [];
     cmd_result := None |}.
Definition Debugger_searchInContent : command :=
  {| cmd_domain := "Debugger";
     cmd_name := "searchInContent";
     cmd_params := [req "scriptId"; req "query"; opt "caseSensitive"; opt "isRegex"];
     cmd_method := "searchInContent";
     cmd_payload := [("scriptId", "scriptId"); ("query", "query"); ("caseSensitive", "caseSensitive"); ("isRegex", "isRegex")];
     cmd_result := Some [("result", "[SearchMatch]", false)] |}.
Definition Debugger_setScriptSource : command :=
  {| cmd_domain := "Debugger";
     cmd_name := "setScriptSource";
     cmd_params := [req "scriptId"; req "scriptSource"; opt "dryRun"];
     cmd_method := "setScriptSource";
     cmd_payload := [("scriptId", "scriptId"); ("scriptSource", "scriptSource"); ("dryRun", "dryRun")];
     cmd_result := Some [("callFrames", "[CallFrame]", true); ("stackChanged", "bool", true); ("asyncStackTrace", "Runtime.StackTrace", true); ("exceptionDetails", "Runtime.ExceptionDetails", true)] |}.
Definition Debugger_restartFrame : command :=
  {| cmd_domain := "Debugger";
     cmd_name := "restartFrame";
     cmd_params := [req "callFrameId"];
     cmd_method := "restartFrame";
     cmd_payload := [("callFrameId", "callFrameId")];
     cmd_result := Some [("callFrames", "[CallFrame]", false); ("asyncStackTrace", "Runtime.StackTrace", true)] |}.
Definition Debugger_getScriptSource : command :=
  {| cmd_domain := "Debugger";
     cmd_name := "getScriptSource";
     cmd_params := [req "scriptId"];
     cmd_method := "getScriptSource";
     cmd_payload := [("scriptId", "scriptId")];
     cmd_result := Some [("scriptSource", "str", false)] |}.
Definition Debugger_setPauseOnExceptions : command :=
  {| cmd_domain := "Debugger";
     cmd_name := "setPauseOnExceptions";
     cmd_params := [req "state"];
     cmd_method := "setPauseOnExceptions";
     cmd_payload := [("state", "state")];
     cmd_result := None |}.
Definition Debugger_evaluateOnCallFrame : command :=
  {| cmd_domain := "Debugger";
     cmd_name := "evaluateOnCallFrame";
     cmd_params := [req "callFrameId"; req "expression"; opt "objectGroup"; opt "includeCommandLineAPI"; opt "silent"; opt "returnByValue"; opt "generatePreview"; opt "throwOnSideEffect"];
     cmd_method := "evaluateOnCallFrame";
     cmd_payload := [("callFrameId", "callFrameId"); ("expression", "expression"); ("objectGroup", "objectGroup"); ("includeCommandLineAPI", "includeCommandLineAPI"); ("silent", "silent"); ("returnByValue", "returnByValue"); ("generatePreview", "generatePreview"); ("throwOnSideEffect", "throwOnSideEffect")];
     cmd_result := Some [("result", "Runtime.RemoteObject", false); ("exceptionDetails", "Runtime.ExceptionDetails", true)] |}.
Definition Debugger_setVariableValue : command :=
  {| cmd_domain := "Debugger";
     cmd_name := "setVariableValue";
     cmd_params := [req "scopeNumber"; req "variableName"; req "newValue"; req "callFrameId"];
     cmd_method := "setVariableValue";
     cmd_payload := [("scopeNumber", "scopeNumber"); ("variableName", "variableName"); ("newValue", "newValue"); ("callFrameId", "callFrameId")];
     cmd_result := None |}.
Definition Debugger_setAsyncCallStackDepth : command :=
  {| cmd_domain := "Debugger";
     cmd_name := "setAsyncCallStackDepth";
     cmd_params := [req "maxDepth"];
     cmd_method := "setAsyncCallStackDepth";
     cmd_payload := [("maxDepth", "maxDepth")];
     cmd_result := None |}.
Definition Debugger_setBlackboxPatterns : command :=
  {| cmd_domain := "Debugger";
     cmd_name := "setBlackboxPatterns";
     cmd_params := [req "patterns"];
     cmd_method := "setBlackboxPatterns";
     cmd_payload := [("patterns", "patterns")];
     cmd_result := None |}.
Definition Debugger_setBlackboxedRanges : command :=
  {| cmd_domain := "Debugger";
     cmd_name := "setBlackboxedRanges";
     cmd_params := [req "scriptId"; req "positions"];
     cmd_method := "setBlackboxedRanges";
     cmd_payload := [("scriptId", "scriptId"); ("positions", "positions")];
     cmd_result := None |}.
Definition ScriptParsedEvent : event_class :=
  {| ev_cls := "ScriptParsedEvent";
     js_name := "Debugger.scriptParsed";
     hashable := ["scriptId"; "executionContextId"];
     is_hashable := true;
     ev_params := [req "scriptId"; req "url"; req "startLine"; req "startColumn"; req "endLine"; req "endColumn"; req "executionContextId"; req "hash"; opt "executionContextAuxData"; opt "isLiveEdit"; opt "sourceMapURL"; opt "hasSourceURL"; opt "isModule"; opt "length"; opt "stackTrace"];
     ev_body := [("scriptId", CExtern "Runtime.ScriptId"); ("url", CBuiltin BStr); ("startLine", CBuiltin BInt); ("startColumn", CBuiltin BInt); ("endLine", CBuiltin BInt); ("endColumn", CBuiltin BInt); ("executionContextId", CExtern "Runtime.ExecutionContextId"); ("hash", CBuiltin BStr); ("executionContextAuxData", CBuiltin BDict); ("isLiveEdit", CBuiltin BBool); ("sourceMapURL", CBuiltin BStr); ("hasSourceURL", CBuiltin BBool); ("isModule", CBuiltin BBool); ("length", CBuiltin BInt); ("stackTrace", CExtern "Runtime.StackTrace")];
     ev_build_hash := BHSerialize ["scriptId"; "executionContextId"] |}.
Definition ScriptFailedToParseEvent : event_class :=
  {| ev_cls := "ScriptFailedToParseEvent";
     js_name := "Debugger.scriptFailedToParse";
     hashable := ["scriptId"; "executionContextId"];
     is_hashable := true;
     ev_params := [req "scriptId"; req "url"; req "startLine"; req "startColumn"; req "endLine"; req "endColumn"; req "executionContextId"; req "hash"; opt "executionContextAuxData"; opt "sourceMapURL"; opt "hasSourceURL"; opt "isModule"; opt "length"; opt "stackTrace"];
     ev_body := [("scriptId", CExtern "Runtime.ScriptId"); ("url", CBuiltin BStr); ("startLine", CBuiltin BInt); ("startColumn", CBuiltin BInt); ("endLine", CBuiltin BInt); ("endColumn", CBuiltin BInt); ("executionContextId", CExtern "Runtime.ExecutionContextId"); ("hash", CBuiltin BStr); ("executionContextAuxData", CBuiltin BDict); ("sourceMapURL", CBuiltin BStr); ("hasSourceURL", CBuiltin BBool); ("isModule", CBuiltin BBool); ("length", CBuiltin BInt); ("stackTrace", CExtern "Runtime.StackTrace")];
     ev_build_hash := BHSerialize ["scriptId"; "executionContextId"] |}.
Definition BreakpointResolvedEvent : event_class :=
  {| ev_cls := "BreakpointResolvedEvent";
     js_name := "Debugger.breakpointResolved";
     hashable := ["breakpointId"];
     is_hashable := true;
     ev_params := [req "breakpointId"; req "location"];
     ev_body := [("breakpointId", CBuiltin BStr); ("location", CStruct debugger.Location)];
     ev_build_hash := BHSerialize ["breakpointId"] |}.
Definition PausedEvent : event_class :=
  {| ev_cls := "PausedEvent";
     js_name := "Debugger.paused";
     hashable := [];
     is_hashable := false;
     ev_params := [req "callFrames"; req "reason"; opt "data"; opt "hitBreakpoints"; opt "asyncStackTrace"];
     ev_body := [("callFrames", CListLiteral "[CallFrame]"); ("reason", CBuiltin BStr); ("data", CBuiltin BDict); ("hitBreakpoints", CListLiteral "[]"); ("asyncStackTrace", CExtern "Runtime.StackTrace")];
     ev_build_hash := BHRaise [] |}.
Definition ResumedEvent : event_class :=
  {| ev_cls := "ResumedEvent";
     js_name := "Debugger.resumed";
     hashable := [];
     is_hashable := false;
     ev_params := [];
     ev_body := [];
     ev_build_hash := BHRaise [] |}.
End debugger.

Module deviceorientation.
Definition DeviceOrientation_setDeviceOrientationOverride : command :=
  {| cmd_domain := "DeviceOrientation";
     cmd_name := "setDeviceOrientationOverride";
     cmd_params := [req "alpha"; req "beta"; req "gamma"];
     cmd_method := "setDeviceOrientationOverride";
     cmd_payload := [("alpha", "alpha"); ("beta", "beta"); ("gamma", "gamma")];
     cmd_result := None |}.
Definition DeviceOrientation_clearDeviceOrientationOverride : command :=
  {| cmd_domain := "DeviceOrientation";
     cmd_name := "clearDeviceOrientationOverride";
     cmd_params := [];
     cmd_method := "clearDeviceOrientationOverride";
     cmd_payload := [];
     cmd_result := None |}.
End deviceorientation.

Module dom.
Definition BackendNode : struct_class :=
  {| sc_name := "BackendNode";
     sc_params := [req "nodeType"; req "nodeName"; req "backendNodeId"];
     sc_body := ["nodeType"; "nodeName"; "backendNodeId"] |}.
Definition Node : struct_class :=
  {| sc_name := "Node";
     sc_params := [req "nodeId"; req "backendNodeId"; req "nodeType"; req "nodeName"; req "localName"; req "nodeValue"; opt "parentId"; opt "childNodeCount"; opt "children"; opt "attributes"; opt "documentURL"; opt "baseURL"; opt "publicId"; opt "systemId"; opt "internalSubset"; opt "xmlVersion"; opt "name"; opt "value"; opt "pseudoType"; opt "shadowRootType"; opt "frameId"; opt "contentDocument"; opt "shadowRoots"; opt "templateContent"; opt "pseudoElements"; opt "importedDocument"; opt "distributedNodes"; opt "isSVG"];
     sc_body := ["nodeId"; "parentId"; "backendNodeId"; "nodeType"; "nodeName"; "localName"; "nodeValue"; "childNodeCount"; "children"; "attributes"; "documentURL"; "baseURL"; "publicId"; "systemId"; "internalSubset"; "xmlVersion"; "name"; "value"; "pseudoType"; "shadowRootType"; "frameId"; "contentDocument"; "shadowRoots"; "templateContent"; "pseudoElements"; "importedDocument"; "distributedNodes"; "isSVG"] |}.
Definition RGBA : struct_class :=
  {| sc_name := "RGBA";
     sc_params := [req "r"; req "g"; req "b"; opt "a"];
     sc_body := ["r"; "g"; "b"; "a"] |}.
Definition BoxModel : struct_class :=
  {| sc_name := "BoxModel";
     sc_params := [req "content"; req "padding"; req "border"; req "margin"; req "width"; req "height"; opt "shapeOutside"];
     sc_body := ["content"; "padding"; "border"; "margin"; "width"; "height"; "shapeOutside"] |}.
Definition ShapeOutsideInfo : struct_class :=
  {| sc_name := "ShapeOutsideInfo";
     sc_params := [req "bounds"; req "shape"; req "marginShape"];
     sc_body := ["bounds"; "shape"; "marginShape"] |}.
Definition Rect : struct_class :=
  {| sc_name := "Rect";
     sc_params := [req "x"; req "y"; req "width"; req "height"];
     sc_body := ["x"; "y"; "width"; "height"] |}.
Definition DOM_enable : command :=
  {| cmd_domain := "DOM";
     cmd_name := "enable";
     cmd_params := [];
     cmd_method := "enable";
     cmd_payload := [];
     cmd_result := None |}.
Definition DOM_disable : command :=
  {| cmd_domain := "DOM";
     cmd_name := "disable";
     cmd_params := [];
     cmd_method := "disable";
     cmd_payload := [];
     cmd_result := None |}.
Definition DOM_getDocument : command :=
  {| cmd_domain := "DOM";
     cmd_name := "getDocument";
     cmd_params := [opt "depth"; opt "pierce"];
     cmd_method := "getDocument";
     cmd_payload := [("depth", "depth"); ("pierce", "pierce")];
     cmd_result := Some [("root", "Node", false)] |}.
Definition DOM_getFlattenedDocument : command :=
  {| cmd_domain := "DOM";
     cmd_name := "getFlattenedDocument";
     cmd_params := [opt "depth"; opt "pierce"];
     cmd_method := "getFlattenedDocument";
     cmd_payload := [("depth", "depth"); ("pierce", "pierce")];
     cmd_result := Some [("nodes", "[Node]", false)] |}.
Definition DOM_collectClassNamesFromSubtree : command :=
  {| cmd_domain := "DOM";
     cmd_name := "collectClassNamesFromSubtree";
     cmd_params := [req "nodeId"];
     cmd_method := "collectClassNamesFromSubtree";
     cmd_payload := [("nodeId", "nodeId")];
     cmd_result := Some [("classNames", "[]", false)] |}.
Definition DOM_requestChildNodes : command :=
  {| cmd_domain := "DOM";
     cmd_name := "requestChildNodes";
     cmd_params := [req "nodeId"; opt "depth"; opt "pierce"];
     cmd_method := "requestChildNodes";
     cmd_payload := [("nodeId", "nodeId"); ("depth", "depth"); ("pierce", "pierce")];
     cmd_result := None |}.
Definition DOM_querySelector : command :=
  {| cmd_domain := "DOM";
     cmd_name := "querySelector";
     cmd_params := [req "nodeId"; req "selector"];
     cmd_method := "querySelector";
     cmd_payload := [("nodeId", "nodeId"); ("selector", "selector")];
     cmd_result := Some [("nodeId", "NodeId", false)] |}.
Definition DOM_querySelectorAll : command :=
  {| cmd_domain := "DOM";
     cmd_name := "querySelectorAll";
     cmd_params := [req "nodeId"; req "selector"];
     cmd_method := "querySelectorAll";
     cmd_payload := [("nodeId", "nodeId"); ("selector", "selector")];
     cmd_result := Some [("nodeIds", "[NodeId]", false)] |}.
Definition DOM_setNodeName : command :=
  {| cmd_domain := "DOM";
     cmd_name := "setNodeName";
     cmd_params := [req "nodeId"; req "name"];
     cmd_method := "setNodeName";
     cmd_payload := [("nodeId", "nodeId"); ("name", "name")];
     cmd_result := Some [("nodeId", "NodeId", false)] |}.
Definition DOM_setNodeValue : command :=
  {| cmd_domain := "DOM";
     cmd_name := "setNodeValue";
     cmd_params := [req "nodeId"; req "value"];
     cmd_method := "setNodeValue";
     cmd_payload := [("nodeId", "nodeId"); ("value", "value")];
     cmd_result := None |}.
Definition DOM_removeNode : command :=
  {| cmd_domain := "DOM";
     cmd_name := "removeNode";
     cmd_params := [req "nodeId"];
     cmd_method := "removeNode";
     cmd_payload := [("nodeId", "nodeId")];
     cmd_result := None |}.
Definition DOM_setAttributeValue : command :=
  {| cmd_domain := "DOM";
     cmd_name := "setAttributeValue";
     cmd_params := [req "nodeId"; req "name"; req "value"];
     cmd_method := "setAttributeValue";
     cmd_payload := [("nodeId", "nodeId"); ("name", "name"); ("value", "value")];
     cmd_result := None |}.
Definition DOM_setAttributesAsText : command :=
  {| cmd_domain := "DOM";
     cmd_name := "setAttributesAsText";
     cmd_params := [req "nodeId"; req "text"; opt "name"];
     cmd_method := "setAttributesAsText";
     cmd_payload := [("nodeId", "nodeId"); ("text", "text"); ("name", "name")];
     cmd_result := None |}.
Definition DOM_removeAttribute : command :=
  {| cmd_domain := "DOM";
     cmd_name := "removeAttribute";
     cmd_params := [req "nodeId"; req "name"];
     cmd_method := "removeAttribute";
     cmd_payload := [("nodeId", "nodeId"); ("name", "name")];
     cmd_result := None |}.
Definition DOM_getOuterHTML : command :=
  {| cmd_domain := "DOM";
     cmd_name := "getOuterHTML";
     cmd_params := [req "nodeId"];
     cmd_method := "getOuterHTML";
     cmd_payload := [("nodeId", "nodeId")];
     cmd_result := Some [("outerHTML", "str", false)] |}.
Definition DOM_setOuterHTML : command :=
  {| cmd_domain := "DOM";
     cmd_name := "setOuterHTML";
     cmd_params := [req "nodeId"; req "outerHTML"];
     cmd_method := "setOuterHTML";
     cmd_payload := [("nodeId", "nodeId"); ("outerHTML", "outerHTML")];
     cmd_result := None |}.
Definition DOM_performSearch : command :=
  {| cmd_domain := "DOM";
     cmd_name := "performSearch";
     cmd_params := [req "query"; opt "includeUserAgentShadowDOM"];
     cmd_method := "performSearch";
     cmd_payload := [("query", "query"); ("includeUserAgentShadowDOM", "includeUserAgentShadowDOM")];
     cmd_result := Some [("searchId", "str", false); ("resultCount", "int", false)] |}.
Definition DOM_getSearchResults : command :=
  {| cmd_domain := "DOM";
     cmd_name := "getSearchResults";
     cmd_params := [req "searchId"; req "fromIndex"; req "toIndex"];
     cmd_method := "getSearchResults";
     cmd_payload := [("searchId", "searchId"); ("fromIndex", "fromIndex"); ("toIndex", "toIndex")];
     cmd_result := Some [("nodeIds", "[NodeId]", false)] |}.
Definition DOM_discardSearchResults : command :=
  {| cmd_domain := "DOM";
     cmd_name := "discardSearchResults";
     cmd_params := [req "searchId"];
     cmd_method := "discardSearchResults";
     cmd_payload := [("searchId", "searchId")];
     cmd_result := None |}.
Definition DOM_requestNode : command :=
  {| cmd_domain := "DOM";
     cmd_name := "requestNode";
     cmd_params := [req "objectId"];
     cmd_method := "requestNode";
     cmd_payload := [("objectId", "objectId")];
     cmd_result := Some [("nodeId", "NodeId", false)] |}.
Definition DOM_highlightRect : command :=
  {| cmd_domain := "DOM";
     cmd_name := "highlightRect";
     cmd_params := [];
     cmd_method := "highlightRect";
     cmd_payload := [];
     cmd_result := None |}.
Definition DOM_highlightNode : command :=
  {| cmd_domain := "DOM";
     cmd_name := "highlightNode";
     cmd_params := [];
     cmd_method := "highlightNode";
     cmd_payload := [];
     cmd_result := None |}.
Definition DOM_hideHighlight : command :=
  {| cmd_domain := "DOM";
     cmd_name := "hideHighlight";
     cmd_params := [];
     cmd_method := "hideHighlight";
     cmd_payload := [];
     cmd_result := None |}.
Definition DOM_pushNodeByPathToFrontend : command :=
  {| cmd_domain := "DOM";
     cmd_name := "pushNodeByPathToFrontend";
     cmd_params := [req "path"];
     cmd_method := "pushNodeByPathToFrontend";
     cmd_payload := [("path", "path")];
     cmd_result := Some [("nodeId", "NodeId", false)] |}.
Definition DOM_pushNodesByBackendIdsToFrontend : command :=
  {| cmd_domain := "DOM";
     cmd_name := "pushNodesByBackendIdsToFrontend";
     cmd_params := [req "backendNodeIds"];
     cmd_method := "pushNodesByBackendIdsToFrontend";
     cmd_payload := [("backendNodeIds", "backendNodeIds")];
     cmd_result := Some [("nodeIds", "[NodeId]", false)] |}.
Definition DOM_setInspectedNode : command :=
  {| cmd_domain := "DOM";
     cmd_name := "setInspectedNode";
     cmd_params := [req "nodeId"];
     cmd_method := "setInspectedNode";
     cmd_payload := [("nodeId", "nodeId")];
     cmd_result := None |}.
Definition DOM_resolveNode : command :=
  {| cmd_domain := "DOM";
     cmd_name := "resolveNode";
     cmd_params := [opt "nodeId"; opt "backendNodeId"; opt "objectGroup"];
     cmd_method := "resolveNode";
     cmd_payload := [("nodeId", "nodeId"); ("backendNodeId", "backendNodeId"); ("objectGroup", "objectGroup")];
     cmd_result := Some [("object", "Runtime.RemoteObject", false)] |}.
Definition DOM_getAttributes : command :=
  {| cmd_domain := "DOM";
     cmd_name := "getAttributes";
     cmd_params := [req "nodeId"];
     cmd_method := "getAttributes";
     cmd_payload := [("nodeId", "nodeId")];
     cmd_result := Some [("attributes", "[]", false)] |}.
Definition DOM_copyTo : command :=
  {| cmd_domain := "DOM";
     cmd_name := "copyTo";
     cmd_params := [req "nodeId"; req "targetNodeId"; opt "insertBeforeNodeId"];
     cmd_method := "copyTo";
     cmd_payload := [("nodeId", "nodeId"); ("targetNodeId", "targetNodeId"); ("insertBeforeNodeId", "insertBeforeNodeId")];
     cmd_result := Some [("nodeId", "NodeId", false)] |}.
Definition DOM_moveTo : command :=
  {| cmd_domain := "DOM";
     cmd_name := "moveTo";
     cmd_params := [req "nodeId"; req "targetNodeId"; opt "insertBeforeNodeId"];
     cmd_method := "moveTo";
     cmd_payload := [("nodeId", "nodeId"); ("targetNodeId", "targetNodeId"); ("insertBeforeNodeId", "insertBeforeNodeId")];
     cmd_result := Some [("nodeId", "NodeId", false)] |}.
Definition DOM_undo : command :=
  {| cmd_domain := "DOM";
     cmd_name := "undo";
     cmd_params := [];
     cmd_method := "undo";
     cmd_payload := [];
     cmd_result := None |}.
Definition DOM_redo : command :=
  {| cmd_domain := "DOM";
     cmd_name := "redo";
     cmd_params := [];
     cmd_method := "redo";
     cmd_payload := [];
     cmd_result := None |}.
Definition DOM_markUndoableState : command :=
  {| cmd_domain := "DOM";
     cmd_name := "markUndoableState";
     cmd_params := [];
     cmd_method := "markUndoableState";
     cmd_payload := [];
     cmd_result := None |}.
Definition DOM_focus : command :=
  {| cmd_domain := "DOM";
     cmd_name := "focus";
     cmd_params := [opt "nodeId"; opt "backendNodeId"; opt "objectId"];
     cmd_method := "focus";
     cmd_payload := [("nodeId", "nodeId"); ("backendNodeId", "backendNodeId"); ("objectId", "objectId")];
     cmd_result := None |}.
Definition DOM_setFileInputFiles : command :=
  {| cmd_domain := "DOM";
     cmd_name := "setFileInputFiles";
     cmd_params := [req "files"; opt "nodeId"; opt "backendNodeId"; opt "objectId"];
     cmd_method := "setFileInputFiles";
     cmd_payload := [("files", "files"); ("nodeId", "nodeId"); ("backendNodeId", "backendNodeId"); ("objectId", "objectId")];
     cmd_result := None |}.
Definition DOM_getBoxModel : command :=
  {| cmd_domain := "DOM";
     cmd_name := "getBoxModel";
     cmd_params := [opt "nodeId"; opt "backendNodeId"; opt "objectId"];
     cmd_method := "getBoxModel";
     cmd_payload := [("nodeId", "nodeId"); ("backendNodeId", "backendNodeId"); ("objectId", "objectId")];
     cmd_result := Some [("model", "BoxModel", false)] |}.
Definition DOM_getNodeForLocation : command :=
  {| cmd_domain := "DOM";
     cmd_name := "getNodeForLocation";
     cmd_params := [req "x"; req "y"; opt "includeUserAgentShadowDOM"];
     cmd_method := "getNodeForLocation";
     cmd_payload := [("x", "x"); ("y", "y"); ("includeUserAgentShadowDOM", "includeUserAgentShadowDOM")];
     cmd_result := Some [("nodeId", "NodeId", false)] |}.
Definition DOM_getRelayoutBoundary : command :=
  {| cmd_domain := "DOM";
     cmd_name := "getRelayoutBoundary";
     cmd_params := [req "nodeId"];
     cmd_method := "getRelayoutBoundary";
     cmd_payload := [("nodeId", "nodeId")];
     cmd_result := Some [("nodeId", "NodeId", false)] |}.
Definition DocumentUpdatedEvent : event_class :=
  {| ev_cls := "DocumentUpdatedEvent";
     js_name := "Dom.documentUpdated";
     hashable := [];
     is_hashable := false;
     ev_params := [];
     ev_body := [];
     ev_build_hash := BHRaise [] |}.
Definition SetChildNodesEvent : event_class :=
  {| ev_cls := "SetChildNodesEvent";
     js_name := "Dom.setChildNodes";
     hashable := ["parentId"];
     is_hashable := true;
     ev_params := [req "parentId"; req "nodes"];
     ev_body := [("parentId", CBuiltin BInt); ("nodes", CListLiteral "[Node]")];
     ev_build_hash := BHSerialize ["parentId"] |}.
Definition AttributeModifiedEvent : event_class :=
  {| ev_cls := "AttributeModifiedEvent";
     js_name := "Dom.attributeModified";
     hashable := ["nodeId"];
     is_hashable := true;
     ev_params := [req "nodeId"; req "name"; req "value"];
     ev_body := [("nodeId", CBuiltin BInt); ("name", CBuiltin BStr); ("value", CBuiltin BStr)];
     ev_build_hash := BHSerialize ["nodeId"] |}.
Definition AttributeRemovedEvent : event_class :=
  {| ev_cls := "AttributeRemovedEvent";
     js_name := "Dom.attributeRemoved";
     hashable := ["nodeId"];
     is_hashable := true;
     ev_params := [req "nodeId"; req "name"];
     ev_body := [("nodeId", CBuiltin BInt); ("name", CBuiltin BStr)];
     ev_build_hash := BHSerialize ["nodeId"] |}.
Definition InlineStyleInvalidatedEvent : event_class :=
  {| ev_cls := "InlineStyleInvalidatedEvent";
     js_name := "Dom.inlineStyleInvalidated";
     hashable := ["nodeIds"];
     is_hashable := true;
     ev_params := [req "nodeIds"];
     ev_body := [("nodeIds", CListLiteral "[NodeId]")];
     ev_build_hash := BHSerialize ["nodeIds"] |}.
Definition CharacterDataModifiedEvent : event_class :=
  {| ev_cls := "CharacterDataModifiedEvent";
     js_name := "Dom.characterDataModified";
     hashable := ["nodeId"];
     is_hashable := true;
     ev_params := [req "nodeId"; req "characterData"];
     ev_body := [("nodeId", CBuiltin BInt); ("characterData", CBuiltin BStr)];
     ev_build_hash := BHSerialize ["nodeId"] |}.
Definition ChildNodeCountUpdatedEvent : event_class :=
  {| ev_cls := "ChildNodeCountUpdatedEvent";
     js_name := "Dom.childNodeCountUpdated";
     hashable := ["nodeId"];
     is_hashable := true;
     ev_params := [req "nodeId"; req "childNodeCount"];
     ev_body := [("nodeId", CBuiltin BInt); ("childNodeCount", CBuiltin BInt)];
     ev_build_hash := BHSerialize ["nodeId"] |}.
Definition ChildNodeInsertedEvent : event_class :=
  {| ev_cls := "ChildNodeInsertedEvent";
     js_name := "Dom.childNodeInserted";
     hashable := ["previousNodeId"; "parentNodeId"];
     is_hashable := true;
     ev_params := [req "parentNodeId"; req "previousNodeId"; req "node"];
     ev_body := [("parentNodeId", CBuiltin BInt); ("previousNodeId", CBuiltin BInt); ("node", CStruct dom.Node)];
     ev_build_hash := BHSerialize ["previousNodeId"; "parentNodeId"] |}.
Definition ChildNodeRemovedEvent : event_class :=
  {| ev_cls := "ChildNodeRemovedEvent";
     js_name := "Dom.childNodeRemoved";
     hashable := ["nodeId"; "parentNodeId"];
     is_hashable := true;
     ev_params := [req "parentNodeId"; req "nodeId"];
     ev_body := [("parentNodeId", CBuiltin BInt); ("nodeId", CBuiltin BInt)];
     ev_build_hash := BHSerialize ["nodeId"; "parentNodeId"] |}.
Definition ShadowRootPushedEvent : event_class :=
  {| ev_cls := "ShadowRootPushedEvent";
     js_name := "Dom.shadowRootPushed";
     hashable := ["hostId"];
     is_hashable := true;
     ev_params := [req "hostId"; req "root"];
     ev_body := [("hostId", CBuiltin BInt); ("root", CStruct dom.Node)];
     ev_build_hash := BHSerialize ["hostId"] |}.
Definition ShadowRootPoppedEvent : event_class :=
  {| ev_cls := "ShadowRootPoppedEvent";
     js_name := "Dom.shadowRootPopped";
     hashable := ["rootId"; "hostId"];
     is_hashable := true;
     ev_params := [req "hostId"; req "rootId"];
     ev_body := [("hostId", CBuiltin BInt); ("rootId", CBuiltin BInt)];
     ev_build_hash := BHSerialize ["rootId"; "hostId"] |}.
Definition PseudoElementAddedEvent : event_class :=
  {| ev_cls := "PseudoElementAddedEvent";
     js_name := "Dom.pseudoElementAdded";
     hashable := ["parentId"];
     is_hashable := true;
     ev_params := [req "parentId"; req "pseudoElement"];
     ev_body := [("parentId", CBuiltin BInt); ("pseudoElement", CStruct dom.Node)];
     ev_build_hash := BHSerialize ["parentId"] |}.
Definition PseudoElementRemovedEvent : event_class :=
  {| ev_cls := "PseudoElementRemovedEvent";
     js_name := "Dom.pseudoElementRemoved";
     hashable := ["parentId"; "pseudoElementId"];
     is_hashable := true;
     ev_params := [req "parentId"; req "pseudoElementId"];
     ev_body := [("parentId", CBuiltin BInt); ("pseudoElementId", CBuiltin BInt)];
     ev_build_hash := BHSerialize ["parentId"; "pseudoElementId"] |}.
Definition DistributedNodesUpdatedEvent : event_class :=
  {| ev_cls := "DistributedNodesUpdatedEvent";
     js_name := "Dom.distributedNodesUpdated";
     hashable := ["insertionPointId"];
     is_hashable := true;
     ev_params := [req "insertionPointId"; req "distributedNodes"];
     ev_body := [("insertionPointId", CBuiltin BInt); ("distributedNodes", CListLiteral "[BackendNode]")];
     ev_build_hash := BHSerialize ["insertionPointId"] |}.
End dom.

Module indexeddb.
Definition DatabaseWithObjectStores : struct_class :=
  {| sc_name := "DatabaseWithObjectStores";
     sc_params := [req "name"; req "version"; req "objectStores"];
     sc_body := ["name"; "version"; "objectStores"] |}.
Definition ObjectStore : struct_class :=
  {| sc_name := "ObjectStore";
     sc_params := [req "name"; req "keyPath"; req "autoIncrement"; req "indexes"];
     sc_body := ["name"; "keyPath"; "autoIncrement"; "indexes"] |}.
Definition ObjectStoreIndex : struct_class :=
  {| sc_name := "ObjectStoreIndex";
     sc_params := [req "name"; req "keyPath"; req "unique"; req "multiEntry"];
     sc_body := ["name"; "keyPath"; "unique"; "multiEntry"] |}.
Definition Key : struct_class :=
  {| sc_name := "Key";
     sc_params := [req "type"; opt "number"; opt "string"; opt "date"; opt "array"];
     sc_body := ["type"; "number"; "string"; "date"; "array"] |}.
Definition KeyRange : struct_class :=
  {| sc_name := "KeyRange";
     sc_params := [req "lowerOpen"; req "upperOpen"; opt "lower"; opt "upper"];
     sc_body := ["lower"; "upper"; "lowerOpen"; "upperOpen"] |}.
Definition DataEntry : struct_class :=
  {| sc_name := "DataEntry";
     sc_params := [req "key"; req "primaryKey"; req "value"];
     sc_body := ["key"; "primaryKey"; "value"] |}.
Definition KeyPath : struct_class :=
  {| sc_name := "KeyPath";
     sc_params := [req "type"; opt "string"; opt "array"];
     sc_body := ["type"; "string"; "array"] |}.
Definition IndexedDB_enable : command :=
  {| cmd_domain := "IndexedDB";
     cmd_name := "enable";
     cmd_params := [];
     cmd_method := "enable";
     cmd_payload := [];
     cmd_result := None |}.
Definition IndexedDB_disable : command :=
  {| cmd_domain := "IndexedDB";
     cmd_name := "disable";
     cmd_params := [];
     cmd_method := "disable";
     cmd_payload := [];
     cmd_result := None |}.
Definition IndexedDB_requestDatabaseNames : command :=
  {| cmd_domain := "IndexedDB";
     cmd_name := "requestDatabaseNames";
     cmd_params := [req "securityOrigin"];
     cmd_method := "requestDatabaseNames";
     cmd_payload := [("securityOrigin", "securityOrigin")];
     cmd_result := Some [("databaseNames", "[]", false)] |}.
Definition IndexedDB_requestDatabase : command :=
  {| cmd_domain := "IndexedDB";
     cmd_name := "requestDatabase";
     cmd_params := [req "securityOrigin"; req "databaseName"];
     cmd_method := "requestDatabase";
     cmd_payload := [("securityOrigin", "securityOrigin"); ("databaseName", "databaseName")];
     cmd_result := Some [("databaseWithObjectStores", "DatabaseWithObjectStores", false)] |}.
Definition IndexedDB_requestData : command :=
  {| cmd_domain := "IndexedDB";
     cmd_name := "requestData";
     cmd_params := [req "securityOrigin"; req "databaseName"; req "objectStoreName"; req "indexName"; req "skipCount"; req "pageSize"; opt "keyRange"];
     cmd_method := "requestData";
     cmd_payload := [("securityOrigin", "securityOrigin"); ("databaseName", "databaseName"); ("objectStoreName", "objectStoreName"); ("indexName", "indexName"); ("skipCount", "skipCount"); ("pageSize", "pageSize"); ("keyRange", "keyRange")];
     cmd_result := Some [("objectStoreDataEntries", "[DataEntry]", false); ("hasMore", "bool", false)] |}.
Definition IndexedDB_clearObjectStore : command :=
  {| cmd_domain := "IndexedDB";
     cmd_name := "clearObjectStore";
     cmd_params := [req "securityOrigin"; req "databaseName"; req "objectStoreName"];
     cmd_method := "clearObjectStore";
     cmd_payload := [("securityOrigin", "securityOrigin"); ("databaseName", "databaseName"); ("objectStoreName", "objectStoreName")];
     cmd_result := Some [] |}.
Definition IndexedDB_deleteDatabase : command :=
  {| cmd_domain := "IndexedDB";
     cmd_name := "deleteDatabase";
     cmd_params := [req "securityOrigin"; req "databaseName"];
     cmd_method := "deleteDatabase";
     cmd_payload := [("securityOrigin", "securityOrigin"); ("databaseName", "databaseName")];
     cmd_result := Some [] |}.
End indexeddb.

Module input.
Definition TouchPoint : struct_class :=
  {| sc_name := "TouchPoint";
     sc_params := [req "state"; req "x"; req "y"; opt "radiusX"; opt "radiusY"; opt "rotationAngle"; opt "force"; opt "id"];
     sc_body := ["state"; "x"; "y"; "radiusX"; "radiusY"; "rotationAngle"; "force"; "id"] |}.
Definition Input_setIgnoreInputEvents : command :=
  {| cmd_domain := "Input";
     cmd_name := "setIgnoreInputEvents";
     cmd_params := [req "ignore"];
     cmd_method := "setIgnoreInputEvents";
     cmd_payload := [("ignore", "ignore")];
     cmd_result := None |}.
Definition Input_dispatchKeyEvent : command :=
  {| cmd_domain := "Input";
     cmd_name := "dispatchKeyEvent";
     cmd_params := [req "type"; opt "modifiers"; opt "timestamp"; opt "text"; opt "unmodifiedText"; opt "keyIdentifier"; opt "code"; opt "key"; opt "windowsVirtualKeyCode"; opt "nativeVirtualKeyCode"; opt "autoRepeat"; opt "isKeypad"; opt "isSystemKey"];
     cmd_method := "dispatchKeyEvent";
     cmd_payload := [("type", "type"); ("modifiers", "modifiers"); ("timestamp", "timestamp"); ("text", "text"); ("unmodifiedText", "unmodifiedText"); ("keyIdentifier", "keyIdentifier"); ("code", "code"); ("key", "key"); ("windowsVirtualKeyCode", "windowsVirtualKeyCode"); ("nativeVirtualKeyCode", "nativeVirtualKeyCode"); ("autoRepeat", "autoRepeat"); ("isKeypad", "isKeypad"); ("isSystemKey", "isSystemKey")];
     cmd_result := None |}.
Definition Input_dispatchMouseEvent : command :=
  {| cmd_domain := "Input";
     cmd_name := "dispatchMouseEvent";
     cmd_params := [req "type"; req "x"; req "y"; opt "modifiers"; opt "timestamp"; opt "button"; opt "clickCount"];
     cmd_method := "dispatchMouseEvent";
     cmd_payload := [("type", "type"); ("x", "x"); ("y", "y"); ("modifiers", "modifiers"); ("timestamp", "timestamp"); ("button", "button"); ("clickCount", "clickCount")];
     cmd_result := None |}.
Definition Input_dispatchTouchEvent : command :=
  {| cmd_domain := "Input";
     cmd_name := "dispatchTouchEvent";
     cmd_params := [req "type"; req "touchPoints"; opt "modifiers"; opt "timestamp"];
     cmd_method := "dispatchTouchEvent";
     cmd_payload := [("type", "type"); ("touchPoints", "touchPoints"); ("modifiers", "modifiers"); ("timestamp", "timestamp")];
     cmd_result := None |}.
Definition Input_emulateTouchFromMouseEvent : command :=
  {| cmd_domain := "Input";
     cmd_name := "emulateTouchFromMouseEvent";
     cmd_params := [req "type"; req "x"; req "y"; req "timestamp"; req "button"; opt "deltaX"; opt "deltaY"; opt "modifiers"; opt "clickCount"];
     cmd_method := "emulateTouchFromMouseEvent";
     cmd_payload := [("type", "type"); ("x", "x"); ("y", "y"); ("timestamp", "timestamp"); ("button", "button"); ("deltaX", "deltaX"); ("deltaY", "deltaY"); ("modifiers", "modifiers"); ("clickCount", "clickCount")];
     cmd_result := None |}.
Definition Input_synthesizePinchGesture : command :=
  {| cmd_domain := "Input";
     cmd_name := "synthesizePinchGesture";
     cmd_params := [req "x"; req "y"; req "scaleFactor"; opt "relativeSpeed"; opt "gestureSourceType"];
     cmd_method := "synthesizePinchGesture";
     cmd_payload := [("x", "x"); ("y", "y"); ("scaleFactor", "scaleFactor"); ("relativeSpeed", "relativeSpeed"); ("gestureSourceType", "gestureSourceType")];
     cmd_result := None |}.
Definition Input_synthesizeScrollGesture : command :=
  {| cmd_domain := "Input";
     cmd_name := "synthesizeScrollGesture";
     cmd_params := [req "x"; req "y"; opt "xDistance"; opt "yDistance"; opt "xOverscroll"; opt "yOverscroll"; opt "preventFling"; opt "speed"; opt "gestureSourceType"; opt "repeatCount"; opt "repeatDelayMs"; opt "interactionMarkerName"];
     cmd_method := "synthesizeScrollGesture";
     cmd_payload := [("x", "x"); ("y", "y"); ("xDistance", "xDistance"); ("yDistance", "yDistance"); ("xOverscroll", "xOverscroll"); ("yOverscroll", "yOverscroll"); ("preventFling", "preventFling"); ("speed", "speed"); ("gestureSourceType", "gestureSourceType"); ("repeatCount", "repeatCount"); ("repeatDelayMs", "repeatDelayMs"); ("interactionMarkerName", "interactionMarkerName")];
     cmd_result := None |}.
Definition Input_synthesizeTapGesture : command :=
  {| cmd_domain := "Input";
     cmd_name := "synthesizeTapGesture";
     cmd_params := [req "x"; req "y"; opt "duration"; opt "tapCount"; opt "gestureSourceType"];
     cmd_method := "synthesizeTapGesture";
     cmd_payload := [("x", "x"); ("y", "y"); ("duration", "duration"); ("tapCount", "tapCount"); ("gestureSourceType", "gestureSourceType")];
     cmd_result := None |}.
End input.

Module inspector.
Definition Inspector_disable : command :=
  {| cmd_domain := "Inspector";
     cmd_name := "disable";
     cmd_params := [];
     cmd_method := "disable";
     cmd_payload := [];
     cmd_result := None |}.
Definition Inspector_enable : command :=
  {| cmd_domain := "Inspector";
     cmd_name := "enable";
     cmd_params := [];
     cmd_method := "enable";
     cmd_payload := [];
     cmd_result := None |}.
Definition DetachedEvent : event_class :=
  {| ev_cls := "DetachedEvent";
     js_name := "Inspector.detached";
     hashable := [];
     is_hashable := false;
     ev_params := [req "reason"];
     ev_body := [("reason", CBuiltin BStr)];
     ev_build_hash := BHRaise [] |}.
Definition TargetCrashedEvent : event_class :=
  {| ev_cls := "TargetCrashedEvent";
     js_name := "Inspector.targetCrashed";
     hashable := [];
     is_hashable := false;
     ev_params := [];
     ev_body := [];
     ev_build_hash := BHRaise [] |}.
End inspector.

Module network.
Definition ResourceTiming : struct_class :=
  {| sc_name := "ResourceTiming";
     sc_params := [req "requestTime"; req "proxyStart"; req "proxyEnd"; req "dnsStart"; req "dnsEnd"; req "connectStart"; req "connectEnd"; req "sslStart"; req "sslEnd"; req "workerStart"; req "workerReady"; req "sendStart"; req "sendEnd"; req "pushStart"; req "pushEnd"; req "receiveHeadersEnd"];
     sc_body := ["requestTime"; "proxyStart"; "proxyEnd"; "dnsStart"; "dnsEnd"; "connectStart"; "connectEnd"; "sslStart"; "sslEnd"; "workerStart"; "workerReady"; "sendStart"; "sendEnd"; "pushStart"; "pushEnd"; "receiveHeadersEnd"] |}.
Definition Request : struct_class :=
  {| sc_name := "Request";
     sc_params := [req "url"; req "method"; req "headers"; req "initialPriority"; req "referrerPolicy"; opt "postData"; opt "mixedContentType"; opt "isLinkPreload"];
     sc_body := ["url"; "method"; "headers"; "postData"; "mixedContentType"; "initialPriority"; "referrerPolicy"; "isLinkPreload"] |}.
Definition SignedCertificateTimestamp : struct_class :=
  {| sc_name := "SignedCertificateTimestamp";
     sc_params := [req "status"; req "origin"; req "logDescription"; req "logId"; req "timestamp"; req "hashAlgorithm"; req "signatureAlgorithm"; req "signatureData"];
     sc_body := ["status"; "origin"; "logDescription"; "logId"; "timestamp"; "hashAlgorithm"; "signatureAlgorithm"; "signatureData"] |}.
Definition SecurityDetails : struct_class :=
  {| sc_name := "SecurityDetails";
     sc_params := [req "protocol"; req "keyExchange"; req "cipher"; req "certificateId"; req "subjectName"; req "sanList"; req "issuer"; req "validFrom"; req "validTo"; req "signedCertificateTimestampList"; opt "keyExchangeGroup"; opt "mac"];
     sc_body := ["protocol"; "keyExchange"; "keyExchangeGroup"; "cipher"; "mac"; "certificateId"; "subjectName"; "sanList"; "issuer"; "validFrom"; "validTo"; "signedCertificateTimestampList"] |}.
Definition Response : struct_class :=
  {| sc_name := "Response";
     sc_params := [req "url"; req "status"; req "statusText"; req "headers"; req "mimeType"; req "connectionReused"; req "connectionId"; req "securityState"; req "encodedDataLength"; opt "headersText"; opt "requestHeaders"; opt "requestHeadersText"; opt "remoteIPAddress"; opt "remotePort"; opt "fromDiskCache"; opt "fromServiceWorker"; opt "timing"; opt "protocol"; opt "securityDetails"];
     sc_body := ["url"; "status"; "statusText"; "headers"; "headersText"; "mimeType"; "requestHeaders"; "requestHeadersText"; "connectionReused"; "connectionId"; "remoteIPAddress"; "remotePort"; "fromDiskCache"; "fromServiceWorker"; "encodedDataLength"; "timing"; "protocol"; "securityState"; "securityDetails"] |}.
Definition WebSocketRequest : struct_class :=
  {| sc_name := "WebSocketRequest";
     sc_params := [req "headers"];
     sc_body := ["headers"] |}.
Definition WebSocketResponse : struct_class :=
  {| sc_name := "WebSocketResponse";
     sc_params := [req "status"; req "statusText"; req "headers"; opt "headersText"; opt "requestHeaders"; opt "requestHeadersText"];
     sc_body := ["status"; "statusText"; "headers"; "headersText"; "requestHeaders"; "requestHeadersText"] |}.
Definition WebSocketFrame : struct_class :=
  {| sc_name := "WebSocketFrame";
     sc_params := [req "opcode"; req "mask"; req "payloadData"];
     sc_body := ["opcode"; "mask"; "payloadData"] |}.
Definition CachedResource : struct_class :=
  {| sc_name := "CachedResource";
     sc_params := [req "url"; req "type"; req "bodySize"; opt "response"];
     sc_body := ["url"; "type"; "response"; "bodySize"] |}.
Definition Initiator : struct_class :=
  {| sc_name := "Initiator";
     sc_params := [req "type"; opt "stack"; opt "url"; opt "lineNumber"];
     sc_body := ["type"; "stack"; "url"; "lineNumber"] |}.
Definition Cookie : struct_class :=
  {| sc_name := "Cookie";
     sc_params := [req "name"; req "value"; req "domain"; req "path"; req "expires"; req "size"; req "httpOnly"; req "secure"; req "session"; opt "sameSite"];
     sc_body := ["name"; "value"; "domain"; "path"; "expires"; "size"; "httpOnly"; "secure"; "session"; "sameSite"] |}.
Definition AuthChallenge : struct_class :=
  {| sc_name := "AuthChallenge";
     sc_params := [req "origin"; req "scheme"; req "realm"; opt "source"];
     sc_body := ["source"; "origin"; "scheme"; "realm"] |}.
Definition AuthChallengeResponse : struct_class :=
  {| sc_name := "AuthChallengeResponse";
     sc_params := [req "response"; opt "username"; opt "password"];
     sc_body := ["response"; "username"; "password"] |}.
Definition Network_enable : command :=
  {| cmd_domain := "Network";
     cmd_name := "enable";
     cmd_params := [opt "maxTotalBufferSize"; opt "maxResourceBufferSize"];
     cmd_method := "enable";
     cmd_payload := [("maxTotalBufferSize", "maxTotalBufferSize"); ("maxResourceBufferSize", "maxResourceBufferSize")];
     cmd_result := None |}.
Definition Network_disable : command :=
  {| cmd_domain := "Network";
     cmd_name := "disable";
     cmd_params := [];
     cmd_method := "disable";
     cmd_payload := [];
     cmd_result := None |}.
Definition Network_setUserAgentOverride : command :=
  {| cmd_domain := "Network";
     cmd_name := "setUserAgentOverride";
     cmd_params := [req "userAgent"];
     cmd_method := "setUserAgentOverride";
     cmd_payload := [("userAgent", "userAgent")];
     cmd_result := None |}.
Definition Network_setExtraHTTPHeaders : command :=
  {| cmd_domain := "Network";
     cmd_name := "setExtraHTTPHeaders";
     cmd_params := [req "headers"];
     cmd_method := "setExtraHTTPHeaders";
     cmd_payload := [("headers", "headers")];
     cmd_result := None |}.
Definition Network_getResponseBody : command :=
  {| cmd_domain := "Network";
     cmd_name := "getResponseBody";
     cmd_params := [req "requestId"];
     cmd_method := "getResponseBody";
     cmd_payload := [("requestId", "requestId")];
     cmd_result := Some [("body", "str", false); ("base64Encoded", "bool", false)] |}.
Definition Network_setBlockedURLs : command :=
  {| cmd_domain := "Network";
     cmd_name := "setBlockedURLs";
     cmd_params := [req "urls"];
     cmd_method := "setBlockedURLs";
     cmd_payload := [("urls", "urls")];
     cmd_result := None |}.
Definition Network_replayXHR : command :=
  {| cmd_domain := "Network";
     cmd_name := "replayXHR";
     cmd_params := [req "requestId"];
     cmd_method := "replayXHR";
     cmd_payload := [("requestId", "requestId")];
     cmd_result := None |}.
Definition Network_canClearBrowserCache : command :=
  {| cmd_domain := "Network";
     cmd_name := "canClearBrowserCache";
     cmd_params := [];
     cmd_method := "canClearBrowserCache";
     cmd_payload := [];
     cmd_result := Some [("result", "bool", false)] |}.
Definition Network_clearBrowserCache : command :=
  {| cmd_domain := "Network";
     cmd_name := "clearBrowserCache";
     cmd_params := [];
     cmd_method := "clearBrowserCache";
     cmd_payload := [];
     cmd_result := None |}.
Definition Network_canClearBrowserCookies : command :=
  {| cmd_domain := "Network";
     cmd_name := "canClearBrowserCookies";
     cmd_params := [];
     cmd_method := "canClearBrowserCookies";
     cmd_payload := [];
     cmd_result := Some [("result", "bool", false)] |}.
Definition Network_clearBrowserCookies : command :=
  {| cmd_domain := "Network";
     cmd_name := "clearBrowserCookies";
     cmd_params := [];
     cmd_method := "clearBrowserCookies";
     cmd_payload := [];
     cmd_result := None |}.
Definition Network_getCookies : command :=
  {| cmd_domain := "Network";
     cmd_name := "getCookies";
     cmd_params := [opt "urls"];
     cmd_method := "getCookies";
     cmd_payload := [("urls", "urls")];
     cmd_result := Some [("cookies", "[Cookie]", false)] |}.
Definition Network_getAllCookies : command :=
  {| cmd_domain := "Network";
     cmd_name := "getAllCookies";
     cmd_params := [];
     cmd_method := "getAllCookies";
     cmd_payload := [];
     cmd_result := Some [("cookies", "[Cookie]", false)] |}.
Definition Network_deleteCookie : command :=
  {| cmd_domain := "Network";
     cmd_name := "deleteCookie";
     cmd_params := [req "cookieName"; req "url"];
     cmd_method := "deleteCookie";
     cmd_payload := [("cookieName", "cookieName"); ("url", "url")];
     cmd_result := None |}.
Definition Network_setCookie : command :=
  {| cmd_domain := "Network";
     cmd_name := "setCookie";
     cmd_params := [req "url"; req "name"; req "value"; opt "domain"; opt "path"; opt "secure"; opt "httpOnly"; opt "sameSite"; opt "expirationDate"];
     cmd_method := "setCookie";
     cmd_payload := [("url", "url"); ("name", "name"); ("value", "value"); ("domain", "domain"); ("path", "path"); ("secure", "secure"); ("httpOnly", "httpOnly"); ("sameSite", "sameSite"); ("expirationDate", "expirationDate")];
     cmd_result := Some [("success", "bool", false)] |}.
Definition Network_canEmulateNetworkConditions : command :=
  {| cmd_domain := "Network";
     cmd_name := "canEmulateNetworkConditions";
     cmd_params := [];
     cmd_method := "canEmulateNetworkConditions";
     cmd_payload := [];
     cmd_result := Some [("result", "bool", false)] |}.
Definition Network_emulateNetworkConditions : command :=
  {| cmd_domain := "Network";
     cmd_name := "emulateNetworkConditions";
     cmd_params := [req "offline"; req "latency"; req "downloadThroughput"; req "uploadThroughput"; opt "connectionType"];
     cmd_method := "emulateNetworkConditions";
     cmd_payload := [("offline", "offline"); ("latency", "latency"); ("downloadThroughput", "downloadThroughput"); ("uploadThroughput", "uploadThroughput"); ("connectionType", "connectionType")];
     cmd_result := None |}.
Definition Network_setCacheDisabled : command :=
  {| cmd_domain := "Network";
     cmd_name := "setCacheDisabled";
     cmd_params := [req "cacheDisabled"];
     cmd_method := "setCacheDisabled";
     cmd_payload := [("cacheDisabled", "cacheDisabled")];
     cmd_result := None |}.
Definition Network_setBypassServiceWorker : command :=
  {| cmd_domain := "Network";
     cmd_name := "setBypassServiceWorker";
     cmd_params := [req "bypass"];
     cmd_method := "setBypassServiceWorker";
     cmd_payload := [("bypass", "bypass")];
     cmd_result := None |}.
Definition Network_setDataSizeLimitsForTest : command :=
  {| cmd_domain := "Network";
     cmd_name := "setDataSizeLimitsForTest";
     cmd_params := [req "maxTotalSize"; req "maxResourceSize"];
     cmd_method := "setDataSizeLimitsForTest";
     cmd_payload := [("maxTotalSize", "maxTotalSize"); ("maxResourceSize", "maxResourceSize")];
     cmd_result := None |}.
Definition Network_getCertificate : command :=
  {| cmd_domain := "Network";
     cmd_name := "getCertificate";
     cmd_params := [req "origin"];
     cmd_method := "getCertificate";
     cmd_payload := [("origin", "origin")];
     cmd_result := Some [("tableNames", "[]", false)] |}.
Definition Network_setRequestInterceptionEnabled : command :=
  {| cmd_domain := "Network";
     cmd_name := "setRequestInterceptionEnabled";
     cmd_params := [req "enabled"];
     cmd_method := "setRequestInterceptionEnabled";
     cmd_payload := [("enabled", "enabled")];
     cmd_result := None |}.
Definition Network_continueInterceptedRequest : command :=
  {| cmd_domain := "Network";
     cmd_name := "continueInterceptedRequest";
     cmd_params := [req "interceptionId"; opt "errorReason"; opt "rawResponse"; opt "url"; opt "method"; opt "postData"; opt "headers"; opt "authChallengeResponse"];
     cmd_method := "continueInterceptedRequest";
     cmd_payload := [("interceptionId", "interceptionId"); ("errorReason", "errorReason"); ("rawResponse", "rawResponse"); ("url", "url"); ("method", "method"); ("postData", "postData"); ("headers", "headers"); ("authChallengeResponse", "authChallengeResponse")];
     cmd_result := None |}.
Definition ResourceChangedPriorityEvent : event_class :=
  {| ev_cls := "ResourceChangedPriorityEvent";
     js_name := "Network.resourceChangedPriority";
     hashable := ["requestId"];
     is_hashable := true;
     ev_params := [req "requestId"; req "newPriority"; req "timestamp"];
     ev_body := [("requestId", CBuiltin BStr); ("newPriority", CBuiltin BStr); ("timestamp", CBuiltin BFloat)];
     ev_build_hash := BHSerialize ["requestId"] |}.
Definition RequestWillBeSentEvent : event_class :=
  {| ev_cls := "RequestWillBeSentEvent";
     js_name := "Network.requestWillBeSent";
     hashable := ["loaderId"; "frameId"; "requestId"];
     is_hashable := true;
     ev_params := [req "requestId"; req "loaderId"; req "documentURL"; req "request"; req "timestamp"; req "wallTime"; req "initiator"; opt "redirectResponse"; opt "type"; opt "frameId"];
     ev_body := [("requestId", CBuiltin BStr); ("loaderId", CBuiltin BStr); ("documentURL", CBuiltin BStr); ("request", CStruct network.Request); ("timestamp", CBuiltin BFloat); ("wallTime", CBuiltin BFloat); ("initiator", CStruct network.Initiator); ("redirectResponse", CStruct network.Response); ("type", CExtern "Page.ResourceType"); ("frameId", CExtern "Page.FrameId")];
     ev_build_hash := BHSerialize ["loaderId"; "frameId"; "requestId"] |}.
Definition RequestServedFromCacheEvent : event_class :=
  {| ev_cls := "RequestServedFromCacheEvent";
     js_name := "Network.requestServedFromCache";
     hashable := ["requestId"];
     is_hashable := true;
     ev_params := [req "requestId"];
     ev_body := [("requestId", CBuiltin BStr)];
     ev_build_hash := BHSerialize ["requestId"] |}.
Definition ResponseReceivedEvent : event_class :=
  {| ev_cls := "ResponseReceivedEvent";
     js_name := "Network.responseReceived";
     hashable := ["loaderId"; "frameId"; "requestId"];
     is_hashable := true;
     ev_params := [req "requestId"; req "loaderId"; req "timestamp"; req "type"; req "response"; opt "frameId"];
     ev_body := [("requestId", CBuiltin BStr); ("loaderId", CBuiltin BStr); ("timestamp", CBuiltin BFloat); ("type", CExtern "Page.ResourceType"); ("response", CStruct network.Response); ("frameId", CExtern "Page.FrameId")];
     ev_build_hash := BHSerialize ["loaderId"; "frameId"; "requestId"] |}.
Definition DataReceivedEvent : event_class :=
  {| ev_cls := "DataReceivedEvent";
     js_name := "Network.dataReceived";
     hashable := ["requestId"];
     is_hashable := true;
     ev_params := [req "requestId"; req "timestamp"; req "dataLength"; req "encodedDataLength"];
     ev_body := [("requestId", CBuiltin BStr); ("timestamp", CBuiltin BFloat); ("dataLength", CBuiltin BInt); ("encodedDataLength", CBuiltin BInt)];
     ev_build_hash := BHSerialize ["requestId"] |}.
Definition LoadingFinishedEvent : event_class :=
  {| ev_cls := "LoadingFinishedEvent";
     js_name := "Network.loadingFinished";
     hashable := ["requestId"];
     is_hashable := true;
     ev_params := [req "requestId"; req "timestamp"; req "encodedDataLength"];
     ev_body := [("requestId", CBuiltin BStr); ("timestamp", CBuiltin BFloat); ("encodedDataLength", CBuiltin BFloat)];
     ev_build_hash := BHSerialize ["requestId"] |}.
Definition LoadingFailedEvent : event_class :=
  {| ev_cls := "LoadingFailedEvent";
     js_name := "Network.loadingFailed";
     hashable := ["requestId"];
     is_hashable := true;
     ev_params := [req "requestId"; req "timestamp"; req "type"; req "errorText"; opt "canceled"; opt "blockedReason"];
     ev_body := [("requestId", CBuiltin BStr); ("timestamp", CBuiltin BFloat); ("type", CExtern "Page.ResourceType"); ("errorText", CBuiltin BStr); ("canceled", CBuiltin BBool); ("blockedReason", CBuiltin BStr)];
     ev_build_hash := BHSerialize ["requestId"] |}.
Definition WebSocketWillSendHandshakeRequestEvent : event_class :=
  {| ev_cls := "WebSocketWillSendHandshakeRequestEvent";
     js_name := "Network.webSocketWillSendHandshakeRequest";
     hashable := ["requestId"];
     is_hashable := true;
     ev_params := [req "requestId"; req "timestamp"; req "wallTime"; req "request"];
     ev_body := [("requestId", CBuiltin BStr); ("timestamp", CBuiltin BFloat); ("wallTime", CBuiltin BFloat); ("request", CStruct network.WebSocketRequest)];
     ev_build_hash := BHSerialize ["requestId"] |}.
Definition WebSocketHandshakeResponseReceivedEvent : event_class :=
  {| ev_cls := "WebSocketHandshakeResponseReceivedEvent";
     js_name := "Network.webSocketHandshakeResponseReceived";
     hashable := ["requestId"];
     is_hashable := true;
     ev_params := [req "requestId"; req "timestamp"; req "response"];
     ev_body := [("requestId", CBuiltin BStr); ("timestamp", CBuiltin BFloat); ("response", CStruct network.WebSocketResponse)];
     ev_build_hash := BHSerialize ["requestId"] |}.
Definition WebSocketCreatedEvent : event_class :=
  {| ev_cls := "WebSocketCreatedEvent";
     js_name := "Network.webSocketCreated";
     hashable := ["requestId"];
     is_hashable := true;
     ev_params := [req "requestId"; req "url"; opt "initiator"];
     ev_body := [("requestId", CBuiltin BStr); ("url", CBuiltin BStr); ("initiator", CStruct network.Initiator)];
     ev_build_hash := BHSerialize ["requestId"] |}.
Definition WebSocketClosedEvent : event_class :=
  {| ev_cls := "WebSocketClosedEvent";
     js_name := "Network.webSocketClosed";
     hashable := ["requestId"];
     is_hashable := true;
     ev_params := [req "requestId"; req "timestamp"];
     ev_body := [("requestId", CBuiltin BStr); ("timestamp", CBuiltin BFloat)];
     ev_build_hash := BHSerialize ["requestId"] |}.
Definition WebSocketFrameReceivedEvent : event_class :=
  {| ev_cls := "WebSocketFrameReceivedEvent";
     js_name := "Network.webSocketFrameReceived";
     hashable := ["requestId"];
     is_hashable := true;
     ev_params := [req "requestId"; req "timestamp"; req "response"];
     ev_body := [("requestId", CBuiltin BStr); ("timestamp", CBuiltin BFloat); ("response", CStruct network.WebSocketFrame)];
     ev_build_hash := BHSerialize ["requestId"] |}.
Definition WebSocketFrameErrorEvent : event_class :=
  {| ev_cls := "WebSocketFrameErrorEvent";
     js_name := "Network.webSocketFrameError";
     hashable := ["requestId"];
     is_hashable := true;
     ev_params := [req "requestId"; req "timestamp"; req "errorMessage"];
     ev_body := [("requestId", CBuiltin BStr); ("timestamp", CBuiltin BFloat); ("errorMessage", CBuiltin BStr)];
     ev_build_hash := BHSerialize ["requestId"] |}.
Definition WebSocketFrameSentEvent : event_class :=
  {| ev_cls := "WebSocketFrameSentEvent";
     js_name := "Network.webSocketFrameSent";
     hashable := ["requestId"];
     is_hashable := true;
     ev_params := [req "requestId"; req "timestamp"; req "response"];
     ev_body := [("requestId", CBuiltin BStr); ("timestamp", CBuiltin BFloat); ("response", CStruct network.WebSocketFrame)];
     ev_build_hash := BHSerialize ["requestId"] |}.
Definition EventSourceMessageReceivedEvent : event_class :=
  {| ev_cls := "EventSourceMessageReceivedEvent";
     js_name := "Network.eventSourceMessageReceived";
     hashable := ["eventId"; "requestId"];
     is_hashable := true;
     ev_params := [req "requestId"; req "timestamp"; req "eventName"; req "eventId"; req "data"];
     ev_body := [("requestId", CBuiltin BStr); ("timestamp", CBuiltin BFloat); ("eventName", CBuiltin BStr); ("eventId", CBuiltin BStr); ("data", CBuiltin BStr)];
     ev_build_hash := BHSerialize ["eventId"; "requestId"] |}.
Definition RequestInterceptedEvent : event_class :=
  {| ev_cls := "RequestInterceptedEvent";
     js_name := "Network.requestIntercepted";
     hashable := ["interceptionId"];
     is_hashable := true;
     ev_params := [req "interceptionId"; req "request"; req "resourceType"; opt "redirectHeaders"; opt "redirectStatusCode"; opt "redirectUrl"; opt "authChallenge"];
     ev_body := [("interceptionId", CBuiltin BStr); ("request", CStruct network.Request); ("resourceType", CExtern "Page.ResourceType"); ("redirectHeaders", CBuiltin BDict); ("redirectStatusCode", CBuiltin BInt); ("redirectUrl", CBuiltin BStr); ("authChallenge", CStruct network.AuthChallenge)];
     ev_build_hash := BHSerialize ["interceptionId"] |}.
End network.

Module overlay.
Definition HighlightConfig : struct_class :=
  {| sc_name := "HighlightConfig";
     sc_params := [opt "showInfo"; opt "showRulers"; opt "showExtensionLines"; opt "displayAsMaterial"; opt "contentColor"; opt "paddingColor"; opt "borderColor"; opt "marginColor"; opt "eventTargetColor"; opt "shapeColor"; opt "shapeMarginColor"; opt "selectorList"];
     sc_body := ["showInfo"; "showRulers"; "showExtensionLines"; "displayAsMaterial"; "contentColor"; "paddingColor"; "borderColor"; "marginColor"; "eventTargetColor"; "shapeColor"; "shapeMarginColor"; "selectorList"] |}.
Definition Overlay_enable : command :=
  {| cmd_domain := "Overlay";
     cmd_name := "enable";
     cmd_params := [];
     cmd_method := "enable";
     cmd_payload := [];
     cmd_result := None |}.
Definition Overlay_disable : command :=
  {| cmd_domain := "Overlay";
     cmd_name := "disable";
     cmd_params := [];
     cmd_method := "disable";
     cmd_payload := [];
     cmd_result := None |}.
Definition Overlay_setShowPaintRects : command :=
  {| cmd_domain := "Overlay";
     cmd_name := "setShowPaintRects";
     cmd_params := [req "result"];
     cmd_method := "setShowPaintRects";
     cmd_payload := [("result", "result")];
     cmd_result := None |}.
Definition Overlay_setShowDebugBorders : command :=
  {| cmd_domain := "Overlay";
     cmd_name := "setShowDebugBorders";
     cmd_params := [req "show"];
     cmd_method := "setShowDebugBorders";
     cmd_payload := [("show", "show")];
     cmd_result := None |}.
Definition Overlay_setShowFPSCounter : command :=
  {| cmd_domain := "Overlay";
     cmd_name := "setShowFPSCounter";
     cmd_params := [req "show"];
     cmd_method := "setShowFPSCounter";
     cmd_payload := [("show", "show")];
     cmd_result := None |}.
Definition Overlay_setShowScrollBottleneckRects : command :=
  {| cmd_domain := "Overlay";
     cmd_name := "setShowScrollBottleneckRects";
     cmd_params := [req "show"];
     cmd_method := "setShowScrollBottleneckRects";
     cmd_payload := [("show", "show")];
     cmd_result := None |}.
Definition Overlay_setShowViewportSizeOnResize : command :=
  {| cmd_domain := "Overlay";
     cmd_name := "setShowViewportSizeOnResize";
     cmd_params := [req "show"];
     cmd_method := "setShowViewportSizeOnResize";
     cmd_payload := [("show", "show")];
     cmd_result := None |}.
Definition Overlay_setPausedInDebuggerMessage : command :=
  {| cmd_domain := "Overlay";
     cmd_name := "setPausedInDebuggerMessage";
     cmd_params := [opt "message"];
     cmd_method := "setPausedInDebuggerMessage";
     cmd_payload := [("message", "message")];
     cmd_result := None |}.
Definition Overlay_setSuspended : command :=
  {| cmd_domain := "Overlay";
     cmd_name := "setSuspended";
     cmd_params := [req "suspended"];
     cmd_method := "setSuspended";
     cmd_payload := [("suspended", "suspended")];
     cmd_result := None |}.
Definition Overlay_setInspectMode : command :=
  {| cmd_domain := "Overlay";
     cmd_name := "setInspectMode";
     cmd_params := [req "mode"; opt "highlightConfig"];
     cmd_method := "setInspectMode";
     cmd_payload := [("mode", "mode"); ("highlightConfig", "highlightConfig")];
     cmd_result := None |}.
Definition Overlay_highlightRect : command :=
  {| cmd_domain := "Overlay";
     cmd_name := "highlightRect";
     cmd_params := [req "x"; req "y"; req "width"; req "height"; opt "color"; opt "outlineColor"];
     cmd_method := "highlightRect";
     cmd_payload := [("x", "x"); ("y", "y"); ("width", "width"); ("height", "height"); ("color", "color"); ("outlineColor", "outlineColor")];
     cmd_result := None |}.
Definition Overlay_highlightQuad : command :=
  {| cmd_domain := "Overlay";
     cmd_name := "highlightQuad";
     cmd_params := [req "quad"; opt "color"; opt "outlineColor"];
     cmd_method := "highlightQuad";
     cmd_payload := [("quad", "quad"); ("color", "color"); ("outlineColor", "outlineColor")];
     cmd_result := None |}.
Definition Overlay_highlightNode : command :=
  {| cmd_domain := "Overlay";
     cmd_name := "highlightNode";
     cmd_params := [req "highlightConfig"; opt "nodeId"; opt "backendNodeId"; opt "objectId"];
     cmd_method := "highlightNode";
     cmd_payload := [("highlightConfig", "highlightConfig"); ("nodeId", "nodeId"); ("backendNodeId", "backendNodeId"); ("objectId", "objectId")];
     cmd_result := None |}.
Definition Overlay_highlightFrame : command :=
  {| cmd_domain := "Overlay";
     cmd_name := "highlightFrame";
     cmd_params := [req "frameId"; opt "contentColor"; opt "contentOutlineColor"];
     cmd_method := "highlightFrame";
     cmd_payload := [("frameId", "frameId"); ("contentColor", "contentColor"); ("contentOutlineColor", "contentOutlineColor")];
     cmd_result := None |}.
Definition Overlay_hideHighlight : command :=
  {| cmd_domain := "Overlay";
     cmd_name := "hideHighlight";
     cmd_params := [];
     cmd_method := "hideHighlight";
     cmd_payload := [];
     cmd_result := None |}.
Definition Overlay_getHighlightObjectForTest : command :=
  {| cmd_domain := "Overlay";
     cmd_name := "getHighlightObjectForTest";
     cmd_params := [req "nodeId"];
     cmd_method := "getHighlightObjectForTest";
     cmd_payload := [("nodeId", "nodeId")];
     cmd_result := Some [("highlight", "dict", false)] |}.
Definition NodeHighlightRequestedEvent : event_class :=
  {| ev_cls := "NodeHighlightRequestedEvent";
     js_name := "Overlay.nodeHighlightRequested";
     hashable := ["nodeId"];
     is_hashable := true;
     ev_params := [req "nodeId"];
     ev_body := [("nodeId", CBuiltin BInt)];
     ev_build_hash := BHSerialize ["nodeId"] |}.
Definition InspectNodeRequestedEvent : event_class :=
  {| ev_cls := "InspectNodeRequestedEvent";
     js_name := "Overlay.inspectNodeRequested";
     hashable := ["backendNodeId"];
     is_hashable := true;
     ev_params := [req "backendNodeId"];
     ev_body := [("backendNodeId", CBuiltin BInt)];
     ev_build_hash := BHSerialize ["backendNodeId"] |}.
End overlay.

Module profiler.
Definition ProfileNode : struct_class :=
  {| sc_name := "ProfileNode";
     sc_params := [req "id"; req "callFrame"; opt "hitCount"; opt "children"; opt "deoptReason"; opt "positionTicks"];
     sc_body := ["id"; "callFrame"; "hitCount"; "children"; "deoptReason"; "positionTicks"] |}.
Definition Profile : struct_class :=
  {| sc_name := "Profile";
     sc_params := [req "nodes"; req "startTime"; req "endTime"; opt "samples"; opt "timeDeltas"];
     sc_body := ["nodes"; "startTime"; "endTime"; "samples"; "timeDeltas"] |}.
Definition PositionTickInfo : struct_class :=
  {| sc_name := "PositionTickInfo";
     sc_params := [req "line"; req "ticks"];
     sc_body := ["line"; "ticks"] |}.
Definition CoverageRange : struct_class :=
  {| sc_name := "CoverageRange";
     sc_params := [req "startOffset"; req "endOffset"; req "count"];
     sc_body := ["startOffset"; "endOffset"; "count"] |}.
Definition FunctionCoverage : struct_class :=
  {| sc_name := "FunctionCoverage";
     sc_params := [req "functionName"; req "ranges"; req "isBlockCoverage"];
     sc_body := ["functionName"; "ranges"; "isBlockCoverage"] |}.
Definition ScriptCoverage : struct_class :=
  {| sc_name := "ScriptCoverage";
     sc_params := [req "scriptId"; req "url"; req "functions"];
     sc_body := ["scriptId"; "url"; "functions"] |}.
Definition Profiler_enable : command :=
  {| cmd_domain := "Profiler";
     cmd_name := "enable";
     cmd_params := [];
     cmd_method := "enable";
     cmd_payload := [];
     cmd_result := None |}.
Definition Profiler_disable : command :=
  {| cmd_domain := "Profiler";
     cmd_name := "disable";
     cmd_params := [];
     cmd_method := "disable";
     cmd_payload := [];
     cmd_result := None |}.
Definition Profiler_setSamplingInterval : command :=
  {| cmd_domain := "Profiler";
     cmd_name := "setSamplingInterval";
     cmd_params := [req "interval"];
     cmd_method := "setSamplingInterval";
     cmd_payload := [("interval", "interval")];
     cmd_result := None |}.
Definition Profiler_start : command :=
  {| cmd_domain := "Profiler";
     cmd_name := "start";
     cmd_params := [];
     cmd_method := "start";
     cmd_payload := [];
     cmd_result := None |}.
Definition Profiler_stop : command :=
  {| cmd_domain := "Profiler";
     cmd_name := "stop";
     cmd_params := [];
     cmd_method := "stop";
     cmd_payload := [];
     cmd_result := Some [("profile", "Profile", false)] |}.
Definition Profiler_startPreciseCoverage : command :=
  {| cmd_domain := "Profiler";
     cmd_name := "startPreciseCoverage";
     cmd_params := [opt "callCount"];
     cmd_method := "startPreciseCoverage";
     cmd_payload := [("callCount", "callCount")];
     cmd_result := None |}.
Definition Profiler_stopPreciseCoverage : command :=
  {| cmd_domain := "Profiler";
     cmd_name := "stopPreciseCoverage";
     cmd_params := [];
     cmd_method := "stopPreciseCoverage";
     cmd_payload := [];
     cmd_result := None |}.
Definition Profiler_takePreciseCoverage : command :=
  {| cmd_domain := "Profiler";
     cmd_name := "takePreciseCoverage";
     cmd_params := [];
     cmd_method := "takePreciseCoverage";
     cmd_payload := [];
     cmd_result := Some [("result", "[ScriptCoverage]", false)] |}.
Definition Profiler_getBestEffortCoverage : command :=
  {| cmd_domain := "Profiler";
     cmd_name := "getBestEffortCoverage";
     cmd_params := [];
     cmd_method := "getBestEffortCoverage";
     cmd_payload := [];
     cmd_result := Some [("result", "[ScriptCoverage]", false)] |}.
Definition ConsoleProfileStartedEvent : event_class :=
  {| ev_cls := "ConsoleProfileStartedEvent";
     js_name := "Profiler.consoleProfileStarted";
     hashable := ["id"];
     is_hashable := true;
     ev_params := [req "id"; req "location"; opt "title"];
     ev_body := [("id", CBuiltin BStr); ("location", CStruct debugger.Location); ("title", CBuiltin BStr)];
     ev_build_hash := BHSerialize ["id"] |}.
Definition ConsoleProfileFinishedEvent : event_class :=
  {| ev_cls := "ConsoleProfileFinishedEvent";
     js_name := "Profiler.consoleProfileFinished";
     hashable := ["id"];
     is_hashable := true;
     ev_params := [req "id"; req "location"; req "profile"; opt "title"];
     ev_body := [("id", CBuiltin BStr); ("location", CStruct debugger.Location); ("profile", CStruct profiler.Profile); ("title", CBuiltin BStr)];
     ev_build_hash := BHSerialize ["id"] |}.
End profiler.

Module security.
Definition SecurityStateExplanation : struct_class :=
  {| sc_name := "SecurityStateExplanation";
     sc_params := [req "securityState"; req "summary"; req "description"; req "hasCertificate"; req "mixedContentType"];
     sc_body := ["securityState"; "summary"; "description"; "hasCertificate"; "mixedContentType"] |}.
Definition InsecureContentStatus : struct_class :=
  {| sc_name := "InsecureContentStatus";
     sc_params := [req "ranMixedContent"; req "displayedMixedContent"; req "containedMixedForm"; req "ranContentWithCertErrors"; req "displayedContentWithCertErrors"; req "ranInsecureContentStyle"; req "displayedInsecureContentStyle"];
     sc_body := ["ranMixedContent"; "displayedMixedContent"; "containedMixedForm"; "ranContentWithCertErrors"; "displayedContentWithCertErrors"; "ranInsecureContentStyle"; "displayedInsecureContentStyle"] |}.
Definition Security_enable : command :=
  {| cmd_domain := "Security";
     cmd_name := "enable";
     cmd_params := [];
     cmd_method := "enable";
     cmd_payload := [];
     cmd_result := None |}.
Definition Security_disable : command :=
  {| cmd_domain := "Security";
     cmd_name := "disable";
     cmd_params := [];
     cmd_method := "disable";
     cmd_payload := [];
     cmd_result := None |}.
Definition Security_showCertificateViewer : command :=
  {| cmd_domain := "Security";
     cmd_name := "showCertificateViewer";
     cmd_params := [];
     cmd_method := "showCertificateViewer";
     cmd_payload := [];
     cmd_result := None |}.
Definition Security_handleCertificateError : command :=
  {| cmd_domain := "Security";
     cmd_name := "handleCertificateError";
     cmd_params := [req "eventId"; req "action"];
     cmd_method := "handleCertificateError";
     cmd_payload := [("eventId", "eventId"); ("action", "action")];
     cmd_result := None |}.
Definition Security_setOverrideCertificateErrors : command :=
  {| cmd_domain := "Security";
     cmd_name := "setOverrideCertificateErrors";
     cmd_params := [req "override"];
     cmd_method := "setOverrideCertificateErrors";
     cmd_payload := [("override", "override")];
     cmd_result := None |}.
Definition SecurityStateChangedEvent : event_class :=
  {| ev_cls := "SecurityStateChangedEvent";
     js_name := "Security.securityStateChanged";
     hashable := [];
     is_hashable := false;
     ev_params := [req "securityState"; req "schemeIsCryptographic"; req "explanations"; req "insecureContentStatus"; opt "summary"];
     ev_body := [("securityState", CBuiltin BStr); ("schemeIsCryptographic", CBuiltin BBool); ("explanations", CListLiteral "[SecurityStateExplanation]"); ("insecureContentStatus", CStruct security.InsecureContentStatus); ("summary", CBuiltin BStr)];
     ev_build_hash := BHRaise [] |}.
Definition CertificateErrorEvent : event_class :=
  {| ev_cls := "CertificateErrorEvent";
     js_name := "Security.certificateError";
     hashable := ["eventId"];
     is_hashable := true;
     ev_params := [req "eventId"; req "errorType"; req "requestURL"];
     ev_body := [("eventId", CBuiltin BInt); ("errorType", CBuiltin BStr); ("requestURL", CBuiltin BStr)];
     ev_build_hash := BHSerialize ["eventId"] |}.
End security.

Module serviceworker.
Definition ServiceWorkerRegistration : struct_class :=
  {| sc_name := "ServiceWorkerRegistration";
     sc_params := [req "registrationId"; req "scopeURL"; req "isDeleted"];
     sc_body := ["registrationId"; "scopeURL"; "isDeleted"] |}.
Definition ServiceWorkerVersion : struct_class :=
  {| sc_name := "ServiceWorkerVersion";
     sc_params := [req "versionId"; req "registrationId"; req "scriptURL"; req "runningStatus"; req "status"; opt "scriptLastModified"; opt "scriptResponseTime"; opt "controlledClients"; opt "targetId"];
     sc_body := ["versionId"; "registrationId"; "scriptURL"; "runningStatus"; "status"; "scriptLastModified"; "scriptResponseTime"; "controlledClients"; "targetId"] |}.
Definition ServiceWorkerErrorMessage : struct_class :=
  {| sc_name := "ServiceWorkerErrorMessage";
     sc_params := [req "errorMessage"; req "registrationId"; req "versionId"; req "sourceURL"; req "lineNumber"; req "columnNumber"];
     sc_body := ["errorMessage"; "registrationId"; "versionId"; "sourceURL"; "lineNumber"; "columnNumber"] |}.
Definition ServiceWorker_enable : command :=
  {| cmd_domain := "ServiceWorker";
     cmd_name := "enable";
     cmd_params := [];
     cmd_method := "enable";
     cmd_payload := [];
     cmd_result := None |}.
Definition ServiceWorker_disable : command :=
  {| cmd_domain := "ServiceWorker";
     cmd_name := "disable";
     cmd_params := [];
     cmd_method := "disable";
     cmd_payload := [];
     cmd_result := None |}.
Definition ServiceWorker_unregister : command :=
  {| cmd_domain := "ServiceWorker";
     cmd_name := "unregister";
     cmd_params := [req "scopeURL"];
     cmd_method := "unregister";
     cmd_payload := [("scopeURL", "scopeURL")];
     cmd_result := None |}.
Definition ServiceWorker_updateRegistration : command :=
  {| cmd_domain := "ServiceWorker";
     cmd_name := "updateRegistration";
     cmd_params := [req "scopeURL"];
     cmd_method := "updateRegistration";
     cmd_payload := [("scopeURL", "scopeURL")];
     cmd_result := None |}.
Definition ServiceWorker_startWorker : command :=
  {| cmd_domain := "ServiceWorker";
     cmd_name := "startWorker";
     cmd_params := [req "scopeURL"];
     cmd_method := "startWorker";
     cmd_payload := [("scopeURL", "scopeURL")];
     cmd_result := None |}.
Definition ServiceWorker_skipWaiting : command :=
  {| cmd_domain := "ServiceWorker";
     cmd_name := "skipWaiting";
     cmd_params := [req "scopeURL"];
     cmd_method := "skipWaiting";
     cmd_payload := [("scopeURL", "scopeURL")];
     cmd_result := None |}.
Definition ServiceWorker_stopWorker : command :=
  {| cmd_domain := "ServiceWorker";
     cmd_name := "stopWorker";
     cmd_params := [req "versionId"];
     cmd_method := "stopWorker";
     cmd_payload := [("versionId", "versionId")];
     cmd_result := None |}.
Definition ServiceWorker_inspectWorker : command :=
  {| cmd_domain := "ServiceWorker";
     cmd_name := "inspectWorker";
     cmd_params := [req "versionId"];
     cmd_method := "inspectWorker";
     cmd_payload := [("versionId", "versionId")];
     cmd_result := None |}.
Definition ServiceWorker_setForceUpdateOnPageLoad : command :=
  {| cmd_domain := "ServiceWorker";
     cmd_name := "setForceUpdateOnPageLoad";
     cmd_params := [req "forceUpdateOnPageLoad"];
     cmd_method := "setForceUpdateOnPageLoad";
     cmd_payload := [("forceUpdateOnPageLoad", "forceUpdateOnPageLoad")];
     cmd_result := None |}.
Definition ServiceWorker_deliverPushMessage : command :=
  {| cmd_domain := "ServiceWorker";
     cmd_name := "deliverPushMessage";
     cmd_params := [req "origin"; req "registrationId"; req "data"];
     cmd_method := "deliverPushMessage";
     cmd_payload := [("origin", "origin"); ("registrationId", "registrationId"); ("data", "data")];
     cmd_result := None |}.
Definition ServiceWorker_dispatchSyncEvent : command :=
  {| cmd_domain := "ServiceWorker";
     cmd_name := "dispatchSyncEvent";
     cmd_params := [req "origin"; req "registrationId"; req "tag"; req "lastChance"];
     cmd_method := "dispatchSyncEvent";
     cmd_payload := [("origin", "origin"); ("registrationId", "registrationId"); ("tag", "tag"); ("lastChance", "lastChance")];
     cmd_result := None |}.
Definition WorkerRegistrationUpdatedEvent : event_class :=
  {| ev_cls := "WorkerRegistrationUpdatedEvent";
     js_name := "Serviceworker.workerRegistrationUpdated";
     hashable := [];
     is_hashable := false;
     ev_params := [req "registrations"];
     ev_body := [("registrations", CListLiteral "[ServiceWorkerRegistration]")];
     ev_build_hash := BHRaise [] |}.
Definition WorkerVersionUpdatedEvent : event_class :=
  {| ev_cls := "WorkerVersionUpdatedEvent";
     js_name := "Serviceworker.workerVersionUpdated";
     hashable := [];
     is_hashable := false;
     ev_params := [req "versions"];
     ev_body := [("versions", CListLiteral "[ServiceWorkerVersion]")];
     ev_build_hash := BHRaise [] |}.
Definition WorkerErrorReportedEvent : event_class :=
  {| ev_cls := "WorkerErrorReportedEvent";
     js_name := "Serviceworker.workerErrorReported";
     hashable := [];
     is_hashable := false;
     ev_params := [req "errorMessage"];
     ev_body := [("errorMessage", CStruct serviceworker.ServiceWorkerErrorMessage)];
     ev_build_hash := BHRaise [] |}.
End serviceworker.

Module systeminfo.
Definition GPUDevice : struct_class :=
  {| sc_name := "GPUDevice";
     sc_params := [req "vendorId"; req "deviceId"; req "vendorString"; req "deviceString"];
     sc_body := ["vendorId"; "deviceId"; "vendorString"; "deviceString"] |}.
Definition GPUInfo : struct_class :=
  {| sc_name := "GPUInfo";
     sc_params := [req "devices"; req "driverBugWorkarounds"; opt "auxAttributes"; opt "featureStatus"];
     sc_body := ["devices"; "auxAttributes"; "featureStatus"; "driverBugWorkarounds"] |}.
Definition SystemInfo_getInfo : command :=
  {| cmd_domain := "SystemInfo";
     cmd_name := "getInfo";
     cmd_params := [];
     cmd_method := "getInfo";
     cmd_payload := [];
     cmd_result := Some [("gpu", "GPUInfo", false); ("modelName", "str", false); ("modelVersion", "str", false); ("commandLine", "str", false)] |}.
End systeminfo.

Module tracing.
Definition TraceConfig : struct_class :=
  {| sc_name := "TraceConfig";
     sc_params := [opt "recordMode"; opt "enableSampling"; opt "enableSystrace"; opt "enableArgumentFilter"; opt "includedCategories"; opt "excludedCategories"; opt "syntheticDelays"; opt "memoryDumpConfig"];
     sc_body := ["recordMode"; "enableSampling"; "enableSystrace"; "enableArgumentFilter"; "includedCategories"; "excludedCategories"; "syntheticDelays"; "memoryDumpConfig"] |}.
Definition Tracing_end : command :=
  {| cmd_domain := "Tracing";
     cmd_name := "end";
     cmd_params := [];
     cmd_method := "end";
     cmd_payload := [];
     cmd_result := None |}.
Definition Tracing_getCategories : command :=
  {| cmd_domain := "Tracing";
     cmd_name := "getCategories";
     cmd_params := [];
     cmd_method := "getCategories";
     cmd_payload := [];
     cmd_result := Some [("categories", "[]", false)] |}.
Definition Tracing_recordClockSyncMarker : command :=
  {| cmd_domain := "Tracing";
     cmd_name := "recordClockSyncMarker";
     cmd_params := [req "syncId"];
     cmd_method := "recordClockSyncMarker";
     cmd_payload := [("syncId", "syncId")];
     cmd_result := None |}.
Definition Tracing_requestMemoryDump : command :=
  {| cmd_domain := "Tracing";
     cmd_name := "requestMemoryDump";
     cmd_params := [];
     cmd_method := "requestMemoryDump";
     cmd_payload := [];
     cmd_result := Some [("dumpGuid", "str", false); ("success", "bool", false)] |}.
Definition Tracing_start : command :=
  {| cmd_domain := "Tracing";
     cmd_name := "start";
     cmd_params := [opt "categories"; opt "options"; opt "bufferUsageReportingInterval"; opt "transferMode"; opt "streamCompression"; opt "traceConfig"];
     cmd_method := "start";
     cmd_payload := [("categories", "categories"); ("options", "options"); ("bufferUsageReportingInterval", "bufferUsageReportingInterval"); ("transferMode", "transferMode"); ("streamCompression", "streamCompression"); ("traceConfig", "traceConfig")];
     cmd_result := None |}.
Definition BufferUsageEvent : event_class :=
  {| ev_cls := "BufferUsageEvent";
     js_name := "Tracing.bufferUsage";
     hashable := [];
     is_hashable := false;
     ev_params := [opt "percentFull"; opt "eventCount"; opt "value"];
     ev_body := [("percentFull", CBuiltin BFloat); ("eventCount", CBuiltin BFloat); ("value", CBuiltin BFloat)];
     ev_build_hash := BHRaise [] |}.
Definition DataCollectedEvent : event_class :=
  {| ev_cls := "DataCollectedEvent";
     js_name := "Tracing.dataCollected";
     hashable := [];
     is_hashable := false;
     ev_params := [req "value"];
     ev_body := [("value", CListLiteral "[]")];
     ev_build_hash := BHRaise [] |}.
Definition TracingCompleteEvent : event_class :=
  {| ev_cls := "TracingCompleteEvent";
     js_name := "Tracing.tracingComplete";
     hashable := [];
     is_hashable := false;
     ev_params := [opt "stream"; opt "streamCompression"];
     ev_body := [("stream", CExtern "IO.StreamHandle"); ("streamCompression", CBuiltin BStr)];
     ev_build_hash := BHRaise [] |}.
End tracing.

(** Every event class of the generated protocol modules. *)
Definition event_catalog : list event_class :=
  [applicationcache.ApplicationCacheStatusUpdatedEvent;
   applicationcache.NetworkStateUpdatedEvent;
   css.MediaQueryResultChangedEvent;
   css.FontsUpdatedEvent;
   css.StyleSheetChangedEvent;
   css.StyleSheetAddedEvent;
   css.StyleSheetRemovedEvent;
   debugger.ScriptParsedEvent;
   debugger.ScriptFailedToParseEvent;
   debugger.BreakpointResolvedEvent;
   debugger.PausedEvent;
   debugger.ResumedEvent;
   dom.DocumentUpdatedEvent;
   dom.SetChildNodesEvent;
   dom.AttributeModifiedEvent;
   dom.AttributeRemovedEvent;
   dom.InlineStyleInvalidatedEvent;
   dom.CharacterDataModifiedEvent;
   dom.ChildNodeCountUpdatedEvent;
   dom.ChildNodeInsertedEvent;
   dom.ChildNodeRemovedEvent;
   dom.ShadowRootPushedEvent;
   dom.ShadowRootPoppedEvent;
   dom.PseudoElementAddedEvent;
   dom.PseudoElementRemovedEvent;
   dom.DistributedNodesUpdatedEvent;
   inspector.DetachedEvent;
   inspector.TargetCrashedEvent;
   network.ResourceChangedPriorityEvent;
   network.RequestWillBeSentEvent;
   network.RequestServedFromCacheEvent;
   network.ResponseReceivedEvent;
   network.DataReceivedEvent;
   network.LoadingFinishedEvent;
   network.LoadingFailedEvent;
   network.WebSocketWillSendHandshakeRequestEvent;
   network.WebSocketHandshakeResponseReceivedEvent;
   network.WebSocketCreatedEvent;
   network.WebSocketClosedEvent;
   network.WebSocketFrameReceivedEvent;
   network.WebSocketFrameErrorEvent;
   network.WebSocketFrameSentEvent;
   network.EventSourceMessageReceivedEvent;
   network.RequestInterceptedEvent;
   overlay.NodeHighlightRequestedEvent;
   overlay.InspectNodeRequestedEvent;
   profiler.ConsoleProfileStartedEvent;
   profiler.ConsoleProfileFinishedEvent;
   security.SecurityStateChangedEvent;
   security.CertificateErrorEvent;
   serviceworker.WorkerRegistrationUpdatedEvent;
   serviceworker.WorkerVersionUpdatedEvent;
   serviceworker.WorkerErrorReportedEvent;
   tracing.BufferUsageEvent;
   tracing.DataCollectedEvent;
   tracing.TracingCompleteEvent].

(** Every command builder of the generated protocol modules. *)
Definition command_catalog : list command :=
  [accessibility.Accessibility_getPartialAXTree;
   applicationcache.ApplicationCache_getFramesWithManifests;
   applicationcache.ApplicationCache_enable;
   applicationcache.ApplicationCache_getManifestForFrame;
   applicationcache.ApplicationCache_getApplicationCacheForFrame;
   css.CSS_enable;
   css.CSS_disable;
   css.CSS_getMatchedStylesForNode;
   css.CSS_getInlineStylesForNode;
   css.CSS_getComputedStyleForNode;
   css.CSS_getPlatformFontsForNode;
   css.CSS_getStyleSheetText;
   css.CSS_collectClassNames;
   css.CSS_setStyleSheetText;
   css.CSS_setRuleSelector;
   css.CSS_setKeyframeKey;
   css.CSS_setStyleTexts;
   css.CSS_setMediaText;
   css.CSS_createStyleSheet;
   css.CSS_addRule;
   css.CSS_forcePseudoState;
   css.CSS_getMediaQueries;
   css.CSS_setEffectivePropertyValueForNode;
   css.CSS_getBackgroundColors;
   css.CSS_startRuleUsageTracking;
   css.CSS_takeCoverageDelta;
   css.CSS_stopRuleUsageTracking;
   debugger.Debugger_enable;
   debugger.Debugger_disable;
   debugger.Debugger_setBreakpointsActive;
   debugger.Debugger_setSkipAllPauses;
   debugger.Debugger_setBreakpointByUrl;
   debugger.Debugger_setBreakpoint;
   debugger.Debugger_removeBreakpoint;
   debugger.Debugger_getPossibleBreakpoints;
   debugger.Debugger_continueToLocation;
   debugger.Debugger_stepOver;
   debugger.Debugger_stepInto;
   debugger.Debugger_stepOut;
   debugger.Debugger_pause;
   debugger.Debugger_scheduleStepIntoAsync;
   debugger.Debugger_resume;
   debugger.Debugger_searchInContent;
   debugger.Debugger_setScriptSource;
   debugger.Debugger_restartFrame;
   debugger.Debugger_getScriptSource;
   debugger.Debugger_setPauseOnExceptions;
   debugger.Debugger_evaluateOnCallFrame;
   debugger.Debugger_setVariableValue;
   debugger.Debugger_setAsyncCallStackDepth;
   debugger.Debugger_setBlackboxPatterns;
   debugger.Debugger_setBlackboxedRanges;
   deviceorientation.DeviceOrientation_setDeviceOrientationOverride;
   deviceorientation.DeviceOrientation_clearDeviceOrientationOverride;
   dom.DOM_enable;
   dom.DOM_disable;
   dom.DOM_getDocument;
   dom.DOM_getFlattenedDocument;
   dom.DOM_collectClassNamesFromSubtree;
   dom.DOM_requestChildNodes;
   dom.DOM_querySelector;
   dom.DOM_querySelectorAll;
   dom.DOM_setNodeName;
   dom.DOM_setNodeValue;
   dom.DOM_removeNode;
   dom.DOM_setAttributeValue;
   dom.DOM_setAttributesAsText;
   dom.DOM_removeAttribute;
   dom.DOM_getOuterHTML;
   dom.DOM_setOuterHTML;
   dom.DOM_performSearch;
   dom.DOM_getSearchResults;
   dom.DOM_discardSearchResults;
   dom.DOM_requestNode;
   dom.DOM_highlightRect;
   dom.DOM_highlightNode;
   dom.DOM_hideHighlight;
   dom.DOM_pushNodeByPathToFrontend;
   dom.DOM_pushNodesByBackendIdsToFrontend;
   dom.DOM_setInspectedNode;
   dom.DOM_resolveNode;
   dom.DOM_getAttributes;
   dom.DOM_copyTo;
   dom.DOM_moveTo;
   dom.DOM_undo;
   dom.DOM_redo;
   dom.DOM_markUndoableState;
   dom.DOM_focus;
   dom.DOM_setFileInputFiles;
   dom.DOM_getBoxModel;
   dom.DOM_getNodeForLocation;
   dom.DOM_getRelayoutBoundary;
   indexeddb.IndexedDB_enable;
   indexeddb.IndexedDB_disable;
   indexeddb.IndexedDB_requestDatabaseNames;
   indexeddb.IndexedDB_requestDatabase;
   indexeddb.IndexedDB_requestData;
   indexeddb.IndexedDB_clearObjectStore;
   indexeddb.IndexedDB_deleteDatabase;
   input.Input_setIgnoreInputEvents;
   input.Input_dispatchKeyEvent;
   input.Input_dispatchMouseEvent;
   input.Input_dispatchTouchEvent;
   input.Input_emulateTouchFromMouseEvent;
   input.Input_synthesizePinchGesture;
   input.Input_synthesizeScrollGesture;
   input.Input_synthesizeTapGesture;
   inspector.Inspector_disable;
   inspector.Inspector_enable;
   network.Network_enable;
   network.Network_disable;
   network.Network_setUserAgentOverride;
   network.Network_setExtraHTTPHeaders;
   network.Network_getResponseBody;
   network.Network_setBlockedURLs;
   network.Network_replayXHR;
   network.Network_canClearBrowserCache;
   network.Network_clearBrowserCache;
   network.Network_canClearBrowserCookies;
   network.Network_clearBrowserCookies;
   network.Network_getCookies;
   network.Network_getAllCookies;
   network.Network_deleteCookie;
   network.Network_setCookie;
   network.Network_canEmulateNetworkConditions;
   network.Network_emulateNetworkConditions;
   network.Network_setCacheDisabled;
   network.Network_setBypassServiceWorker;
   network.Network_setDataSizeLimitsForTest;
   network.Network_getCertificate;
   network.Network_setRequestInterceptionEnabled;
   network.Network_continueInterceptedRequest;
   overlay.Overlay_enable;
   overlay.Overlay_disable;
   overlay.Overlay_setShowPaintRects;
   overlay.Overlay_setShowDebugBorders;
   overlay.Overlay_setShowFPSCounter;
   overlay.Overlay_setShowScrollBottleneckRects;
   overlay.Overlay_setShowViewportSizeOnResize;
   overlay.Overlay_setPausedInDebuggerMessage;
   overlay.Overlay_setSuspended;
   overlay.Overlay_setInspectMode;
   overlay.Overlay_highlightRect;
   overlay.Overlay_highlightQuad;
   overlay.Overlay_highlightNode;
   overlay.Overlay_highlightFrame;
   overlay.Overlay_hideHighlight;
   overlay.Overlay_getHighlightObjectForTest;
   profiler.Profiler_enable;
   profiler.Profiler_disable;
   profiler.Profiler_setSamplingInterval;
   profiler.Profiler_start;
   profiler.Profiler_stop;
   profiler.Profiler_startPreciseCoverage;
   profiler.Profiler_stopPreciseCoverage;
   profiler.Profiler_takePreciseCoverage;
   profiler.Profiler_getBestEffortCoverage;
   security.Security_enable;
   security.Security_disable;
   security.Security_showCertificateViewer;
   security.Security_handleCertificateError;
   security.Security_setOverrideCertificateErrors;
   serviceworker.ServiceWorker_enable;
   serviceworker.ServiceWorker_disable;
   serviceworker.ServiceWorker_unregister;
   serviceworker.ServiceWorker_updateRegistration;
   serviceworker.ServiceWorker_startWorker;
   serviceworker.ServiceWorker_skipWaiting;
   serviceworker.ServiceWorker_stopWorker;
   serviceworker.ServiceWorker_inspectWorker;
   serviceworker.ServiceWorker_setForceUpdateOnPageLoad;
   serviceworker.ServiceWorker_deliverPushMessage;
   serviceworker.ServiceWorker_dispatchSyncEvent;
   systeminfo.SystemInfo_getInfo;
   tracing.Tracing_end;
   tracing.Tracing_getCategories;
   tracing.Tracing_recordClockSyncMarker;
   tracing.Tracing_requestMemoryDump;
   tracing.Tracing_start].

(** Every structure class of the generated protocol modules. *)
Definition struct_catalog : list struct_class :=
  [accessibility.AXValueSource;
   accessibility.AXRelatedNode;
   accessibility.AXProperty;
   accessibility.AXValue;
   accessibility.AXNode;
   applicationcache.ApplicationCacheResource;
   applicationcache.ApplicationCache;
   applicationcache.FrameWithManifest;
   css.PseudoElementMatches;
   css.InheritedStyleEntry;
   css.RuleMatch;
   css.Value;
   css.SelectorList;
   css.CSSStyleSheetHeader;
   css.CSSRule;
   css.RuleUsage;
   css.SourceRange;
   css.ShorthandEntry;
   css.CSSComputedStyleProperty;
   css.CSSStyle;
   css.CSSProperty;
   css.CSSMedia;
   css.MediaQuery;
   css.MediaQueryExpression;
   css.PlatformFontUsage;
   css.CSSKeyframesRule;
   css.CSSKeyframeRule;
   css.StyleDeclarationEdit;
   css.InlineTextBox;
   debugger.Location;
   debugger.ScriptPosition;
   debugger.CallFrame;
   debugger.Scope;
   debugger.SearchMatch;
   debugger.BreakLocation;
   dom.BackendNode;
   dom.Node;
   dom.RGBA;
   dom.BoxModel;
   dom.ShapeOutsideInfo;
   dom.Rect;
   indexeddb.DatabaseWithObjectStores;
   indexeddb.ObjectStore;
   indexeddb.ObjectStoreIndex;
   indexeddb.Key;
   indexeddb.KeyRange;
   indexeddb.DataEntry;
   indexeddb.KeyPath;
   input.TouchPoint;
   network.ResourceTiming;
   network.Request;
   network.SignedCertificateTimestamp;
   network.SecurityDetails;
   network.Response;
   network.WebSocketRequest;
   network.WebSocketResponse;
   network.WebSocketFrame;
   network.CachedResource;
   network.Initiator;
   network.Cookie;
   network.AuthChallenge;
   network.AuthChallengeResponse;
   overlay.HighlightConfig;
   profiler.ProfileNode;
   profiler.Profile;
   profiler.PositionTickInfo;
   profiler.CoverageRange;
   profiler.FunctionCoverage;
   profiler.ScriptCoverage;
   security.SecurityStateExplanation;
   security.InsecureContentStatus;
   serviceworker.ServiceWorkerRegistration;
   serviceworker.ServiceWorkerVersion;
   serviceworker.ServiceWorkerErrorMessage;
   systeminfo.GPUDevice;
   systeminfo.GPUInfo;
   tracing.TraceConfig].


(** ** Well-formedness of the generated catalog

    Facts about the generator's output that the proofs use; each is
    checked on every class of the catalog by evaluation. *)

Definition comma_free (s : string) : bool := negb (has_char "," s).

Definition mem (x : string) (l : list string) : bool := existsb (String.eqb x) l.

Fixpoint nodupb (l : list string) : bool :=
  match l with
  | [] => true
  | x :: r => negb (mem x r) && nodupb r
  end.

Definition strs_eqb (a b : list string) : bool :=
  if list_eq_dec string_dec a b then true else false.

Definition is_nil {A : Type} (l : list A) : bool :=
  match l with [] => true | _ => false end.

(** An event class: [is_hashable] agrees with [hashable] being non-empty;
    [build_hash] serialises exactly the [hashable] names when hashable and
    raises (taking no argument) otherwise; the hashable names are
    constructor parameters without a comma; the constructor body treats
    each parameter once, in signature order. *)
Definition event_wf (e : event_class) : bool :=
  Bool.eqb (is_hashable e) (negb (is_nil (hashable e))) &&
  match ev_build_hash e with
  | BHSerialize ps => is_hashable e && strs_eqb ps (hashable e)
  | BHRaise ps => negb (is_hashable e) && is_nil ps
  end &&
  forallb (fun h => mem h (map p_name (ev_params e))) (hashable e) &&
  forallb comma_free (hashable e) &&
  strs_eqb (map fst (ev_body e)) (map p_name (ev_params e)) &&
  nodupb (map p_name (ev_params e)).

(** A command: the method string is the classmethod's own name, the dict
    display is [{"p": p, ...}] over the signature's parameters, and the
    result schema names each field once. *)
Definition command_wf (c : command) : bool :=
  String.eqb (cmd_method c) (cmd_name c) &&
  strs_eqb (map fst (cmd_payload c)) (map p_name (cmd_params c)) &&
  strs_eqb (map snd (cmd_payload c)) (map p_name (cmd_params c)) &&
  nodupb (map p_name (cmd_params c)) &&
  match cmd_result c with
  | None => true
  | Some s => nodupb (map (fun '(n, _, _) => n) s)
  end.

(** The value a keyword call binds to parameter [x] when it has a [None]
    default: the supplied value, or [None]. *)
Definition raw_arg (kw : list (string * pyval)) (x : string) : pyval :=
  match lookup x kw with
  | Some v => v
  | None => PNone
  end.

(** The identity line [build_hash] produces for the given values of the
    hashable fields, written as the spec phrases it. *)
Definition identity_of (e : event_class) (vs : list pyval) : string :=
  js_name e ++ ":" ++
  String.concat "," (map (fun '(p, v) => p ++ "=" ++ py_str v) (combine (hashable e) vs)).

(** ** Request correlation *)

(** Modelled from the spec: the request correlator of chromewhip's
    connection layer (spec 4.2), which is not in this source tree.  Ids
    come from a counter starting at 1; a sent request is pending until a
    response frame bearing its id resolves or rejects it, the caller
    cancels it, or the session is torn down (every pending request is then
    rejected with a connection-closed error, in id order).  A frame whose
    id is not pending is logged and dropped.  [delivered] records every
    completion handed to a caller, in order. *)
Inductive outcome : Type :=
| Resolved (r : pyval)
| Rejected (code : Z) (message : string)
| ConnectionClosed.

Record correlator : Type := {
  next_id : nat;
  pending : list nat;
  delivered : list (nat * outcome);
  anomalies : list nat
}.

Inductive corr_event : Type :=
| Send
| Response (id : nat) (o : outcome)
| Cancel (id : nat)
| Teardown.

Definition correlator_init : correlator :=
  {| next_id := 1; pending := []; delivered := []; anomalies := [] |}.

Definition drop_id (id : nat) (ids : list nat) : list nat :=
  filter (fun j => negb (Nat.eqb j id)) ids.

Definition corr_step (st : correlator) (ev : corr_event) : correlator :=
  match ev with
  | Send =>
      {| next_id := S (next_id st); pending := pending st ++ [next_id st];
         delivered := delivered st; anomalies := anomalies st |}
  | Response id o =>
      if existsb (Nat.eqb id) (pending st)
      then {| next_id := next_id st; pending := drop_id id (pending st);
              delivered := delivered st ++ [(id, o)]; anomalies := anomalies st |}
      else {| next_id := next_id st; pending := pending st;
              delivered := delivered st; anomalies := anomalies st ++ [id] |}
  | Cancel id =>
      {| next_id := next_id st; pending := drop_id id (pending st);
         delivered := delivered st; anomalies := anomalies st |}
  | Teardown =>
      {| next_id := next_id st; pending := [];
         delivered := delivered st ++ map (fun i => (i, ConnectionClosed)) (pending st);
         anomalies := anomalies st |}
  end.

Definition corr_run (evs : list corr_event) : correlator :=
  fold_left corr_step evs correlator_init.

(** One [p=s] item of an identity string. *)
Definition pair_item (hs : string * string) : string :=
  let '(h, s) := hs in h ++ "=" ++ s.

(** What [event_wf] states, as propositions. *)
Record event_facts (e : event_class) : Prop := {
  ef_hashable : is_hashable e = true <-> hashable e <> [];
  ef_build_hash : ev_build_hash e = if is_hashable e then BHSerialize (hashable e) else BHRaise [];
  ef_in_params : forall h, In h (hashable e) -> In h (map p_name (ev_params e));
  ef_comma : forall h, In h (hashable e) -> comma_free h = true;
  ef_body : map fst (ev_body e) = map p_name (ev_params e);
  ef_nodup : NoDup (map p_name (ev_params e))
}.

(** What [command_wf] states, as propositions. *)
Record command_facts (c : command) : Prop := {
  cf_method : cmd_method c = cmd_name c;
  cf_display : cmd_payload c = map (fun p => (p_name p, p_name p)) (cmd_params c);
  cf_nodup : NoDup (map p_name (cmd_params c));
  cf_schema : forall s, cmd_result c = Some s -> NoDup (map (fun '(n, _, _) => n) s)
}.

(** The spec's scenario: an event class [Foo.changed] with
    [hashable = ['nodeId']], as the generator emits it. *)
Definition Foo_changed : event_class :=
  {| ev_cls := "ChangedEvent";
     js_name := "Foo.changed";
     hashable := ["nodeId"];
     is_hashable := true;
     ev_params := [req "nodeId"; req "value"];
     ev_body := [("nodeId", CBuiltin BInt); ("value", CBuiltin BStr)];
     ev_build_hash := BHSerialize ["nodeId"] |}.

Ltac in_catalog :=
  repeat (first [left; reflexivity | right]).

(** [getattr(o, f)] on an instance. *)
Definition getattr (o : pyval) (f : string) : option pyval :=
  match o with
  | PObj _ attrs => lookup f attrs
  | _ => None
  end.

(** The correlator's invariant: pending ids are distinct, no id is
    completed twice, a pending id has not been completed, and every id
    pending or completed is below the counter. *)
Record corr_inv (st : correlator) : Prop := {
  ci_pending_nodup : NoDup (pending st);
  ci_delivered_nodup : NoDup (map fst (delivered st));
  ci_disjoint : forall i, In i (pending st) -> ~ In i (map fst (delivered st));
  ci_pending_lt : forall i, In i (pending st) -> i < next_id st;
  ci_delivered_lt : forall i, In i (map fst (delivered st)) -> i < next_id st
}.

(** A structure class: its constructor parameters and its [self.f = f]
    assignments name the same fields, each once (the assignments need not
    follow the signature's order). *)
Definition struct_wf (sc : struct_class) : bool :=
  nodupb (map p_name (sc_params sc)) && nodupb (sc_body sc) &&
  forallb (fun f => mem f (map p_name (sc_params sc))) (sc_body sc) &&
  forallb (fun n => mem n (sc_body sc)) (map p_name (sc_params sc)).

(** What [struct_wf] states, as propositions. *)
Record struct_facts (sc : struct_class) : Prop := {
  sf_nodup_params : NoDup (map p_name (sc_params sc));
  sf_nodup_body : NoDup (sc_body sc);
  sf_body_params : forall f, In f (sc_body sc) -> In f (map p_name (sc_params sc));
  sf_params_body : forall n, In n (map p_name (sc_params sc)) -> In n (sc_body sc)
}.

(** The wire method string a command hands to [build_send_payload]. *)
Definition wire_method (c : command) : string := cmd_domain c ++ "." ++ cmd_method c.

(** The ["method"] entry of a payload. *)
Definition payload_method (p : pyval) : option pyval :=
  match p with
  | PDict kv => lookup "method" kv
  | _ => None
  end.

(** Names across the catalog: the events' [js_name]s are distinct and
    hold no [:], and the commands' wire methods are distinct. *)
Definition catalog_names_wf : bool :=
  nodupb (map js_name event_catalog) &&
  forallb (fun e => negb (has_char ":" (js_name e))) event_catalog &&
  nodupb (map wire_method command_catalog).

(** [isinstance(v, dict)] *)
Definition is_dict (v : pyval) : bool :=
  match v with
  | PDict _ => true
  | _ => false
  end.

(** * Proofs *)

(** ** Boolean checks *)

Lemma mem_In x l : mem x l = true <-> In x l.
Proof.
  unfold mem. rewrite existsb_exists. split.
  - intros [y [Hy Heq]]. apply String.eqb_eq in Heq. subst. exact Hy.
  - intros H. exists x. split; [exact H | apply String.eqb_refl].
Qed.

Lemma nodupb_NoDup l : nodupb l = true -> NoDup l.
Proof.
  induction l as [|x l IH]; simpl; intros H; [constructor|].
  apply andb_true_iff in H as [H1 H2]. constructor; [|auto].
  intros Hin. apply mem_In in Hin. rewrite Hin in H1. discriminate.
Qed.

Lemma strs_eqb_eq a b : strs_eqb a b = true -> a = b.
Proof. unfold strs_eqb. destruct (list_eq_dec string_dec a b); congruence. Qed.

Lemma event_wf_facts e : event_wf e = true -> event_facts e.
Proof.
  unfold event_wf. rewrite !andb_true_iff.
  intros [[[[[Hh Hbh] Hin] Hc] Hb] Hn].
  apply Bool.eqb_prop in Hh.
  constructor.
  - rewrite Hh. destruct (hashable e); simpl; split; congruence.
  - destruct (ev_build_hash e) as [ps|ps]; apply andb_true_iff in Hbh as [H1 H2].
    + apply Bool.negb_true_iff in H1. rewrite H1.
      destruct ps; [reflexivity|discriminate].
    + rewrite H1. apply strs_eqb_eq in H2. subst. reflexivity.
  - intros h Hh'. rewrite forallb_forall in Hin. apply mem_In. auto.
  - intros h Hh'. rewrite forallb_forall in Hc. auto.
  - apply strs_eqb_eq. exact Hb.
  - apply nodupb_NoDup. exact Hn.
Qed.

Lemma map_pair_eq (l : list (string * string)) (ps : list param) :
  map fst l = map p_name ps -> map snd l = map p_name ps ->
  l = map (fun p => (p_name p, p_name p)) ps.
Proof.
  revert ps. induction l as [|[a b] l IH]; intros [|p ps]; simpl;
    try discriminate; auto.
  intros H1 H2. injection H1 as -> H1. injection H2 as -> H2.
  f_equal. auto.
Qed.

Lemma command_wf_facts c : command_wf c = true -> command_facts c.
Proof.
  unfold command_wf. rewrite !andb_true_iff.
  intros [[[[Hm Hk] Hv] Hn] Hs].
  constructor.
  - apply String.eqb_eq. exact Hm.
  - apply map_pair_eq; apply strs_eqb_eq; assumption.
  - apply nodupb_NoDup. exact Hn.
  - intros s Hr. rewrite Hr in Hs. apply nodupb_NoDup. exact Hs.
Qed.

Lemma event_catalog_wf : forallb event_wf event_catalog = true.
Proof. vm_compute. reflexivity. Qed.

Lemma command_catalog_wf : forallb command_wf command_catalog = true.
Proof. vm_compute. reflexivity. Qed.

Lemma event_catalog_facts e : In e event_catalog -> event_facts e.
Proof.
  intros H. apply event_wf_facts.
  pose proof event_catalog_wf as W. rewrite forallb_forall in W. auto.
Qed.

Lemma command_catalog_facts c : In c command_catalog -> command_facts c.
Proof.
  intros H. apply command_wf_facts.
  pose proof command_catalog_wf as W. rewrite forallb_forall in W. auto.
Qed.

(** ** Calls *)

Lemma call_kw_known ps kw :
  (forall k v, In (k, v) kw -> In k (map p_name ps)) ->
  call_kw ps kw = bind_params ps kw.
Proof.
  intros Hk. unfold call_kw.
  destruct (find _ kw) as [[k v]|] eqn:Hf; [|reflexivity].
  apply find_some in Hf as [Hin Hneg].
  apply Hk in Hin. apply Bool.negb_true_iff in Hneg.
  exfalso. apply in_map_iff in Hin as [p [Hp Hin]].
  assert (existsb (fun p => String.eqb k (p_name p)) ps = true) as Hy.
  { apply existsb_exists. exists p. split; [exact Hin|].
    apply String.eqb_eq. symmetry. exact Hp. }
  congruence.
Qed.

Lemma bind_params_req hs vs kw :
  Forall2 (fun h v => lookup h kw = Some v) hs vs ->
  bind_params (map req hs) kw = Ok (combine hs vs).
Proof.
  induction 1 as [|h v hs vs Hv _ IH]; [reflexivity|].
  simpl. rewrite Hv. simpl. rewrite IH. reflexivity.
Qed.

Lemma serialize_combine hs vs :
  serialize_id_params (combine hs vs) =
  String.concat "," (map (fun '(p, v) => p ++ "=" ++ py_str v) (combine hs vs)).
Proof.
  unfold serialize_id_params. apply f_equal. apply map_ext. intros [p v]. reflexivity.
Qed.

(** ** Strings *)

Lemma has_char_app c a b : has_char c (a ++ b) = has_char c a || has_char c b.
Proof.
  induction a as [|c' a IH]; simpl; [reflexivity|].
  rewrite IH. apply Bool.orb_assoc.
Qed.

Lemma append_cancel_l p a b : p ++ a = p ++ b -> a = b.
Proof.
  induction p as [|c p IH]; simpl; [auto|].
  intros H. injection H as H. auto.
Qed.

Lemma comma_split x y a b :
  comma_free x = true -> comma_free y = true ->
  x ++ String "," a = y ++ String "," b -> x = y /\ a = b.
Proof.
  unfold comma_free.
  revert y. induction x as [|c x IH]; intros [|c' y]; simpl; intros Hx Hy H.
  - injection H as H. auto.
  - injection H as Hc _. subst c'. discriminate Hy.
  - injection H as Hc _. subst c. discriminate Hx.
  - injection H as Hc H. subst c'.
    apply Bool.negb_true_iff, Bool.orb_false_iff in Hx as [_ Hx].
    apply Bool.negb_true_iff, Bool.orb_false_iff in Hy as [_ Hy].
    destruct (IH y) as [-> ->]; auto; rewrite Bool.negb_true_iff; assumption.
Qed.

Lemma join_comma_inj xs ys :
  length xs = length ys ->
  Forall (fun s => comma_free s = true) xs ->
  Forall (fun s => comma_free s = true) ys ->
  String.concat "," xs = String.concat "," ys -> xs = ys.
Proof.
  revert ys. induction xs as [|x xs IH]; intros [|y ys]; simpl; try discriminate; auto.
  intros Hl Hx Hy H. injection Hl as Hl.
  inversion Hx as [|? ? Hx0 Hx1]; subst. inversion Hy as [|? ? Hy0 Hy1]; subst.
  destruct xs as [|x2 xs]; destruct ys as [|y2 ys]; try discriminate.
  - subst. reflexivity.
  - simpl in H. apply comma_split in H as [-> H]; auto.
    f_equal. apply IH; auto.
Qed.

(** ** Identity strings *)

Lemma combine_map_snd (hs : list string) (vs : list pyval) :
  map (fun '(p, v) => p ++ "=" ++ py_str v) (combine hs vs) =
  map pair_item (combine hs (map py_str vs)).
Proof.
  revert vs. induction hs as [|h hs IH]; intros [|v vs]; simpl; auto.
  f_equal. apply IH.
Qed.

Lemma pair_items_inj (hs : list string) (ss1 ss2 : list string) :
  length ss1 = length hs -> length ss2 = length hs ->
  map pair_item (combine hs ss1) = map pair_item (combine hs ss2) -> ss1 = ss2.
Proof.
  revert ss1 ss2. induction hs as [|h hs IH]; intros [|s1 ss1] [|s2 ss2]; simpl;
    try discriminate; auto.
  intros L1 L2 H. injection L1 as L1. injection L2 as L2. injection H as H1 H2.
  apply append_cancel_l in H1. injection H1 as ->. f_equal. auto.
Qed.

Lemma pair_items_comma_free (hs ss : list string) :
  (forall h, In h hs -> comma_free h = true) ->
  Forall (fun s => comma_free s = true) ss ->
  Forall (fun s => comma_free s = true) (map pair_item (combine hs ss)).
Proof.
  revert ss. induction hs as [|h hs IH]; intros [|s ss] Hh Hs; simpl; try constructor.
  - inversion Hs as [|? ? Hs0 Hs1]; subst.
    specialize (Hh h (or_introl eq_refl)).
    unfold comma_free in *. rewrite has_char_app. simpl.
    apply Bool.negb_true_iff in Hh, Hs0. rewrite Hh, Hs0. reflexivity.
  - inversion Hs; subst. apply IH; auto. intros h' Hin. apply Hh. right. exact Hin.
Qed.

Lemma Forall2_length_l {A B} (R : A -> B -> Prop) l1 l2 :
  Forall2 R l1 l2 -> length l2 = length l1.
Proof. induction 1; simpl; auto. Qed.

(** ** Keyword binding *)

Lemma call_kw_ok ps kw locals :
  call_kw ps kw = Ok locals -> bind_params ps kw = Ok locals.
Proof.
  unfold call_kw. destruct (find _ kw) as [[k v]|]; [discriminate | auto].
Qed.

Lemma bind_params_lookup ps kw locals :
  bind_params ps kw = Ok locals ->
  forall n v, lookup n locals = Some v -> v = raw_arg kw n.
Proof.
  revert locals. induction ps as [|p ps IH]; simpl; intros locals H.
  - injection H as <-. discriminate.
  - destruct (lookup (p_name p) kw) as [v0|] eqn:E;
      [| destruct (p_default_none p); [|discriminate]]; simpl in H;
      destruct (bind_params ps kw) as [rest|] eqn:Er; try discriminate;
      simpl in H; injection H as <-; intros n v; simpl;
      destruct (String.eqb n (p_name p)) eqn:En; eauto;
      apply String.eqb_eq in En; subst; intros Hv; injection Hv as <-;
      unfold raw_arg; rewrite E; reflexivity.
Qed.

Lemma bind_params_names ps kw locals :
  bind_params ps kw = Ok locals -> map fst locals = map p_name ps.
Proof.
  revert locals. induction ps as [|p ps IH]; simpl; intros locals H.
  - injection H as <-. reflexivity.
  - destruct (match lookup (p_name p) kw with
              | Some v => Ok v
              | None => if p_default_none p then Ok PNone
                        else Raise (TypeError _) end) as [v|]; [|discriminate].
    simpl in H. destruct (bind_params ps kw) as [rest|]; [|discriminate].
    simpl in H. injection H as <-. simpl. f_equal. auto.
Qed.

Lemma lookup_in {A} n (l : list (string * A)) :
  In n (map fst l) -> exists v, lookup n l = Some v.
Proof.
  induction l as [|[k v] l IH]; simpl; [tauto|].
  intros H. destruct (String.eqb n k) eqn:E; eauto.
  destruct H as [->|H]; auto. rewrite String.eqb_refl in E. discriminate.
Qed.

Lemma bind_params_in ps kw locals n :
  bind_params ps kw = Ok locals -> In n (map p_name ps) ->
  lookup n locals = Some (raw_arg kw n).
Proof.
  intros H Hn. rewrite <- (bind_params_names _ _ _ H) in Hn.
  destruct (lookup_in _ _ Hn) as [v Hv]. rewrite Hv.
  f_equal. exact (bind_params_lookup _ _ _ H _ _ Hv).
Qed.

Lemma bind_params_missing ps kw p :
  In p ps -> p_default_none p = false -> lookup (p_name p) kw = None ->
  exists msg, bind_params ps kw = Raise (TypeError msg).
Proof.
  induction ps as [|p0 ps IH]; simpl; [tauto|].
  intros Hin Hd Hl.
  destruct (lookup (p_name p0) kw) as [v0|] eqn:E.
  - destruct Hin as [->|Hin]; [congruence|].
    destruct (IH Hin Hd Hl) as [msg Hm]. simpl. rewrite Hm. simpl. eauto.
  - destruct (p_default_none p0) eqn:D; simpl; eauto.
    destruct Hin as [->|Hin]; [congruence|].
    destruct (IH Hin Hd Hl) as [msg Hm]. rewrite Hm. simpl. eauto.
Qed.

Lemma read_display_params ps locals f :
  (forall n, In n (map p_name ps) -> lookup n locals = Some (f n)) ->
  read_display (map (fun p => (p_name p, p_name p)) ps) locals =
  Ok (map (fun p => (p_name p, f (p_name p))) ps).
Proof.
  induction ps as [|p ps IH]; simpl; intros H; [reflexivity|].
  unfold local. rewrite (H _ (or_introl eq_refl)). simpl.
  rewrite IH; [reflexivity|]. intros n Hn. apply H. right. exact Hn.
Qed.

Lemma invoke_ok c kw payload r :
  In c command_catalog ->
  invoke c kw = Ok (payload, r) ->
  payload = build_send_payload (cmd_domain c) (cmd_name c)
              (map (fun p => (p_name p, raw_arg kw (p_name p))) (cmd_params c)) /\
  r = option_map convert_payload (cmd_result c).
Proof.
  intros Hc H.
  destruct (command_catalog_facts c Hc) as [Hm Hd _ _].
  unfold invoke in H.
  destruct (call_kw (cmd_params c) kw) as [locals|] eqn:E; [|discriminate].
  apply call_kw_ok in E. simpl in H.
  rewrite Hd, (read_display_params _ _ (raw_arg kw)) in H.
  - simpl in H. injection H as <- <-. rewrite Hm. auto.
  - intros n Hn. exact (bind_params_in _ _ _ _ E Hn).
Qed.

Lemma lookup_filter_none n (l : list (string * pyval)) :
  (forall v, In (n, v) l -> is_none v = true) ->
  lookup n (filter (fun '(_, v) => negb (is_none v)) l) = None.
Proof.
  induction l as [|[k v] l IH]; simpl; intros H; [reflexivity|].
  destruct (String.eqb n k) eqn:E.
  - apply String.eqb_eq in E. subst. rewrite (H v (or_introl eq_refl)). simpl. auto.
  - destruct (negb (is_none v)); simpl; [rewrite E|]; auto.
Qed.

Lemma lookup_filter_some n v (l : list (string * pyval)) :
  In n (map fst l) -> (forall w, In (n, w) l -> w = v) -> is_none v = false ->
  lookup n (filter (fun '(_, v) => negb (is_none v)) l) = Some v.
Proof.
  induction l as [|[k w] l IH]; simpl; [tauto|]. intros Hin H Hv.
  destruct (String.eqb n k) eqn:E.
  - apply String.eqb_eq in E. subst. rewrite (H w (or_introl eq_refl)), Hv. simpl.
    rewrite String.eqb_refl. reflexivity.
  - assert (In n (map fst l)) as Hin'.
    { destruct Hin as [->|Hin]; [rewrite String.eqb_refl in E; discriminate | exact Hin]. }
    destruct (negb (is_none w)); simpl; [rewrite E|]; auto.
Qed.

(** ** Event constructors *)

Lemma nodup_lookup {A} x (c : A) (l : list (string * A)) :
  NoDup (map fst l) -> In (x, c) l -> lookup x l = Some c.
Proof.
  induction l as [|[k v] l IH]; simpl; [tauto|]. intros Hn Hin.
  inversion Hn as [|? ? Hk Hn']; subst.
  destruct Hin as [Heq|Hin].
  - injection Heq as -> ->. rewrite String.eqb_refl. reflexivity.
  - destruct (String.eqb x k) eqn:E; auto.
    apply String.eqb_eq in E. subst. exfalso. apply Hk.
    apply in_map_iff. exists (k, c). auto.
Qed.

Lemma decode_fields_lookup ext body locals attrs x c :
  decode_fields ext body locals = Ok attrs -> lookup x body = Some c ->
  exists v v', lookup x locals = Some v /\ decode_value ext c v = Ok v' /\
               lookup x attrs = Some v'.
Proof.
  revert attrs. induction body as [|[y cy] body IH]; simpl; intros attrs H Hx;
    [discriminate|].
  unfold local in H.
  destruct (lookup y locals) as [v|] eqn:Ey; [|discriminate]. simpl in H.
  destruct (decode_value ext cy v) as [v'|] eqn:Ev; [|discriminate]. simpl in H.
  destruct (decode_fields ext body locals) as [rest|] eqn:Er; [|discriminate].
  simpl in H. injection H as <-. simpl.
  destruct (String.eqb x y) eqn:E.
  - apply String.eqb_eq in E. subst. injection Hx as <-. eauto.
  - destruct (IH rest eq_refl Hx) as [w [w' [H1 [H2 H3]]]]. eauto.
Qed.

Lemma event_init_field ext e kw cls attrs x c :
  event_init ext e kw = Ok (PObj cls attrs) -> lookup x (ev_body e) = Some c ->
  exists v', decode_value ext c (raw_arg kw x) = Ok v' /\ lookup x attrs = Some v'.
Proof.
  intros H Hx. unfold event_init in H.
  destruct (call_kw (ev_params e) kw) as [locals|] eqn:E; [|discriminate].
  apply call_kw_ok in E. simpl in H.
  destruct (decode_fields ext (ev_body e) locals) as [attrs'|] eqn:D; [|discriminate].
  simpl in H. injection H as _ <-.
  destruct (decode_fields_lookup _ _ _ _ _ _ D Hx) as [v [v' [H1 [H2 H3]]]].
  rewrite <- (bind_params_lookup _ _ _ E _ _ H1). eauto.
Qed.

Lemma assign_attrs_lookup body locals fattrs f v :
  assign_attrs body locals = Ok fattrs -> lookup f fattrs = Some v -> lookup f locals = Some v.
Proof.
  revert fattrs. induction body as [|g body IH]; simpl; intros fattrs H.
  - injection H as <-. discriminate.
  - unfold local in H. destruct (lookup g locals) as [vg|] eqn:Eg; [|discriminate].
    simpl in H. destruct (assign_attrs body locals) as [rest|] eqn:Er; [|discriminate].
    simpl in H. injection H as <-. simpl.
    destruct (String.eqb f g) eqn:E.
    + apply String.eqb_eq in E. subst. intros Hv. injection Hv as <-. exact Eg.
    + eauto.
Qed.

Lemma struct_init_raw sc d o :
  struct_init sc d = Ok o ->
  exists fattrs, o = PObj (sc_name sc) fattrs /\
                 forall f v, lookup f fattrs = Some v -> v = raw_arg d f.
Proof.
  unfold struct_init. intros H.
  destruct (call_kw (sc_params sc) d) as [locals|] eqn:E; [|discriminate].
  apply call_kw_ok in E. simpl in H.
  destruct (assign_attrs (sc_body sc) locals) as [fattrs|] eqn:A; [|discriminate].
  simpl in H. injection H as <-. exists fattrs. split; [reflexivity|].
  intros f v Hf. apply (bind_params_lookup _ _ _ E).
  exact (assign_attrs_lookup _ _ _ _ _ A Hf).
Qed.

(** ** Request correlation *)

Lemma existsb_pending id ids : existsb (Nat.eqb id) ids = true <-> In id ids.
Proof.
  rewrite existsb_exists. split.
  - intros [j [Hj E]]. apply Nat.eqb_eq in E. subst. exact Hj.
  - intros H. exists id. split; [exact H | apply Nat.eqb_refl].
Qed.

Lemma drop_id_In i id ids : In i (drop_id id ids) <-> In i ids /\ i <> id.
Proof.
  unfold drop_id. rewrite filter_In, Bool.negb_true_iff, Nat.eqb_neq. tauto.
Qed.

Lemma corr_inv_init : corr_inv correlator_init.
Proof. constructor; simpl; try constructor; tauto. Qed.

Lemma corr_inv_step st ev : corr_inv st -> corr_inv (corr_step st ev).
Proof.
  intros [Hpn Hdn Hdis Hplt Hdlt].
  destruct ev as [|id o|id|]; simpl.
  - constructor; simpl.
    + apply NoDup_app; [exact Hpn | repeat constructor; simpl; tauto |].
      intros a Ha [Heq|[]]. subst. specialize (Hplt _ Ha). lia.
    + exact Hdn.
    + intros i Hi Hd. apply in_app_or in Hi as [Hi|[<-|[]]].
      * exact (Hdis i Hi Hd).
      * specialize (Hdlt _ Hd). lia.
    + intros i Hi. apply in_app_or in Hi as [Hi|[<-|[]]]; [specialize (Hplt _ Hi)|]; lia.
    + intros i Hi. specialize (Hdlt _ Hi). lia.
  - destruct (existsb (Nat.eqb id) (pending st)) eqn:E; constructor; simpl; auto.
    + apply NoDup_filter. exact Hpn.
    + apply existsb_pending in E.
      rewrite map_app. simpl. apply NoDup_app; [exact Hdn | repeat constructor; simpl; tauto |].
      intros a Ha [Heq|[]]. subst. exact (Hdis _ E Ha).
    + intros i Hi Hd. apply drop_id_In in Hi as [Hi Hne].
      rewrite map_app in Hd. apply in_app_or in Hd as [Hd|[Heq|[]]].
      * exact (Hdis i Hi Hd).
      * simpl in Heq. congruence.
    + intros i Hi. apply drop_id_In in Hi as [Hi _]. auto.
    + apply existsb_pending in E.
      intros i Hi. rewrite map_app in Hi. apply in_app_or in Hi as [Hi|[Heq|[]]]; auto.
      simpl in Heq. subst. auto.
  - constructor; simpl; auto.
    + apply NoDup_filter. exact Hpn.
    + intros i Hi. apply drop_id_In in Hi as [Hi _]. auto.
    + intros i Hi. apply drop_id_In in Hi as [Hi _]. auto.
  - assert (map fst (map (fun i => (i, ConnectionClosed)) (pending st)) = pending st) as Hm.
    { rewrite map_map. apply map_id. }
    constructor; simpl; try tauto.
    + constructor.
    + rewrite map_app, Hm. apply NoDup_app; auto.
      intros a Ha Hb. exact (Hdis a Hb Ha).
    + intros i Hi. rewrite map_app, Hm in Hi. apply in_app_or in Hi as [Hi|Hi]; auto.
Qed.

Lemma corr_inv_run evs : corr_inv (corr_run evs).
Proof.
  unfold corr_run. generalize correlator_init corr_inv_init.
  induction evs as [|ev evs IH]; simpl; intros st Hst; auto.
  apply IH. apply corr_inv_step. exact Hst.
Qed.

(** ** Event identities *)

(** [build_hash] on the values of the hashable fields. *)
Lemma build_hash_hashable_values (e : event_class) (kw : list (string * pyval)) (vs : list pyval) :
  In e event_catalog ->
  is_hashable e = true ->
  (forall k v, In (k, v) kw -> In k (hashable e)) ->
  Forall2 (fun h v => lookup h kw = Some v) (hashable e) vs ->
  build_hash e kw = Ok (identity_of e vs).
Proof.
  intros He Hh Hk Hv.
  destruct (event_catalog_facts e He) as [_ Hbh _ _ _ _].
  rewrite Hh in Hbh.
  unfold build_hash. rewrite Hbh.
  rewrite call_kw_known.
  - rewrite (bind_params_req _ _ _ Hv). simpl.
    unfold identity_of. rewrite serialize_combine. reflexivity.
  - intros k v Hin. rewrite map_map. simpl. rewrite map_id. eauto.
Qed.

(** Claim C1: for every generated event class with [is_hashable] true,
    [build_hash] called with the values of the fields named in [hashable]
    (given by keyword, in any order) returns [js_name] followed by [:] and
    the comma-joined [field=str(value)] pairs, one per hashable field, in
    the declared [hashable] order. *)
Theorem build_hash_serialises_hashable (e : event_class) (kw : list (string * pyval)) (vs : list pyval) :
  In e event_catalog ->
  is_hashable e = true ->
  (forall k v, In (k, v) kw -> In k (hashable e)) ->
  Forall2 (fun h v => lookup h kw = Some v) (hashable e) vs ->
  build_hash e kw = Ok (identity_of e vs).
Proof. exact (build_hash_hashable_values e kw vs). Qed.

Lemma build_hash_serialises_hashable_witness :
  In dom.SetChildNodesEvent event_catalog /\
  build_hash dom.SetChildNodesEvent [("parentId", PInt 5)] =
    Ok (identity_of dom.SetChildNodesEvent [PInt 5]).
Proof.
  split.
  - cbv [event_catalog]. in_catalog.
  - apply build_hash_serialises_hashable.
    + cbv [event_catalog]. in_catalog.
    + reflexivity.
    + intros k v [H|[]]. injection H as <- _. simpl. left. reflexivity.
    + repeat constructor.
Defined.

(** The identity of a [Dom.setChildNodes] frame with [parentId] 5. *)
Example set_child_nodes_identity :
  identity_of dom.SetChildNodesEvent [PInt 5] = "Dom.setChildNodes:parentId=5".
Proof. reflexivity. Qed.

Example foo_changed_identity :
  build_hash Foo_changed [("nodeId", PInt 5)] = Ok "Foo.changed:nodeId=5".
Proof. reflexivity. Qed.

(** Claim C5: for every generated event class with [is_hashable] false,
    calling [build_hash] raises, whatever it is passed; called with the
    (empty) hashable fields it raises [ValueError]. *)
Theorem build_hash_non_hashable_raises (e : event_class) :
  In e event_catalog ->
  is_hashable e = false ->
  (forall kw, exists exc, build_hash e kw = Raise exc) /\
  build_hash e [] = Raise (ValueError "Unable to build hash for non-hashable type").
Proof.
  intros He Hh.
  destruct (event_catalog_facts e He) as [_ Hbh _ _ _ _].
  rewrite Hh in Hbh.
  unfold build_hash. rewrite Hbh. split.
  - intros kw. destruct (call_kw (map req []) kw); simpl; eauto.
  - reflexivity.
Qed.

Lemma build_hash_non_hashable_raises_witness :
  In inspector.DetachedEvent event_catalog /\
  build_hash inspector.DetachedEvent [] =
    Raise (ValueError "Unable to build hash for non-hashable type").
Proof.
  split.
  - cbv [event_catalog]. in_catalog.
  - apply build_hash_non_hashable_raises.
    + cbv [event_catalog]. in_catalog.
    + reflexivity.
Defined.

(** Claim C9: for every generated event class, [is_hashable] is true
    exactly when [hashable] is non-empty; when it is true, [build_hash]
    takes exactly the [hashable] names as parameters, in the declared
    order, and each of them is a constructor parameter of the class. *)
Theorem event_hashable_contract (e : event_class) :
  In e event_catalog ->
  (is_hashable e = true <-> hashable e <> []) /\
  (is_hashable e = true ->
   ev_build_hash e = BHSerialize (hashable e) /\
   forall h, In h (hashable e) -> In h (map p_name (ev_params e))).
Proof.
  intros He.
  destruct (event_catalog_facts e He) as [Hh Hbh Hin _ _ _].
  split; [exact Hh|].
  intros Ht. rewrite Ht in Hbh. split; [exact Hbh | exact Hin].
Qed.

Lemma event_hashable_contract_witness :
  In network.RequestWillBeSentEvent event_catalog /\
  ((is_hashable network.RequestWillBeSentEvent = true <->
    hashable network.RequestWillBeSentEvent <> []) /\
   (is_hashable network.RequestWillBeSentEvent = true ->
    ev_build_hash network.RequestWillBeSentEvent =
      BHSerialize (hashable network.RequestWillBeSentEvent) /\
    forall h, In h (hashable network.RequestWillBeSentEvent) ->
      In h (map p_name (ev_params network.RequestWillBeSentEvent)))).
Proof.
  split.
  - cbv [event_catalog]. in_catalog.
  - apply event_hashable_contract. cbv [event_catalog]. in_catalog.
Defined.

(** Claim C2, as stated, fails: on [Network.requestWillBeSent], whose
    hashable fields are strings, the frames with [loaderId] ["a,frameId=b"]
    and [frameId] ["c"], and with [loaderId] ["a"] and [frameId]
    ["b,frameId=c"] (same [requestId]) differ in a hashable field and still
    get the same identity. *)
Lemma build_hash_comma_collision :
  build_hash network.RequestWillBeSentEvent
    [("loaderId", PStr "a,frameId=b"); ("frameId", PStr "c"); ("requestId", PStr "1")] =
  build_hash network.RequestWillBeSentEvent
    [("loaderId", PStr "a"); ("frameId", PStr "b,frameId=c"); ("requestId", PStr "1")] /\
  build_hash network.RequestWillBeSentEvent
    [("loaderId", PStr "a"); ("frameId", PStr "b,frameId=c"); ("requestId", PStr "1")] =
  Ok "Network.requestWillBeSent:loaderId=a,frameId=b,frameId=c,requestId=1" /\
  PStr "a,frameId=b" <> PStr "a".
Proof. split; [reflexivity | split; [reflexivity | discriminate]]. Qed.

(** Claim C2, amended: for every hashable event class, the identity that
    [build_hash] computes depends only on the values passed for the
    hashable fields, through their [str] renderings (so equal raw values
    give equal identities, whatever the other fields of the frames);
    conversely, when no rendering contains a comma, equal identities imply
    equal renderings, so values with different renderings give different
    identities. *)
Theorem build_hash_identity_determined (e : event_class)
    (kw1 kw2 : list (string * pyval)) (vs1 vs2 : list pyval) :
  In e event_catalog ->
  is_hashable e = true ->
  (forall k v, In (k, v) kw1 -> In k (hashable e)) ->
  (forall k v, In (k, v) kw2 -> In k (hashable e)) ->
  Forall2 (fun h v => lookup h kw1 = Some v) (hashable e) vs1 ->
  Forall2 (fun h v => lookup h kw2 = Some v) (hashable e) vs2 ->
  (map py_str vs1 = map py_str vs2 -> build_hash e kw1 = build_hash e kw2) /\
  (Forall (fun v => comma_free (py_str v) = true) vs1 ->
   Forall (fun v => comma_free (py_str v) = true) vs2 ->
   build_hash e kw1 = build_hash e kw2 -> map py_str vs1 = map py_str vs2).
Proof.
  intros He Hh Hk1 Hk2 Hv1 Hv2.
  rewrite (build_hash_hashable_values e kw1 vs1 He Hh Hk1 Hv1).
  rewrite (build_hash_hashable_values e kw2 vs2 He Hh Hk2 Hv2).
  unfold identity_of. rewrite !combine_map_snd.
  split.
  - intros ->. reflexivity.
  - intros C1 C2 H. injection H as H.
    apply append_cancel_l in H. simpl in H. injection H as H.
    destruct (event_catalog_facts e He) as [_ _ _ Hc _ _].
    apply pair_items_inj with (hs := hashable e).
    + rewrite length_map. apply (Forall2_length_l _ _ _ Hv1).
    + rewrite length_map. apply (Forall2_length_l _ _ _ Hv2).
    + apply join_comma_inj; auto.
      * rewrite !length_map, !length_combine, !length_map.
        rewrite (Forall2_length_l _ _ _ Hv1), (Forall2_length_l _ _ _ Hv2). reflexivity.
      * apply pair_items_comma_free; auto. apply Forall_map. exact C1.
      * apply pair_items_comma_free; auto. apply Forall_map. exact C2.
Qed.

Lemma build_hash_identity_determined_witness :
  In dom.ChildNodeInsertedEvent event_catalog /\
  (build_hash dom.ChildNodeInsertedEvent [("previousNodeId", PInt 3); ("parentNodeId", PInt 7)] =
   build_hash dom.ChildNodeInsertedEvent [("parentNodeId", PInt 7); ("previousNodeId", PInt 3)]).
Proof.
  split.
  - cbv [event_catalog]. in_catalog.
  - apply (build_hash_identity_determined dom.ChildNodeInsertedEvent _ _ [PInt 3; PInt 7] [PInt 3; PInt 7]).
    + cbv [event_catalog]. in_catalog.
    + reflexivity.
    + intros k v [H|[H|[]]]; injection H as <- _; simpl; auto.
    + intros k v [H|[H|[]]]; injection H as <- _; simpl; auto.
    + repeat constructor.
    + repeat constructor.
    + reflexivity.
Defined.

(** ** Command builders *)

(** Claim C3: for every command builder, a parameter the caller does not
    supply is absent from the params mapping of the payload (no key, no
    [None] marker: no entry of the mapping is [None]), while a supplied
    parameter with a value appears under its declared name with that
    value; the mapping has no other key. *)
Theorem command_omits_unsupplied (c : command) (kw : list (string * pyval))
    (payload : pyval) (r : option (list (string * string * bool))) :
  In c command_catalog ->
  invoke c kw = Ok (payload, r) ->
  exists ps,
    payload = PDict [("method", PStr (cmd_domain c ++ "." ++ cmd_name c)); ("params", PDict ps)] /\
    (forall k v, In (k, v) ps -> v <> PNone) /\
    (forall p, In p (cmd_params c) -> lookup (p_name p) kw = None -> lookup (p_name p) ps = None) /\
    (forall p v, In p (cmd_params c) -> lookup (p_name p) kw = Some v -> v <> PNone ->
       lookup (p_name p) ps = Some v) /\
    (forall k v, In (k, v) ps -> In k (map p_name (cmd_params c))).
Proof.
  intros Hc H.
  destruct (invoke_ok c kw payload r Hc H) as [-> _].
  set (l := map (fun p => (p_name p, raw_arg kw (p_name p))) (cmd_params c)).
  assert (Hl : forall n w, In (n, w) l -> w = raw_arg kw n).
  { intros n w Hin. unfold l in Hin. apply in_map_iff in Hin as [p [Hp _]].
    injection Hp as <- <-. reflexivity. }
  eexists. split; [reflexivity|]. split; [|split; [|split]].
  - intros k v Hin Hv. apply filter_In in Hin as [_ Hn]. subst v. discriminate.
  - intros p Hp Hnone. apply lookup_filter_none.
    intros v Hin. rewrite (Hl _ _ Hin). unfold raw_arg. rewrite Hnone. reflexivity.
  - intros p v Hp Hsome Hv. apply lookup_filter_some.
    + unfold l. rewrite map_map. simpl. apply in_map. exact Hp.
    + intros w Hin. rewrite (Hl _ _ Hin). unfold raw_arg. rewrite Hsome. reflexivity.
    + destruct v; simpl; congruence.
  - intros k v Hin. apply filter_In in Hin as [Hin _].
    unfold l in Hin. apply in_map_iff in Hin as [p [Hp Hin]].
    injection Hp as <- _. apply in_map. exact Hin.
Qed.

Lemma command_omits_unsupplied_witness :
  In network.Network_enable command_catalog /\
  invoke network.Network_enable [("maxTotalBufferSize", PInt 1000)] =
    Ok (PDict [("method", PStr "Network.enable");
               ("params", PDict [("maxTotalBufferSize", PInt 1000)])], None) /\
  exists ps,
    PDict [("method", PStr "Network.enable");
           ("params", PDict [("maxTotalBufferSize", PInt 1000)])] =
      PDict [("method", PStr (cmd_domain network.Network_enable ++ "." ++
                              cmd_name network.Network_enable)); ("params", PDict ps)] /\
    (forall k v, In (k, v) ps -> v <> PNone) /\
    (forall p, In p (cmd_params network.Network_enable) ->
       lookup (p_name p) [("maxTotalBufferSize", PInt 1000)] = None -> lookup (p_name p) ps = None) /\
    (forall p v, In p (cmd_params network.Network_enable) ->
       lookup (p_name p) [("maxTotalBufferSize", PInt 1000)] = Some v -> v <> PNone ->
       lookup (p_name p) ps = Some v) /\
    (forall k v, In (k, v) ps -> In k (map p_name (cmd_params network.Network_enable))).
Proof.
  split; [|split].
  - cbv [command_catalog]. in_catalog.
  - reflexivity.
  - apply (command_omits_unsupplied network.Network_enable _ _ None).
    + cbv [command_catalog]. in_catalog.
    + reflexivity.
Defined.

(** The spec's scenario on a generated builder: [DOM.getDocument(depth=2)]
    sends [{method: "DOM.getDocument", params: {depth: 2}}] with no
    [pierce] key. *)
Example get_document_depth_only :
  invoke dom.DOM_getDocument [("depth", PInt 2)] =
  Ok (PDict [("method", PStr "DOM.getDocument"); ("params", PDict [("depth", PInt 2)])],
      Some [("root", "Node", false)]).
Proof. reflexivity. Qed.

(** Claim C6, as stated, fails: [Network.setUserAgentOverride()] without
    its required [userAgent] raises Python's [TypeError] for the missing
    argument of the call; there is no [SchemaError]. *)
Lemma missing_required_is_type_error :
  invoke network.Network_setUserAgentOverride [] =
    Raise (TypeError "missing required argument: 'userAgent'") /\
  exc_type (TypeError "missing required argument: 'userAgent'") <> "SchemaError".
Proof. split; [reflexivity | discriminate]. Qed.

(** Claim C6, amended: for every command builder, a call that leaves out
    a required parameter raises [TypeError] (the call's own
    missing-argument error) and builds no payload. *)
Theorem command_missing_required_raises (c : command) (kw : list (string * pyval)) (p : param) :
  In c command_catalog ->
  In p (cmd_params c) ->
  p_default_none p = false ->
  lookup (p_name p) kw = None ->
  exists msg, invoke c kw = Raise (TypeError msg).
Proof.
  intros _ Hp Hd Hl. unfold invoke, call_kw.
  destruct (find _ kw) as [[k v]|]; simpl; eauto.
  destruct (bind_params_missing _ _ _ Hp Hd Hl) as [msg Hm].
  rewrite Hm. simpl. eauto.
Qed.

Lemma command_missing_required_raises_witness :
  In dom.DOM_getRelayoutBoundary command_catalog /\
  exists msg, invoke dom.DOM_getRelayoutBoundary [] = Raise (TypeError msg).
Proof.
  split.
  - cbv [command_catalog]. in_catalog.
  - apply (command_missing_required_raises _ _ (req "nodeId")).
    + cbv [command_catalog]. in_catalog.
    + simpl. left. reflexivity.
    + reflexivity.
    + reflexivity.
Defined.

(** Claim C10: every command classmethod returns a pair whose first
    component is [build_send_payload] applied to the command's own name as
    wire method and to a params mapping whose keys are exactly the
    declared parameter names (bound to the caller's arguments), and whose
    second component is [None] when no result is declared and otherwise
    [convert_payload] of a schema that maps each declared result field,
    named once, to its class and optional flag. *)
Theorem command_builder_shape (c : command) :
  In c command_catalog ->
  cmd_method c = cmd_name c /\
  (forall s, cmd_result c = Some s -> NoDup (map (fun '(n, _, _) => n) s)) /\
  forall kw payload r,
    invoke c kw = Ok (payload, r) ->
    exists params,
      payload = build_send_payload (cmd_domain c) (cmd_name c) params /\
      map fst params = map p_name (cmd_params c) /\
      (forall k, In k (map p_name (cmd_params c)) -> lookup k params = Some (raw_arg kw k)) /\
      r = option_map convert_payload (cmd_result c).
Proof.
  intros Hc.
  destruct (command_catalog_facts c Hc) as [Hm _ _ Hs].
  split; [exact Hm|]. split; [exact Hs|].
  intros kw payload r H.
  destruct (invoke_ok c kw payload r Hc H) as [-> ->].
  eexists. split; [reflexivity|]. split; [|split; [|reflexivity]].
  - rewrite map_map. reflexivity.
  - intros k Hk. apply in_map_iff in Hk as [p [<- Hp]].
    clear -Hp. induction (cmd_params c) as [|p0 ps IH]; simpl in *; [tauto|].
    destruct (String.eqb (p_name p) (p_name p0)) eqn:E.
    + apply String.eqb_eq in E. rewrite E. reflexivity.
    + destruct Hp as [->|Hp]; [rewrite String.eqb_refl in E; discriminate | auto].
Qed.

Lemma command_builder_shape_witness :
  In network.Network_getResponseBody command_catalog /\
  cmd_method network.Network_getResponseBody = cmd_name network.Network_getResponseBody.
Proof.
  split.
  - cbv [command_catalog]. in_catalog.
  - apply command_builder_shape. cbv [command_catalog]. in_catalog.
Defined.

(** ** Event decoding *)

(** Claim C4, as stated, fails: decoding a [DOM.childNodeInserted] frame
    turns its [node] dict into a [Node] instance, but that instance keeps
    its [children] (declared [[Node]]) as the raw list of dicts; and a
    [DOM.setChildNodes] frame keeps its [nodes] (declared [[Node]]) as the
    raw list of dicts. *)
Lemma nested_structures_stay_raw :
  let child := PDict [("nodeId", PInt 3); ("backendNodeId", PInt 3); ("nodeType", PInt 3);
                      ("nodeName", PStr "#text"); ("localName", PStr ""); ("nodeValue", PStr "hi")] in
  let node := PDict [("nodeId", PInt 2); ("backendNodeId", PInt 2); ("nodeType", PInt 1);
                     ("nodeName", PStr "DIV"); ("localName", PStr "div"); ("nodeValue", PStr "");
                     ("children", PList [child])] in
  (match event_init (fun _ _ => Ok PNone) dom.ChildNodeInsertedEvent
           [("parentNodeId", PInt 1); ("previousNodeId", PInt 0); ("node", node)] with
   | Ok o => match getattr o "node" with
             | Some n => getattr n "children"
             | None => None
             end
   | Raise _ => None
   end = Some (PList [child])) /\
  (match event_init (fun _ _ => Ok PNone) dom.SetChildNodesEvent
           [("parentId", PInt 2); ("nodes", PList [child])] with
   | Ok o => getattr o "nodes"
   | Raise _ => None
   end = Some (PList [child])).
Proof. split; reflexivity. Qed.

(** Claim C4, amended: when an event is decoded, a field declared with a
    structure type whose raw value is a dict becomes an instance of that
    structure built from the dict's entries as keyword arguments; the
    structure's constructor stores each of its fields as given (the raw
    value, or [None] when absent), so fields nested inside it are not
    decoded further.  A raw value that is not a dict is kept as it is. *)
Theorem event_struct_field_one_level (ext : string -> list (string * pyval) -> result pyval)
    (e : event_class) (kw : list (string * pyval)) (cls : string)
    (attrs : list (string * pyval)) (x : string) (sc : struct_class) :
  In e event_catalog ->
  event_init ext e kw = Ok (PObj cls attrs) ->
  In (x, CStruct sc) (ev_body e) ->
  (forall d, raw_arg kw x = PDict d ->
     exists fattrs,
       lookup x attrs = Some (PObj (sc_name sc) fattrs) /\
       struct_init sc d = Ok (PObj (sc_name sc) fattrs) /\
       forall f v, lookup f fattrs = Some v -> v = raw_arg d f) /\
  ((forall d, raw_arg kw x <> PDict d) -> lookup x attrs = Some (raw_arg kw x)).
Proof.
  intros He H Hin.
  destruct (event_catalog_facts e He) as [_ _ _ _ Hb Hn].
  rewrite <- Hb in Hn.
  destruct (event_init_field _ _ _ _ _ _ _ H (nodup_lookup _ _ _ Hn Hin)) as [v' [Hd Hx]].
  split.
  - intros d Hr. rewrite Hr in Hd. simpl in Hd.
    destruct (struct_init_raw _ _ _ Hd) as [fattrs [-> Hf]].
    exists fattrs. auto.
  - intros Hnd. destruct (raw_arg kw x) eqn:R; simpl in Hd;
      try (injection Hd as <-; exact Hx).
    exfalso. eapply Hnd. reflexivity.
Qed.

Lemma event_struct_field_one_level_witness :
  let node := PDict [("nodeId", PInt 2); ("backendNodeId", PInt 2); ("nodeType", PInt 1);
                     ("nodeName", PStr "DIV"); ("localName", PStr "div"); ("nodeValue", PStr "")] in
  let kw := [("parentNodeId", PInt 1); ("previousNodeId", PInt 0); ("node", node)] in
  In dom.ChildNodeInsertedEvent event_catalog /\
  exists attrs,
    event_init (fun _ _ => Ok PNone) dom.ChildNodeInsertedEvent kw =
      Ok (PObj "ChildNodeInsertedEvent" attrs) /\
    exists fattrs, lookup "node" attrs = Some (PObj "Node" fattrs).
Proof.
  intros node kw. split.
  - cbv [event_catalog]. in_catalog.
  - eexists. split; [reflexivity|].
    match goal with
    | |- exists f, lookup _ ?a = _ =>
        destruct (event_struct_field_one_level (fun _ _ => Ok PNone) dom.ChildNodeInsertedEvent kw
                    "ChildNodeInsertedEvent" a "node" dom.Node) as [Hd _]
    end.
    + cbv [event_catalog]. in_catalog.
    + reflexivity.
    + simpl. right. right. left. reflexivity.
    + destruct (Hd _ eq_refl) as [fattrs [Hl _]]. eauto.
Defined.

(** Claim C8: for every event constructor, an optional field whose wire
    value is absent or null is stored as [None]; it is never replaced by
    an instance of its declared type. *)
Theorem event_absent_optional_stays_none (ext : string -> list (string * pyval) -> result pyval)
    (e : event_class) (kw : list (string * pyval)) (cls : string)
    (attrs : list (string * pyval)) (p : param) :
  In e event_catalog ->
  event_init ext e kw = Ok (PObj cls attrs) ->
  In p (ev_params e) ->
  p_default_none p = true ->
  (lookup (p_name p) kw = None \/ lookup (p_name p) kw = Some PNone) ->
  lookup (p_name p) attrs = Some PNone.
Proof.
  intros He H Hp _ Hnone.
  destruct (event_catalog_facts e He) as [_ _ _ _ Hb _].
  assert (In (p_name p) (map fst (ev_body e))) as Hin.
  { rewrite Hb. apply in_map. exact Hp. }
  destruct (lookup_in _ _ Hin) as [c Hc].
  destruct (event_init_field _ _ _ _ _ _ _ H Hc) as [v' [Hd Hx]].
  assert (raw_arg kw (p_name p) = PNone) as R.
  { unfold raw_arg. destruct Hnone as [-> | ->]; reflexivity. }
  rewrite R in Hd. simpl in Hd. injection Hd as <-. exact Hx.
Qed.

Lemma event_absent_optional_stays_none_witness :
  let kw := [("requestId", PStr "1"); ("loaderId", PStr "L"); ("documentURL", PStr "u");
             ("request", PStr "req"); ("timestamp", PFloat "1.5"); ("wallTime", PFloat "2.5");
             ("initiator", PStr "parser")] in
  In network.RequestWillBeSentEvent event_catalog /\
  exists attrs,
    event_init (fun _ _ => Ok PNone) network.RequestWillBeSentEvent kw =
      Ok (PObj "RequestWillBeSentEvent" attrs) /\
    lookup "redirectResponse" attrs = Some PNone.
Proof.
  intros kw. split.
  - cbv [event_catalog]. in_catalog.
  - eexists. split; [reflexivity|].
    apply (event_absent_optional_stays_none (fun _ _ => Ok PNone) network.RequestWillBeSentEvent kw
             "RequestWillBeSentEvent" _ (opt "redirectResponse")).
    + cbv [event_catalog]. in_catalog.
    + reflexivity.
    + simpl. tauto.
    + reflexivity.
    + left. reflexivity.
Defined.

(** ** Request correlation *)

(** Claim C7: along any run of the correlator, no request id is completed
    twice; a response frame bearing a pending id completes it once and
    the id stops being pending; a frame bearing an id that is not pending
    (in particular one already completed) is logged and dropped without
    completing anything. *)
Theorem correlator_at_most_once :
  (forall evs, NoDup (map fst (delivered (corr_run evs)))) /\
  (forall evs id, In id (map fst (delivered (corr_run evs))) -> ~ In id (pending (corr_run evs))) /\
  (forall evs id o, In id (pending (corr_run evs)) ->
     delivered (corr_step (corr_run evs) (Response id o)) = (delivered (corr_run evs) ++ [(id, o)])%list /\
     ~ In id (pending (corr_step (corr_run evs) (Response id o)))) /\
  (forall evs id o, ~ In id (pending (corr_run evs)) ->
     delivered (corr_step (corr_run evs) (Response id o)) = delivered (corr_run evs) /\
     pending (corr_step (corr_run evs) (Response id o)) = pending (corr_run evs) /\
     anomalies (corr_step (corr_run evs) (Response id o)) = (anomalies (corr_run evs) ++ [id])%list).
Proof.
  split; [|split; [|split]].
  - intros evs. apply (ci_delivered_nodup _ (corr_inv_run evs)).
  - intros evs id Hd Hp. exact (ci_disjoint _ (corr_inv_run evs) id Hp Hd).
  - intros evs id o Hp. simpl.
    apply existsb_pending in Hp. rewrite Hp. simpl. split; [reflexivity|].
    intros Hin. apply drop_id_In in Hin as [_ Hne]. congruence.
  - intros evs id o Hp. simpl.
    destruct (existsb (Nat.eqb id) (pending (corr_run evs))) eqn:E.
    + apply existsb_pending in E. contradiction.
    + simpl. auto.
Qed.

(** The spec's scenario: request 1 is resolved by the first response
    bearing id 1; a second response bearing id 1 is logged and dropped. *)
Lemma correlator_at_most_once_witness :
  delivered (corr_step (corr_run [Send; Response 1 (Resolved PNone)]) (Response 1 (Resolved (PInt 7)))) =
    [(1, Resolved PNone)] /\
  anomalies (corr_step (corr_run [Send; Response 1 (Resolved PNone)]) (Response 1 (Resolved (PInt 7)))) =
    [1].
Proof.
  destruct correlator_at_most_once as [_ [_ [_ H]]].
  destruct (H [Send; Response 1 (Resolved PNone)] 1 (Resolved (PInt 7))) as [H1 [_ H3]].
  - simpl. tauto.
  - rewrite H1, H3. split; reflexivity.
Defined.

(** * Further properties of the generated constructors and builders *)

(** ** Catalog checks *)

Lemma struct_wf_facts sc : struct_wf sc = true -> struct_facts sc.
Proof.
  unfold struct_wf. rewrite !Bool.andb_true_iff, !forallb_forall.
  intros [[[H1 H2] H3] H4]. constructor.
  - apply nodupb_NoDup. exact H1.
  - apply nodupb_NoDup. exact H2.
  - intros f Hf. apply mem_In. auto.
  - intros n Hn. apply mem_In. auto.
Qed.

Lemma struct_catalog_wf : forallb struct_wf struct_catalog = true.
Proof. vm_compute. reflexivity. Qed.

Lemma struct_catalog_facts sc : In sc struct_catalog -> struct_facts sc.
Proof.
  intros H. apply struct_wf_facts.
  pose proof struct_catalog_wf as W. rewrite forallb_forall in W. auto.
Qed.

Lemma catalog_names_ok : catalog_names_wf = true.
Proof. vm_compute. reflexivity. Qed.

Lemma NoDup_map_inj {A B} (f : A -> B) l a b :
  NoDup (map f l) -> In a l -> In b l -> f a = f b -> a = b.
Proof.
  induction l as [|x l IH]; simpl; [tauto|].
  intros Hn Ha Hb Hf. inversion Hn as [|? ? Hx Hn']; subst.
  destruct Ha as [<-|Ha]; destruct Hb as [<-|Hb]; auto.
  - exfalso. apply Hx. rewrite Hf. apply in_map. exact Hb.
  - exfalso. apply Hx. rewrite <- Hf. apply in_map. exact Ha.
Qed.

Lemma map_inj {A B} (f : A -> B) :
  (forall a b, f a = f b -> a = b) -> forall l1 l2, map f l1 = map f l2 -> l1 = l2.
Proof.
  intros Hf. induction l1 as [|a l1 IH]; intros [|b l2]; simpl; try discriminate; auto.
  intros H. injection H as H1 H2. f_equal; auto.
Qed.

(** ** Keyword binding *)

Lemma call_kw_unknown ps kw k v :
  In (k, v) kw -> ~ In k (map p_name ps) ->
  exists msg, call_kw ps kw = Raise (TypeError msg).
Proof.
  intros Hin Hk. unfold call_kw.
  destruct (find _ kw) as [[k' v']|] eqn:Hf; [eauto|].
  exfalso. pose proof (find_none _ _ Hf (k, v) Hin) as Hn. simpl in Hn.
  apply Bool.negb_false_iff, existsb_exists in Hn as [p [Hp E]].
  apply String.eqb_eq in E. subst k. apply Hk. apply in_map. exact Hp.
Qed.

Lemma call_kw_missing ps kw p :
  In p ps -> p_default_none p = false -> lookup (p_name p) kw = None ->
  exists msg, call_kw ps kw = Raise (TypeError msg).
Proof.
  intros Hin Hd Hl. unfold call_kw.
  destruct (find _ kw) as [[k' v']|]; [eauto|].
  exact (bind_params_missing _ _ _ Hin Hd Hl).
Qed.

Lemma call_kw_rejects ps kw :
  (exists k v, In (k, v) kw /\ ~ In k (map p_name ps)) \/
  (exists p, In p ps /\ p_default_none p = false /\ lookup (p_name p) kw = None) ->
  exists msg, call_kw ps kw = Raise (TypeError msg).
Proof.
  intros [[k [v [H1 H2]]]|[p [H1 [H2 H3]]]].
  - exact (call_kw_unknown _ _ _ _ H1 H2).
  - exact (call_kw_missing _ _ _ H1 H2 H3).
Qed.

Lemma bind_params_full ps kw :
  (forall p, In p ps -> p_default_none p = false -> lookup (p_name p) kw <> None) ->
  bind_params ps kw = Ok (map (fun p => (p_name p, raw_arg kw (p_name p))) ps).
Proof.
  induction ps as [|p ps IH]; simpl; intros H; [reflexivity|].
  rewrite IH by (intros q Hq; apply H; right; exact Hq).
  unfold raw_arg at 2. destruct (lookup (p_name p) kw) as [v|] eqn:E; simpl; [reflexivity|].
  destruct (p_default_none p) eqn:D; simpl; [reflexivity|].
  exfalso. exact (H p (or_introl eq_refl) D E).
Qed.

Lemma call_kw_full ps kw :
  (forall k v, In (k, v) kw -> In k (map p_name ps)) ->
  (forall p, In p ps -> p_default_none p = false -> lookup (p_name p) kw <> None) ->
  call_kw ps kw = Ok (map (fun p => (p_name p, raw_arg kw (p_name p))) ps).
Proof.
  intros Hk Hr. rewrite (call_kw_known _ _ Hk). exact (bind_params_full _ _ Hr).
Qed.

Lemma lookup_map_name {A} (f : string -> A) ps n :
  In n (map p_name ps) -> lookup n (map (fun p => (p_name p, f (p_name p))) ps) = Some (f n).
Proof.
  induction ps as [|p ps IH]; simpl; [tauto|]. intros H.
  destruct (String.eqb n (p_name p)) eqn:E.
  - apply String.eqb_eq in E. subst. reflexivity.
  - destruct H as [H|H]; [|auto].
    rewrite H, String.eqb_refl in E. discriminate.
Qed.

Lemma lookup_map_str {A} (f : string -> A) l n :
  In n l -> lookup n (map (fun x => (x, f x)) l) = Some (f n).
Proof.
  induction l as [|x l IH]; simpl; [tauto|]. intros H.
  destruct (String.eqb n x) eqn:E.
  - apply String.eqb_eq in E. subst. reflexivity.
  - destruct H as [H|H]; [|auto].
    rewrite H, String.eqb_refl in E. discriminate.
Qed.

(** ** Constructor bodies *)

Lemma assign_attrs_full body locals (f : string -> pyval) :
  (forall x, In x body -> lookup x locals = Some (f x)) ->
  assign_attrs body locals = Ok (map (fun x => (x, f x)) body).
Proof.
  induction body as [|x body IH]; simpl; intros H; [reflexivity|].
  unfold local. rewrite (H x (or_introl eq_refl)). simpl.
  rewrite IH; [reflexivity|]. intros y Hy. apply H. right. exact Hy.
Qed.

Lemma decode_fields_ok ext body locals (g : string -> pyval) :
  (forall x c, In (x, c) body ->
     exists v, lookup x locals = Some v /\ decode_value ext c v = Ok (g x)) ->
  decode_fields ext body locals = Ok (map (fun xc => (fst xc, g (fst xc))) body).
Proof.
  induction body as [|[y cy] body IH]; simpl; intros H; [reflexivity|].
  destruct (H y cy (or_introl eq_refl)) as [v [Hv Hd]].
  unfold local. rewrite Hv. simpl. rewrite Hd. simpl.
  rewrite IH; [reflexivity|]. intros x c Hin. apply H. right. exact Hin.
Qed.

Lemma decode_fields_raise ext body locals x c v err :
  NoDup (map fst body) -> In (x, c) body ->
  lookup x locals = Some v -> decode_value ext c v = Raise err ->
  (forall y cy, In (y, cy) body -> y <> x ->
     exists w w', lookup y locals = Some w /\ decode_value ext cy w = Ok w') ->
  decode_fields ext body locals = Raise err.
Proof.
  induction body as [|[y cy] body IH]; simpl; [tauto|].
  intros Hn Hin Hx Hd Hother. inversion Hn as [|? ? Hy Hn']; subst.
  destruct (String.eqb y x) eqn:E.
  - apply String.eqb_eq in E. subst y.
    destruct Hin as [Heq|Hin].
    + injection Heq as <-. unfold local. rewrite Hx. simpl. rewrite Hd. reflexivity.
    + exfalso. apply Hy. apply in_map_iff. exists (x, c). auto.
  - assert (y <> x) as Hne.
    { intros Hyx. rewrite Hyx, String.eqb_refl in E. discriminate. }
    destruct (Hother y cy (or_introl eq_refl) Hne) as [w [w' [Hw Hw']]].
    unfold local. rewrite Hw. simpl. rewrite Hw'. simpl.
    destruct Hin as [Heq|Hin]; [injection Heq as Hyx _; congruence|].
    rewrite (IH Hn' Hin Hx Hd); [reflexivity|].
    intros z cz Hz Hzx. apply Hother; [right; exact Hz | exact Hzx].
Qed.

(** An event constructor called with known keywords and every required
    one: the fields are decoded from the raw arguments. *)
Lemma event_init_eval ext e kw (g : string -> pyval) :
  In e event_catalog ->
  (forall k v, In (k, v) kw -> In k (map p_name (ev_params e))) ->
  (forall p, In p (ev_params e) -> p_default_none p = false -> lookup (p_name p) kw <> None) ->
  (forall x c, In (x, c) (ev_body e) -> decode_value ext c (raw_arg kw x) = Ok (g x)) ->
  event_init ext e kw = Ok (PObj (ev_cls e) (map (fun p => (p_name p, g (p_name p))) (ev_params e))).
Proof.
  intros He Hk Hr Hd.
  destruct (event_catalog_facts e He) as [_ _ _ _ Hb _].
  unfold event_init. rewrite (call_kw_full _ _ Hk Hr). simpl.
  rewrite (decode_fields_ok ext _ _ g).
  - simpl. do 2 apply f_equal.
    transitivity (map (fun n => (n, g n)) (map fst (ev_body e))).
    + rewrite map_map. reflexivity.
    + rewrite Hb, map_map. reflexivity.
  - intros x c Hin. exists (raw_arg kw x). split; [|exact (Hd x c Hin)].
    apply lookup_map_name. rewrite <- Hb. apply in_map_iff. exists (x, c). auto.
Qed.

(** The same call, when one field's conversion raises and no other field
    holds a dict: the constructor raises that exception. *)
Lemma event_init_raise_at ext e kw x c err :
  In e event_catalog ->
  (forall k v, In (k, v) kw -> In k (map p_name (ev_params e))) ->
  (forall p, In p (ev_params e) -> p_default_none p = false -> lookup (p_name p) kw <> None) ->
  In (x, c) (ev_body e) ->
  decode_value ext c (raw_arg kw x) = Raise err ->
  (forall y cy, In (y, cy) (ev_body e) -> y <> x -> is_dict (raw_arg kw y) = false) ->
  event_init ext e kw = Raise err.
Proof.
  intros He Hk Hr Hin Hd Hother.
  destruct (event_catalog_facts e He) as [_ _ _ _ Hb Hn].
  assert (Hl : forall y cy, In (y, cy) (ev_body e) ->
     lookup y (map (fun p => (p_name p, raw_arg kw (p_name p))) (ev_params e)) =
     Some (raw_arg kw y)).
  { intros y cy Hy. apply lookup_map_name. rewrite <- Hb.
    apply in_map_iff. exists (y, cy). auto. }
  unfold event_init. rewrite (call_kw_full _ _ Hk Hr). simpl.
  rewrite (decode_fields_raise ext _ _ x c (raw_arg kw x) err); [reflexivity| | | | |].
  - rewrite Hb. exact Hn.
  - exact Hin.
  - exact (Hl _ _ Hin).
  - exact Hd.
  - intros y cy Hy Hne. exists (raw_arg kw y), (raw_arg kw y).
    split; [exact (Hl _ _ Hy)|].
    pose proof (Hother y cy Hy Hne) as Hnd.
    destruct (raw_arg kw y); try discriminate; reflexivity.
Qed.

(** ** Identity strings *)

Lemma int_str_inj a b : int_str a = int_str b -> a = b.
Proof.
  unfold int_str. intros H.
  apply (f_equal NilEmpty.int_of_string) in H. rewrite !NilEmpty.isi in H.
  injection H as H.
  rewrite <- (DecimalZ.of_to a), <- (DecimalZ.of_to b), H. reflexivity.
Qed.

Lemma uint_str_comma_free d : has_char "," (NilEmpty.string_of_uint d) = false.
Proof. induction d; simpl; auto. Qed.

Lemma int_str_comma_free z : comma_free (int_str z) = true.
Proof.
  unfold comma_free, int_str. destruct (Z.to_int z) as [d|d]; simpl;
    rewrite uint_str_comma_free; reflexivity.
Qed.

Lemma identity_strs_inj e vs1 vs2 :
  In e event_catalog ->
  length vs1 = length (hashable e) -> length vs2 = length (hashable e) ->
  Forall (fun v => comma_free (py_str v) = true) vs1 ->
  Forall (fun v => comma_free (py_str v) = true) vs2 ->
  identity_of e vs1 = identity_of e vs2 -> map py_str vs1 = map py_str vs2.
Proof.
  intros He L1 L2 C1 C2 H.
  unfold identity_of in H. rewrite !combine_map_snd in H.
  apply append_cancel_l in H. simpl in H. injection H as H.
  destruct (event_catalog_facts e He) as [_ _ _ Hc _ _].
  apply pair_items_inj with (hs := hashable e).
  - rewrite length_map. exact L1.
  - rewrite length_map. exact L2.
  - apply join_comma_inj; auto.
    + rewrite !length_map, !length_combine, !length_map, L1, L2. reflexivity.
    + apply pair_items_comma_free; auto. apply Forall_map. exact C1.
    + apply pair_items_comma_free; auto. apply Forall_map. exact C2.
Qed.

Lemma char_split c x y a b :
  has_char c x = false -> has_char c y = false ->
  x ++ String c a = y ++ String c b -> x = y /\ a = b.
Proof.
  revert y. induction x as [|c1 x IH]; intros [|c2 y]; simpl; intros Hx Hy H.
  - injection H as H. auto.
  - injection H as Hc _. subst c2. rewrite Ascii.eqb_refl in Hy. discriminate.
  - injection H as Hc _. subst c1. rewrite Ascii.eqb_refl in Hx. discriminate.
  - injection H as Hc H. subst c2.
    apply Bool.orb_false_iff in Hx as [_ Hx]. apply Bool.orb_false_iff in Hy as [_ Hy].
    destruct (IH y Hx Hy H) as [-> ->]. auto.
Qed.

Lemma build_hash_ok_prefix e kw s :
  build_hash e kw = Ok s -> exists rest, s = js_name e ++ String ":" rest.
Proof.
  unfold build_hash. destruct (ev_build_hash e) as [ps|ps].
  - destruct (call_kw (map req ps) kw); simpl; discriminate.
  - destruct (call_kw (map req ps) kw) as [kwargs|]; simpl; [|discriminate].
    intros H. injection H as <-. exists (serialize_id_params kwargs). reflexivity.
Qed.

Lemma invoke_method c kw p r :
  invoke c kw = Ok (p, r) -> payload_method p = Some (PStr (wire_method c)).
Proof.
  unfold invoke.
  destruct (call_kw (cmd_params c) kw) as [l|]; simpl; [|discriminate].
  destruct (read_display (cmd_payload c) l) as [ps|]; simpl; [|discriminate].
  intros H. injection H as <- _. reflexivity.
Qed.

(** ** Rejected calls *)







(** Extra X4: for every generated event class, [build_hash] raises
    [TypeError] when given a keyword outside [hashable] (for a
    non-hashable class: any keyword at all) or when a hashable field is
    not given; it does not reach its [ValueError] or its serialisation. *)
Theorem build_hash_rejects_bad_keywords (e : event_class) (kw : list (string * pyval)) :
  In e event_catalog ->
  (exists k v, In (k, v) kw /\ ~ In k (hashable e)) \/
  (exists h, In h (hashable e) /\ lookup h kw = None) ->
  exists msg, build_hash e kw = Raise (TypeError msg).
Proof.
  intros He H.
  destruct (event_catalog_facts e He) as [Hh Hbh _ _ _ _].
  assert (Hr : exists msg, call_kw (map req (hashable e)) kw = Raise (TypeError msg)).
  { apply call_kw_rejects. rewrite map_map. simpl. rewrite map_id.
    destruct H as [H|[h [Hin Hl]]]; [left; exact H|right].
    exists (req h). split; [apply in_map; exact Hin | split; [reflexivity | exact Hl]]. }
  assert (Hb : ev_build_hash e = BHSerialize (hashable e) \/
               ev_build_hash e = BHRaise (hashable e)).
  { destruct (is_hashable e) eqn:Hi; [left; exact Hbh|right].
    rewrite Hbh. f_equal. destruct (hashable e) as [|h0 hs] eqn:Hhe; [reflexivity|].
    exfalso. assert (false = true) as Ht by (apply Hh; discriminate).
    discriminate Ht. }
  destruct Hr as [msg Hm]. exists msg. unfold build_hash.
  destruct Hb as [Hb|Hb]; rewrite Hb, Hm; reflexivity.
Qed.

Lemma build_hash_rejects_bad_keywords_witness :
  exists msg, build_hash dom.ChildNodeInsertedEvent
                [("parentNodeId", PInt 7); ("previousNodeId", PInt 3); ("node", PNone)] =
              Raise (TypeError msg).
Proof.
  apply build_hash_rejects_bad_keywords.
  - cbv [event_catalog]. in_catalog.
  - left. exists "node", PNone. split.
    + right. right. left. reflexivity.
    + vm_compute. intros [H|[H|[]]]; discriminate.
Defined.

(** ** Successful decoding *)

(** Extra X5: an event constructor of the catalog, called with known
    keywords including every required one, where no field holds a dict
    (or only a [dict]-typed field does), stores each parameter in
    signature order with the value passed, [None] for an absent optional
    one. *)
Theorem event_init_plain_round_trip (ext : string -> list (string * pyval) -> result pyval)
    (e : event_class) (kw : list (string * pyval)) :
  In e event_catalog ->
  (forall k v, In (k, v) kw -> In k (map p_name (ev_params e))) ->
  (forall p, In p (ev_params e) -> p_default_none p = false -> lookup (p_name p) kw <> None) ->
  (forall x c, In (x, c) (ev_body e) -> is_dict (raw_arg kw x) = false \/ c = CBuiltin BDict) ->
  event_init ext e kw =
    Ok (PObj (ev_cls e) (map (fun p => (p_name p, raw_arg kw (p_name p))) (ev_params e))).
Proof.
  intros He Hk Hr Hd. apply event_init_eval; auto.
  intros x c Hin. destruct (Hd x c Hin) as [H| ->].
  - destruct (raw_arg kw x); try discriminate; reflexivity.
  - destruct (raw_arg kw x); reflexivity.
Qed.

Lemma event_init_plain_round_trip_witness :
  event_init (fun _ _ => Ok PNone) dom.SetChildNodesEvent
    [("nodes", PList []); ("parentId", PInt 3)] =
  Ok (PObj "SetChildNodesEvent" [("parentId", PInt 3); ("nodes", PList [])]).
Proof.
  apply event_init_plain_round_trip.
  - cbv [event_catalog]. in_catalog.
  - intros k v [H|[H|[]]]; injection H as <- <-; vm_compute; auto.
  - intros p Hp _. vm_compute in Hp. destruct Hp as [<-|[<-|[]]]; vm_compute; discriminate.
  - intros x c Hin. vm_compute in Hin.
    destruct Hin as [H|[H|[]]]; injection H as <- <-; left; reflexivity.
Defined.

(** Extra X6: a structure constructor of the catalog, called with known
    keywords including every required one, succeeds; its instance has one
    attribute per field, in assignment order, and reading any declared
    field gives the value passed ([None] when an optional one is
    absent). *)
Theorem struct_init_round_trip (sc : struct_class) (kw : list (string * pyval)) :
  In sc struct_catalog ->
  (forall k v, In (k, v) kw -> In k (map p_name (sc_params sc))) ->
  (forall p, In p (sc_params sc) -> p_default_none p = false -> lookup (p_name p) kw <> None) ->
  exists o, struct_init sc kw = Ok o /\
    o = PObj (sc_name sc) (map (fun f => (f, raw_arg kw f)) (sc_body sc)) /\
    forall p, In p (sc_params sc) -> getattr o (p_name p) = Some (raw_arg kw (p_name p)).
Proof.
  intros Hs Hk Hr.
  destruct (struct_catalog_facts sc Hs) as [_ _ Hbp Hpb].
  exists (PObj (sc_name sc) (map (fun f => (f, raw_arg kw f)) (sc_body sc))).
  split; [|split; [reflexivity|]].
  - unfold struct_init. rewrite (call_kw_full _ _ Hk Hr). simpl.
    rewrite (assign_attrs_full _ _ (raw_arg kw)); [reflexivity|].
    intros x Hx. apply lookup_map_name. apply Hbp. exact Hx.
  - intros p Hp. simpl. apply lookup_map_str. apply Hpb. apply in_map. exact Hp.
Qed.

Lemma struct_init_round_trip_witness :
  exists o, struct_init dom.RGBA [("b", PInt 3); ("g", PInt 2); ("r", PInt 1)] = Ok o /\
    o = PObj "RGBA" [("r", PInt 1); ("g", PInt 2); ("b", PInt 3); ("a", PNone)] /\
    forall p, In p (sc_params dom.RGBA) -> getattr o (p_name p) = Some (raw_arg
      [("b", PInt 3); ("g", PInt 2); ("r", PInt 1)] (p_name p)).
Proof.
  apply struct_init_round_trip.
  - cbv [struct_catalog]. in_catalog.
  - intros k v [H|[H|[H|[]]]]; injection H as <- <-; vm_compute; auto 6.
  - intros p Hp Hd. vm_compute in Hp.
    destruct Hp as [<-|[<-|[<-|[<-|[]]]]]; vm_compute in Hd |- *; discriminate.
Defined.

(** ** Fields that fail to decode *)

(** Extra X7: when an event field declared with a structure type receives
    a dict that has a key unknown to the structure, or lacks one of its
    required fields, the event constructor raises [TypeError] (the other
    fields holding no dict, and the event's own keywords being valid). *)
Theorem event_struct_field_bad_dict (ext : string -> list (string * pyval) -> result pyval)
    (e : event_class) (kw : list (string * pyval)) (x : string) (sc : struct_class)
    (d : list (string * pyval)) :
  In e event_catalog ->
  (forall k v, In (k, v) kw -> In k (map p_name (ev_params e))) ->
  (forall p, In p (ev_params e) -> p_default_none p = false -> lookup (p_name p) kw <> None) ->
  In (x, CStruct sc) (ev_body e) ->
  raw_arg kw x = PDict d ->
  (exists k v, In (k, v) d /\ ~ In k (map p_name (sc_params sc))) \/
  (exists p, In p (sc_params sc) /\ p_default_none p = false /\ lookup (p_name p) d = None) ->
  (forall y cy, In (y, cy) (ev_body e) -> y <> x -> is_dict (raw_arg kw y) = false) ->
  exists msg, event_init ext e kw = Raise (TypeError msg).
Proof.
  intros He Hk Hr Hin Hx Hbad Hother.
  destruct (call_kw_rejects _ _ Hbad) as [msg Hm].
  exists msg. apply (event_init_raise_at ext e kw x (CStruct sc)); auto.
  rewrite Hx. simpl. unfold struct_init. rewrite Hm. reflexivity.
Qed.

Lemma event_struct_field_bad_dict_witness :
  exists msg, event_init (fun _ _ => Ok PNone) dom.ChildNodeInsertedEvent
    [("parentNodeId", PInt 1); ("previousNodeId", PInt 0);
     ("node", PDict [("nodeId", PInt 2); ("nodeType", PInt 1); ("nodeName", PStr "DIV");
                     ("localName", PStr "div"); ("nodeValue", PStr "");
                     ("backendNodeId", PInt 9); ("colour", PStr "red")])] =
  Raise (TypeError msg).
Proof.
  apply (event_struct_field_bad_dict _ _ _ "node" dom.Node
           [("nodeId", PInt 2); ("nodeType", PInt 1); ("nodeName", PStr "DIV");
            ("localName", PStr "div"); ("nodeValue", PStr "");
            ("backendNodeId", PInt 9); ("colour", PStr "red")]).
  - cbv [event_catalog]. in_catalog.
  - intros k v [H|[H|[H|[]]]]; injection H as <- <-; vm_compute; auto.
  - intros p Hp _. vm_compute in Hp.
    destruct Hp as [<-|[<-|[<-|[]]]]; vm_compute; discriminate.
  - vm_compute. right. right. left. reflexivity.
  - reflexivity.
  - left. exists "colour", (PStr "red"). split.
    + vm_compute. right. right. right. right. right. right. left. reflexivity.
    + vm_compute. intuition discriminate.
  - intros y cy Hy Hne. vm_compute in Hy.
    destruct Hy as [H|[H|[H|[]]]]; injection H as <- _; try reflexivity.
    exfalso. apply Hne. reflexivity.
Defined.

(** Extra X8: an event field declared with an array type (generated as a
    list display such as [[Node]]) that receives a dict makes the event
    constructor raise [TypeError] (['list' object is not callable]), the
    other fields holding no dict and the keywords being valid. *)
Theorem event_sequence_field_dict (ext : string -> list (string * pyval) -> result pyval)
    (e : event_class) (kw : list (string * pyval)) (x src : string)
    (d : list (string * pyval)) :
  In e event_catalog ->
  (forall k v, In (k, v) kw -> In k (map p_name (ev_params e))) ->
  (forall p, In p (ev_params e) -> p_default_none p = false -> lookup (p_name p) kw <> None) ->
  In (x, CListLiteral src) (ev_body e) ->
  raw_arg kw x = PDict d ->
  (forall y cy, In (y, cy) (ev_body e) -> y <> x -> is_dict (raw_arg kw y) = false) ->
  event_init ext e kw = Raise (TypeError "'list' object is not callable").
Proof.
  intros He Hk Hr Hin Hx Hother.
  apply (event_init_raise_at ext e kw x (CListLiteral src)); auto.
  rewrite Hx. reflexivity.
Qed.

Lemma event_sequence_field_dict_witness :
  event_init (fun _ _ => Ok PNone) dom.SetChildNodesEvent
    [("parentId", PInt 3); ("nodes", PDict [])] =
  Raise (TypeError "'list' object is not callable").
Proof.
  apply (event_sequence_field_dict _ _ _ "nodes" "[Node]" []).
  - cbv [event_catalog]. in_catalog.
  - intros k v [H|[H|[]]]; injection H as <- <-; vm_compute; auto.
  - intros p Hp _. vm_compute in Hp. destruct Hp as [<-|[<-|[]]]; vm_compute; discriminate.
  - vm_compute. right. left. reflexivity.
  - reflexivity.
  - intros y cy Hy Hne. vm_compute in Hy.
    destruct Hy as [H|[H|[]]]; injection H as <- _; try reflexivity.
    exfalso. apply Hne. reflexivity.
Defined.

(** Extra X9: an [int]-typed event field that receives a dict is decoded
    as [int( **d)]: an empty dict becomes [0] (the other fields keeping
    their values), a non-empty one makes the constructor raise [TypeError]
    (the other fields holding no dict and the keywords being valid). *)
Theorem event_int_field_dict (ext : string -> list (string * pyval) -> result pyval)
    (e : event_class) (kw : list (string * pyval)) (x : string) (d : list (string * pyval)) :
  In e event_catalog ->
  (forall k v, In (k, v) kw -> In k (map p_name (ev_params e))) ->
  (forall p, In p (ev_params e) -> p_default_none p = false -> lookup (p_name p) kw <> None) ->
  In (x, CBuiltin BInt) (ev_body e) ->
  raw_arg kw x = PDict d ->
  (forall y cy, In (y, cy) (ev_body e) -> y <> x -> is_dict (raw_arg kw y) = false) ->
  (d = [] ->
   event_init ext e kw =
     Ok (PObj (ev_cls e)
           (map (fun p => (p_name p, if String.eqb (p_name p) x then PInt 0
                                     else raw_arg kw (p_name p))) (ev_params e)))) /\
  (d <> [] -> exists msg, event_init ext e kw = Raise (TypeError msg)).
Proof.
  intros He Hk Hr Hin Hx Hother.
  destruct (event_catalog_facts e He) as [_ _ _ _ Hb Hn].
  rewrite <- Hb in Hn.
  split.
  - intros ->. apply (event_init_eval ext e kw (fun n => if String.eqb n x then PInt 0 else raw_arg kw n));
      auto.
    intros y cy Hy. cbv beta.
    destruct (String.eqb y x) eqn:E.
    + apply String.eqb_eq in E. subst y.
      assert (cy = CBuiltin BInt) as ->.
      { pose proof (nodup_lookup _ _ _ Hn Hy) as L1.
        pose proof (nodup_lookup _ _ _ Hn Hin) as L2. congruence. }
      rewrite Hx. reflexivity.
    + assert (y <> x) as Hne.
      { intros Hyx. rewrite Hyx, String.eqb_refl in E. discriminate. }
      pose proof (Hother y cy Hy Hne) as Hnd.
      destruct (raw_arg kw y); try discriminate; reflexivity.
  - intros Hd. destruct d as [|kv d]; [congruence|].
    exists "takes no keyword arguments".
    apply (event_init_raise_at ext e kw x (CBuiltin BInt)); auto.
    rewrite Hx. reflexivity.
Qed.

Lemma event_int_field_dict_witness :
  event_init (fun _ _ => Ok PNone) dom.ChildNodeCountUpdatedEvent
    [("nodeId", PInt 4); ("childNodeCount", PDict [])] =
  Ok (PObj "ChildNodeCountUpdatedEvent" [("nodeId", PInt 4); ("childNodeCount", PInt 0)]).
Proof.
  refine (proj1 (event_int_field_dict (fun _ _ => Ok PNone) dom.ChildNodeCountUpdatedEvent
             [("nodeId", PInt 4); ("childNodeCount", PDict [])] "childNodeCount" []
             _ _ _ _ _ _) eq_refl).
  - cbv [event_catalog]. in_catalog.
  - intros k v [H|[H|[]]]; injection H as <- <-; vm_compute; auto.
  - intros p Hp _. vm_compute in Hp. destruct Hp as [<-|[<-|[]]]; vm_compute; discriminate.
  - vm_compute. right. left. reflexivity.
  - reflexivity.
  - intros y cy Hy Hne. vm_compute in Hy.
    destruct Hy as [H|[H|[]]]; injection H as <- _; try reflexivity.
    exfalso. apply Hne. reflexivity.
Defined.

(** ** Identities and wire methods *)

(** Extra X10: for a hashable event class whose hashable fields are given
    as ints, [build_hash] is injective: equal identity strings come from
    equal ids, field by field. *)
Theorem build_hash_int_ids_injective (e : event_class) (kw1 kw2 : list (string * pyval))
    (ns1 ns2 : list Z) :
  In e event_catalog ->
  is_hashable e = true ->
  (forall k v, In (k, v) kw1 -> In k (hashable e)) ->
  (forall k v, In (k, v) kw2 -> In k (hashable e)) ->
  Forall2 (fun h n => lookup h kw1 = Some (PInt n)) (hashable e) ns1 ->
  Forall2 (fun h n => lookup h kw2 = Some (PInt n)) (hashable e) ns2 ->
  build_hash e kw1 = build_hash e kw2 -> ns1 = ns2.
Proof.
  intros He Hh Hk1 Hk2 Hn1 Hn2 H.
  assert (F : forall kw hs ns, Forall2 (fun h n => lookup h kw = Some (PInt n)) hs ns ->
              Forall2 (fun h v => lookup h kw = Some v) hs (map PInt ns)).
  { intros kw hs ns HF. induction HF; simpl; constructor; auto. }
  rewrite (build_hash_hashable_values e kw1 (map PInt ns1) He Hh Hk1 (F _ _ _ Hn1)) in H.
  rewrite (build_hash_hashable_values e kw2 (map PInt ns2) He Hh Hk2 (F _ _ _ Hn2)) in H.
  injection H as H.
  assert (C : forall ns, Forall (fun v => comma_free (py_str v) = true) (map PInt ns)).
  { intros ns. apply Forall_map. apply Forall_forall. intros n _. apply int_str_comma_free. }
  apply identity_strs_inj in H; auto.
  - rewrite !map_map in H.
    apply (map_inj (fun n => py_str (PInt n))); [|exact H].
    intros a b Hab. apply int_str_inj. exact Hab.
  - rewrite length_map. exact (Forall2_length_l _ _ _ Hn1).
  - rewrite length_map. exact (Forall2_length_l _ _ _ Hn2).
Qed.

Lemma build_hash_int_ids_injective_witness : [3%Z; 7%Z] = [3%Z; 7%Z].
Proof.
  apply (build_hash_int_ids_injective dom.ChildNodeInsertedEvent
           [("parentNodeId", PInt 7); ("previousNodeId", PInt 3)]
           [("previousNodeId", PInt 3); ("parentNodeId", PInt 7)]).
  - cbv [event_catalog]. in_catalog.
  - reflexivity.
  - intros k v [H|[H|[]]]; injection H as <- <-; vm_compute; auto.
  - intros k v [H|[H|[]]]; injection H as <- <-; vm_compute; auto.
  - vm_compute. repeat constructor.
  - vm_compute. repeat constructor.
  - reflexivity.
Defined.

(** Extra X11: two event classes of the catalog never produce the same
    identity string: [build_hash] results of different classes differ,
    whatever the field values. *)
Theorem build_hash_distinct_events (e1 e2 : event_class) (kw1 kw2 : list (string * pyval))
    (s : string) :
  In e1 event_catalog -> In e2 event_catalog ->
  build_hash e1 kw1 = Ok s -> build_hash e2 kw2 = Ok s -> e1 = e2.
Proof.
  intros H1 H2 B1 B2.
  pose proof catalog_names_ok as W. unfold catalog_names_wf in W.
  apply andb_prop in W as [W _]. apply andb_prop in W as [W1 W2].
  rewrite forallb_forall in W2.
  destruct (build_hash_ok_prefix _ _ _ B1) as [r1 R1].
  destruct (build_hash_ok_prefix _ _ _ B2) as [r2 R2].
  rewrite R1 in R2.
  apply char_split in R2 as [Hj _].
  - exact (NoDup_map_inj js_name _ _ _ (nodupb_NoDup _ W1) H1 H2 Hj).
  - apply Bool.negb_true_iff. apply W2. exact H1.
  - apply Bool.negb_true_iff. apply W2. exact H2.
Qed.

Lemma build_hash_distinct_events_witness :
  dom.ChildNodeCountUpdatedEvent = dom.ChildNodeCountUpdatedEvent.
Proof.
  apply (build_hash_distinct_events _ _ [("nodeId", PInt 4)] [("nodeId", PInt 4)]
           "Dom.childNodeCountUpdated:nodeId=4").
  - cbv [event_catalog]. in_catalog.
  - cbv [event_catalog]. in_catalog.
  - reflexivity.
  - reflexivity.
Defined.

(** Extra X12: two commands of the catalog never send the same wire
    method: payloads built by different command classmethods carry
    different ["method"] entries. *)
Theorem invoke_distinct_wire_methods (c1 c2 : command) (kw1 kw2 : list (string * pyval))
    (p1 p2 : pyval) (r1 r2 : option (list (string * string * bool))) :
  In c1 command_catalog -> In c2 command_catalog ->
  invoke c1 kw1 = Ok (p1, r1) -> invoke c2 kw2 = Ok (p2, r2) ->
  payload_method p1 = payload_method p2 -> c1 = c2.
Proof.
  intros H1 H2 I1 I2 Hm.
  rewrite (invoke_method _ _ _ _ I1), (invoke_method _ _ _ _ I2) in Hm.
  injection Hm as Hm.
  pose proof catalog_names_ok as W. unfold catalog_names_wf in W.
  apply andb_prop in W as [_ W3].
  exact (NoDup_map_inj wire_method _ _ _ (nodupb_NoDup _ W3) H1 H2 Hm).
Qed.

Lemma invoke_distinct_wire_methods_witness : network.Network_enable = network.Network_enable.
Proof.
  apply (invoke_distinct_wire_methods _ _ [] [("maxTotalBufferSize", PInt 100)]
           (build_send_payload "Network" "enable" [("maxTotalBufferSize", PNone);
                                                    ("maxResourceBufferSize", PNone)])
           (build_send_payload "Network" "enable" [("maxTotalBufferSize", PInt 100);
                                                    ("maxResourceBufferSize", PNone)])
           None None).
  - cbv [command_catalog]. in_catalog.
  - cbv [command_catalog]. in_catalog.
  - reflexivity.
  - reflexivity.
  - reflexivity.
Defined.
